(** * get_links.py: links to the latest submission of each student

    A shallow embedding of [src/get_links.py] and proofs of the
    properties its specification states.

    The script reads a roster (a tab-separated file), fetches the user
    directory of a challenge from the Ed API, and for every student
    of the roster prints a link to the latest submission, a notice that
    there is none, or a search link when the directory does not know
    the email.

    Conventions of the embedding.
    - A Python [str] is a [string] whose characters are the code points
      below 256 (ASCII and Latin-1); [str.strip], [str.lower] and [repr]
      are modelled on that range.
    - A value decoded from JSON is a [json]; numbers are integers.  The
      script never checks what the server sent, so every operation on
      such a value can raise as it does in Python.
    - A computation is the list of events it emitted, in order, and its
      outcome: a value, or the exception that ended it ([M]).  Printing,
      HTTP requests and the pause between requests are events.
    - The outside world (file system, clock, HTTP server) is a
      read-only [World]: the server answers a URL the same way each
      time, and the request headers, bearer token included, are part of
      it.
    - What changed in the standard library between CPython releases is
      a field of the class [Python]; the theorems hold for every
      instance.

    The file has the embedding first (run time, CSV reader, the script,
    the words of the specification, examples), then the proofs. *)

From Stdlib Require Import ZArith NArith String Ascii List Bool Lia.
From stdpp Require Import base option list gmap strings pretty.
Import ListNotations.

Local Open Scope Z_scope.

(* ================================================================== *)
(** * Text: the operations of [str] the script uses *)
(* ================================================================== *)

Module Text.

Definition code (c : ascii) : N := N_of_ascii c.

Definition TAB : ascii := "009"%char.
Definition LF : ascii := "010"%char.
Definition CR : ascii := "013"%char.
Definition NUL : ascii := "000"%char.
Definition DQUOTE : ascii := "034"%char.
Definition SQUOTE : ascii := "039"%char.
Definition BACKSLASH : ascii := "092"%char.

Definition in_range (lo hi : N) (c : ascii) : bool :=
  ((lo <=? code c) && (code c <=? hi))%N.

(** [str.isspace] on one character: the ASCII white space table of
    CPython (9-13, 28-32) and the two Latin-1 spaces NEL and NBSP. *)
Definition is_space (c : ascii) : bool :=
  in_range 9 13 c || in_range 28 32 c
  || (code c =? 133)%N || (code c =? 160)%N.

(** Upper-case letters below 256: A-Z and the Latin-1 capitals
    (192-222 without the multiplication sign 215). *)
Definition is_upper (c : ascii) : bool :=
  in_range 65 90 c
  || (in_range 192 222 c && negb (code c =? 215)%N).

(** [str.lower] on one character: each of those has its lower-case
    partner 32 code points further. *)
Definition lower_char (c : ascii) : ascii :=
  if is_upper c then ascii_of_N (code c + 32) else c.

Fixpoint lower (s : string) : string :=
  match s with
  | EmptyString => EmptyString
  | String c s' => String (lower_char c) (lower s')
  end.


Definition is_empty (s : string) : bool :=
  match s with EmptyString => true | String _ _ => false end.

(** Drop the leading characters that satisfy [p]. *)
Fixpoint lstrip_with (p : ascii -> bool) (s : string) : string :=
  match s with
  | EmptyString => EmptyString
  | String c s' => if p c then lstrip_with p s' else s
  end.

(** Drop the trailing characters that satisfy [p]. *)
Fixpoint rstrip_with (p : ascii -> bool) (s : string) : string :=
  match s with
  | EmptyString => EmptyString
  | String c s' =>
      let r := rstrip_with p s' in
      if is_empty r && p c then EmptyString else String c r
  end.

(** [s.strip()] *)
Definition strip (s : string) : string :=
  rstrip_with is_space (lstrip_with is_space s).

(** [s.rstrip(chars)] for a one-character [chars]. *)
Definition rstrip_char (ch : ascii) (s : string) : string :=
  rstrip_with (Ascii.eqb ch) s.

Fixpoint chars (s : string) : list ascii :=
  match s with
  | EmptyString => []
  | String c s' => c :: chars s'
  end.

Fixpoint join (sep : string) (l : list string) : string :=
  match l with
  | [] => ""
  | [x] => x
  | x :: rest => x +:+ sep +:+ join sep rest
  end.

Definition hex_digit (upper : bool) (n : N) : ascii :=
  if (n <? 10)%N then ascii_of_N (48 + n)
  else ascii_of_N ((if upper then 55 else 87) + n).

(** The two hexadecimal digits of a code below 256. *)
Definition hex2 (upper : bool) (n : N) : string :=
  String (hex_digit upper (n / 16)) (String (hex_digit upper (n mod 16)) "").

(** Left-pad a decimal numeral with zeros to [width] characters
    (the [%0<width>d] of C for a non-negative number). *)
Definition zero_pad (width : nat) (n : N) : string :=
  let s := pretty n in
  String.string_of_list_ascii (replicate (width - String.length s) "0"%char) +:+ s.

End Text.

(* ================================================================== *)
(** * The Python run time: exceptions, events, JSON values *)
(* ================================================================== *)

(** The two [ValueError]s the script can meet. *)
Inductive value_error :=
  | EmptySequence      (* max() of an empty iterable *)
  | InvalidIsoformat.  (* datetime.fromisoformat on a string it rejects *)

Inductive exn :=
  | FileNotFoundError
  | OSError            (* any other failure of open() or of reading the file *)
  | CsvError           (* _csv.Error *)
  | AttributeError
  | KeyError
  | TypeError
  | ValueError (why : value_error)
  | JSONDecodeError
  | ConnectionError.   (* requests.get could not obtain a response *)

#[global] Instance value_error_eq_dec : EqDecision value_error.
Proof. solve_decision. Defined.
#[global] Instance exn_eq_dec : EqDecision exn.
Proof. solve_decision. Defined.

(** Outcome of a computation: a value, or the exception that ended it. *)
Inductive res (A : Type) : Type :=
  | Ok (a : A)
  | Raise (e : exn).
Arguments Ok {A} a.
Arguments Raise {A} e.

#[global] Instance res_ret : MRet res := @Ok.
#[global] Instance res_bind : MBind res := fun A B f m =>
  match m with
  | Ok a => f a
  | Raise e => Raise e
  end.

(** What a run does to the outside world, in order. *)
Inductive event :=
  | Stdout (line : string)    (* print(...) *)
  | Stderr (line : string)    (* print(..., file=sys.stderr) *)
  | HttpGet (url : string)    (* requests.get(url, headers=AUTH_HEADER) *)
  | Sleep.                    (* time.sleep(0.2) *)

#[global] Instance event_eq_dec : EqDecision event.
Proof. solve_decision. Defined.

(** A computation: the events emitted so far and the outcome.  An
    exception keeps the events that came before it. *)
Definition M (A : Type) : Type := (list event * res A)%type.

#[global] Instance M_ret : MRet M := fun A a => ([], Ok a).
#[global] Instance M_bind : MBind M := fun A B f m =>
  match m with
  | (t, Ok a) => let '(t', r) := f a in (t ++ t', r)
  | (t, Raise e) => (t, Raise e)
  end.

Definition lift {A} (r : res A) : M A := ([], r).
Definition emit (e : event) : M unit := ([e], Ok tt).
Definition print (line : string) : M unit := emit (Stdout line).
Definition print_stderr (line : string) : M unit := emit (Stderr line).

(** [try: body  except <caught>: handler] *)
Definition try_except {A} (body : M A) (caught : exn) (handler : M A) : M A :=
  match body with
  | (t, Raise e) =>
      if decide (e = caught) then let '(t', r) := handler in (t ++ t', r)
      else (t, Raise e)
  | finished => finished
  end.

Definition events {A} (m : M A) : list event := fst m.
Definition outcome {A} (m : M A) : res A := snd m.

(** The lines written to standard output. *)
Definition stdout_of (t : list event) : list string :=
  omap (fun e => match e with Stdout l => Some l | _ => None end) t.

(** ** JSON values, as [response.json()] returns them *)

#[warnings="-register-all"]
Inductive json :=
  | JNull                                (* None *)
  | JBool (b : bool)
  | JInt (z : Z)
  | JStr (s : string)
  | JList (l : list json)
  | JDict (items : list (string * json)). (* keys in insertion order *)

(** Truth value of an object ([if x:], [not x]). *)
Definition truthy (j : json) : bool :=
  match j with
  | JNull => false
  | JBool b => b
  | JInt z => negb (z =? 0)
  | JStr s => negb (Text.is_empty s)
  | JList l => match l with [] => false | _ => true end
  | JDict items => match items with [] => false | _ => true end
  end.

Fixpoint dict_lookup (key : string) (items : list (string * json)) : option json :=
  match items with
  | [] => None
  | (k, v) :: rest => if decide (k = key) then Some v else dict_lookup key rest
  end.

(** [obj[key]] for a [str] key: only a dict takes one. *)
Definition getitem (obj : json) (key : string) : res json :=
  match obj with
  | JDict items =>
      match dict_lookup key items with
      | Some v => Ok v
      | None => Raise KeyError
      end
  | _ => Raise TypeError
  end.

(** [obj.get(key, default)]: only a dict has the method. *)
Definition get_default (obj : json) (key : string) (dflt : json) : res json :=
  match obj with
  | JDict items => Ok (default dflt (dict_lookup key items))
  | _ => Raise AttributeError
  end.

(** Iteration ([for x in obj], [max(obj, ...)]): a list yields its
    elements, a dict its keys, a str its characters; nothing else is
    iterable. *)
Definition py_iter (obj : json) : res (list json) :=
  match obj with
  | JList l => Ok l
  | JDict items => Ok (map (fun kv => JStr (fst kv)) items)
  | JStr s => Ok (map (fun c => JStr (String c "")) (Text.chars s))
  | _ => Raise TypeError
  end.

(** ** [repr] and [str] *)

Fixpoint contains (ch : ascii) (s : string) : bool :=
  match s with
  | EmptyString => false
  | String c s' => Ascii.eqb c ch || contains ch s'
  end.

(** The quote [repr] puts around a str: a single quote, unless the text
    has single quotes and no double quote. *)
Definition repr_quote (s : string) : ascii :=
  if contains Text.SQUOTE s && negb (contains Text.DQUOTE s)
  then Text.DQUOTE else Text.SQUOTE.

(** [str.isprintable] above ASCII, below 256: everything from 161 on but
    the soft hyphen. *)
Definition printable_latin1 (c : ascii) : bool :=
  Text.in_range 161 255 c && negb (Text.code c =? 173)%N.

Definition repr_char (quote c : ascii) : string :=
  if Ascii.eqb c quote || Ascii.eqb c Text.BACKSLASH
  then String Text.BACKSLASH (String c "")
  else if Ascii.eqb c Text.TAB then "\t"
  else if Ascii.eqb c Text.LF then "\n"
  else if Ascii.eqb c Text.CR then "\r"
  else if (Text.code c <? 32)%N || (Text.code c =? 127)%N
  then "\x" +:+ Text.hex2 false (Text.code c)
  else if (Text.code c <? 127)%N then String c ""
  else if printable_latin1 c then String c ""
  else "\x" +:+ Text.hex2 false (Text.code c).

Fixpoint repr_chars (quote : ascii) (s : string) : string :=
  match s with
  | EmptyString => EmptyString
  | String c s' => repr_char quote c +:+ repr_chars quote s'
  end.

Definition repr_str (s : string) : string :=
  let q := repr_quote s in
  String q (repr_chars q s) +:+ String q "".

Fixpoint py_repr (j : json) : string :=
  match j with
  | JNull => "None"
  | JBool true => "True"
  | JBool false => "False"
  | JInt z => pretty z
  | JStr s => repr_str s
  | JList l => "[" +:+ Text.join ", " (map py_repr l) +:+ "]"
  | JDict items =>
      "{" +:+ Text.join ", "
                (map (fun kv => match kv with
                                | (k, v) => repr_str k +:+ ": " +:+ py_repr v
                                end) items) +:+ "}"
  end.

(** [str(obj)], which is also what a [{name}] field of [str.format] or of
    an f-string inserts. *)
Definition py_str (j : json) : string :=
  match j with
  | JStr s => s
  | _ => py_repr j
  end.

(** ** Dictionary keys *)

(** The hashable JSON values as dict keys.  [True] and [1], [False] and
    [0] are one key each, as in Python. *)
Inductive pykey :=
  | KNone
  | KInt (z : Z)
  | KStr (s : string).

#[global] Instance pykey_eq_dec : EqDecision pykey.
Proof. solve_decision. Defined.

#[global] Instance pykey_countable : Countable pykey.
Proof.
  refine (inj_countable'
    (fun k => match k with
              | KNone => inl tt
              | KInt z => inr (inl z)
              | KStr s => inr (inr s)
              end)
    (fun x => match x with
              | inl _ => KNone
              | inr (inl z) => KInt z
              | inr (inr s) => KStr s
              end) _).
  intros []; reflexivity.
Defined.

(** [hash(obj)], as far as a dict needs it: lists and dicts are
    unhashable. *)
Definition py_key (obj : json) : res pykey :=
  match obj with
  | JNull => Ok KNone
  | JBool b => Ok (KInt (if b then 1 else 0))
  | JInt z => Ok (KInt z)
  | JStr s => Ok (KStr s)
  | JList _ | JDict _ => Raise TypeError
  end.

(** ** Date and time *)

(** The fields of a [datetime] (year, month, day, hour, minute, second,
    microsecond). *)
Record civil := {
  year : N; month : N; day : N;
  hour : N; minute : N; second : N; microsecond : N
}.

(** A [datetime]: its fields and its [tzinfo], [None] for a naive one,
    otherwise the offset from UTC in microseconds. *)
Record datetime := {
  base : civil;
  tzinfo : option Z
}.

#[global] Instance civil_eq_dec : EqDecision civil.
Proof. solve_decision. Defined.
#[global] Instance datetime_eq_dec : EqDecision datetime.
Proof. solve_decision. Defined.

(** [timezone.utc] *)
Definition utc : Z := 0.

(** [dt.replace(tzinfo=tz)]: the fields stay, the zone is overwritten. *)
Definition replace_tzinfo (dt : datetime) (tz : Z) : datetime :=
  {| base := base dt; tzinfo := Some tz |}.

(** The fields in the order CPython stores and compares them. *)
Definition data (dt : datetime) : list N :=
  let c := base dt in
  [year c; month c; day c; hour c; minute c; second c; microsecond c].

(** Lexicographic "greater than" on the stored fields. *)
Fixpoint lex_gt (a b : list N) : bool :=
  match a, b with
  | x :: a', y :: b' => (y <? x)%N || ((x =? y)%N && lex_gt a' b')
  | _ :: _, [] => true
  | [], _ => false
  end.

(** [a > b] for two datetimes that carry the same [tzinfo] object: the
    zone is ignored and the stored fields are compared.  Every key of
    [find_accepted_submission] carries [timezone.utc]. *)
Definition datetime_gt (a b : datetime) : bool := lex_gt (data a) (data b).

(** [str(dt)] of a naive datetime: [isoformat(sep=' ')], the fraction
    only when it is not zero. *)
Definition str_civil (c : civil) : string :=
  Text.zero_pad 4 (year c) +:+ "-" +:+ Text.zero_pad 2 (month c) +:+ "-"
  +:+ Text.zero_pad 2 (day c) +:+ " " +:+ Text.zero_pad 2 (hour c) +:+ ":"
  +:+ Text.zero_pad 2 (minute c) +:+ ":" +:+ Text.zero_pad 2 (second c)
  +:+ (if (microsecond c =? 0)%N then ""
       else "." +:+ Text.zero_pad 6 (microsecond c)).

(** The ranges the constructor of [datetime] enforces. *)
Definition is_leap (y : Z) : bool :=
  (y mod 4 =? 0) && (negb (y mod 100 =? 0) || (y mod 400 =? 0)).

Definition days_in_month (y m : Z) : Z :=
  if m =? 2 then (if is_leap y then 29 else 28)
  else if (m =? 4) || (m =? 6) || (m =? 9) || (m =? 11) then 30
  else 31.

Definition valid_civil (c : civil) : bool :=
  ((1 <=? year c) && (year c <=? 9999)
   && (1 <=? month c) && (month c <=? 12) && (1 <=? day c)
   && (hour c <=? 23) && (minute c <=? 59) && (second c <=? 59)
   && (microsecond c <=? 999999))%N
  && (Z.of_N (day c) <=? days_in_month (Z.of_N (year c)) (Z.of_N (month c))).

(** ** The release-dependent part of the standard library *)

Class Python := {
  (** [datetime.fromisoformat]: the datetime read from the text, [None]
      where it raises [ValueError].  The accepted grammar grew with
      CPython 3.11; nothing below depends on it. *)
  fromisoformat : string -> option datetime;
  (** Whether [csv.reader] rejects a line that holds a NUL character
      (it did before CPython 3.11). *)
  csv_rejects_nul : bool
}.

(** ** The outside world *)

Inductive file :=
  | NoSuchFile                 (* open() raises FileNotFoundError *)
  | Unreadable                 (* open() or the read raises another OSError *)
  | FileText (content : string).

Record Response := {
  status_code : Z;
  (** the body decoded as JSON, [None] when it is not JSON *)
  body : option json
}.

Record World := {
  filesystem : string -> file;
  (** the reading of the clock that [datetime.now()] returns *)
  clock : civil;
  (** the server's answer to a GET of the URL, [None] when there is none *)
  http_get : string -> option Response
}.

(* ================================================================== *)
(** * The library's CSV reader, for the dialect the script sets *)
(* ================================================================== *)

(** [csv.reader] as [Modules/_csv.c] implements it, specialised to the
    dialect of the call (excel with [delimiter="\t"]): quote character
    the double quote, doubled quotes, no escape character, not strict,
    no skipping of initial spaces.  The three states that only an escape
    character reaches are left out. *)
Module Csv.

Inductive ParserState :=
  | START_RECORD
  | START_FIELD
  | IN_FIELD
  | IN_QUOTED_FIELD
  | QUOTE_IN_QUOTED_FIELD
  | EAT_CRNL.

#[global] Instance ParserState_eq_dec : EqDecision ParserState.
Proof. solve_decision. Defined.

Record ReaderObj := {
  state : ParserState;
  fields : list string;   (* the fields saved for the current record *)
  field : string          (* the characters of the field being read *)
}.

Definition delimiter : ascii := Text.TAB.
Definition quotechar : ascii := Text.DQUOTE.

(** [csv.field_size_limit()] *)
Definition field_limit : N := 131072.

Definition parse_reset : ReaderObj :=
  {| state := START_RECORD; fields := []; field := "" |}.

Definition set_state (r : ReaderObj) (s : ParserState) : ReaderObj :=
  {| state := s; fields := fields r; field := field r |}.

Definition parse_save_field (r : ReaderObj) : ReaderObj :=
  {| state := state r; fields := fields r ++ [field r]; field := "" |}.

Definition parse_add_char (r : ReaderObj) (c : ascii) : res ReaderObj :=
  if (field_limit <=? N.of_nat (String.length (field r)))%N
  then Raise CsvError
  else Ok {| state := state r; fields := fields r;
             field := field r +:+ String c "" |}.

Definition is_newline (c : ascii) : bool :=
  Ascii.eqb c Text.LF || Ascii.eqb c Text.CR.

(** The end of a field at a line end: [c] is the newline character, or
    [None] for the end-of-line mark fed after each line. *)
Definition end_of_line (r : ReaderObj) (c : option ascii) : ReaderObj :=
  set_state (parse_save_field r)
            (match c with None => START_RECORD | Some _ => EAT_CRNL end).

(** [case START_FIELD] *)
Definition start_field (r : ReaderObj) (c : option ascii) : res ReaderObj :=
  match c with
  | None => Ok (end_of_line r c)
  | Some ch =>
      if is_newline ch then Ok (end_of_line r c)
      else if Ascii.eqb ch quotechar then Ok (set_state r IN_QUOTED_FIELD)
      else if Ascii.eqb ch delimiter then Ok (parse_save_field r)
      else r' ← parse_add_char r ch; Ok (set_state r' IN_FIELD)
  end.

(** [parse_process_char]; [None] is the end-of-line mark [EOL]. *)
Definition parse_process_char (r : ReaderObj) (c : option ascii)
  : res ReaderObj :=
  match state r with
  | START_RECORD =>
      match c with
      | None => Ok r
      | Some ch =>
          if is_newline ch then Ok (set_state r EAT_CRNL)
          else start_field (set_state r START_FIELD) c
      end
  | START_FIELD => start_field r c
  | IN_FIELD =>
      match c with
      | None => Ok (end_of_line r c)
      | Some ch =>
          if is_newline ch then Ok (end_of_line r c)
          else if Ascii.eqb ch delimiter
          then Ok (set_state (parse_save_field r) START_FIELD)
          else parse_add_char r ch
      end
  | IN_QUOTED_FIELD =>
      match c with
      | None => Ok r
      | Some ch =>
          if Ascii.eqb ch quotechar then Ok (set_state r QUOTE_IN_QUOTED_FIELD)
          else parse_add_char r ch
      end
  | QUOTE_IN_QUOTED_FIELD =>
      match c with
      | None => Ok (end_of_line r c)
      | Some ch =>
          if Ascii.eqb ch quotechar
          then r' ← parse_add_char r ch; Ok (set_state r' IN_QUOTED_FIELD)
          else if Ascii.eqb ch delimiter
          then Ok (set_state (parse_save_field r) START_FIELD)
          else if is_newline ch then Ok (end_of_line r c)
          else r' ← parse_add_char r ch; Ok (set_state r' IN_FIELD)
      end
  | EAT_CRNL =>
      match c with
      | None => Ok (set_state r START_RECORD)
      | Some ch => if is_newline ch then Ok r else Raise CsvError
      end
  end.

(** The lines a text file opened with an empty [newline] yields: split after
    LF, after CR LF and after a lone CR, the line ends kept. *)
Fixpoint readlines_from (cur : string) (s : string) : list string :=
  match s with
  | EmptyString => if Text.is_empty cur then [] else [cur]
  | String c s' =>
      if Ascii.eqb c Text.LF
      then (cur +:+ String c "") :: readlines_from "" s'
      else if Ascii.eqb c Text.CR
      then match s' with
           | String c' s'' =>
               if Ascii.eqb c' Text.LF
               then (cur +:+ String c (String c' "")) :: readlines_from "" s''
               else (cur +:+ String c "") :: readlines_from "" s'
           | EmptyString => [cur +:+ String c ""]
           end
      else readlines_from (cur +:+ String c "") s'
  end.

Definition readlines (s : string) : list string := readlines_from "" s.

Section Reader.
Context `{Python}.

(** The characters of one line, one by one. *)
Fixpoint feed_chars (r : ReaderObj) (line : string) : res ReaderObj :=
  match line with
  | EmptyString => Ok r
  | String c rest =>
      if csv_rejects_nul && Ascii.eqb c Text.NUL then Raise CsvError
      else r' ← parse_process_char r (Some c); feed_chars r' rest
  end.

(** One line, then the end-of-line mark. *)
Definition feed_line (r : ReaderObj) (line : string) : res ReaderObj :=
  r' ← feed_chars r line; parse_process_char r' None.

(** Iterating the reader over the lines: the rows it yields in order
    and, when the iteration ends in an error, that error.  A record
    ends with the line after which the state is [START_RECORD]; at
    the end of the input a field under way is saved. *)
Fixpoint reader_rows (r : ReaderObj) (lines : list string)
  : list (list string) * option exn :=
  match lines with
  | [] =>
      if negb (Text.is_empty (field r))
         || bool_decide (state r = IN_QUOTED_FIELD)
      then ([fields (parse_save_field r)], None)
      else ([], None)
  | line :: rest =>
      match feed_line r line with
      | Raise e => ([], Some e)
      | Ok r' =>
          if decide (state r' = START_RECORD)
          then let '(rows, err) := reader_rows parse_reset rest in
               (fields r' :: rows, err)
          else reader_rows r' rest
      end
  end.

Definition reader (lines : list string) : list (list string) * option exn :=
  reader_rows parse_reset lines.

End Reader.

(** ** [csv.DictReader] *)

(** The dict made of one row: [dict(zip(fieldnames, row))], the field
    names the row is too short for set to [restval], which is [None].
    (The surplus fields of a longer row go under the key [None], which
    the script never reads.) *)
Definition dict_row (fieldnames row : list string)
  : gmap string (option string) :=
  foldl (fun d key => <[key := None]> d)
        (list_to_map (zip fieldnames (Some <$> row)))
        (drop (length row) fieldnames).

(** [DictReader.__next__] passes over the rows that are [[]]. *)
Definition not_blank (row : list string) : bool :=
  match row with [] => false | _ => true end.

End Csv.

(* ================================================================== *)
(** * The script *)
(* ================================================================== *)

(** ** Constants *)

Definition API_ID : Z := 134120.
Definition SLIDE_ID : Z := 414786.
Definition STUDENTS_FILE : string := "students.txt".

Definition USERS_API_URL : string :=
  "https://edstem.org/api/challenges/" +:+ pretty API_ID +:+ "/users".

(** [SUBMISSIONS_API_URL_TEMPLATE.format(student_id=...)] *)
Definition SUBMISSIONS_API_URL_TEMPLATE (student_id : string) : string :=
  "https://edstem.org/api/users/" +:+ student_id +:+ "/challenges/"
  +:+ pretty API_ID +:+ "/submissions".

(** [SUBMISSION_URL_TEMPLATE.format(student_id=..., submission_id=...)] *)
Definition SUBMISSION_URL_TEMPLATE (student_id submission_id : string) : string :=
  "https://edstem.org/au/courses/18651/lessons/61238/slides/"
  +:+ pretty SLIDE_ID +:+ "/submissions?u=" +:+ student_id
  +:+ "&s=" +:+ submission_id.

(** [MISSING_EMAIL_URL_TEMPLATE.format(query=...)] *)
Definition MISSING_EMAIL_URL_TEMPLATE (query : string) : string :=
  "https://edstem.org/au/courses/18651/lessons/61238/slides/"
  +:+ pretty SLIDE_ID +:+ "/submissions?q=" +:+ query.

Definition NO_STUDENTS_MESSAGE : string := "No student data found. Exiting.".
Definition NO_USERS_MESSAGE : string := "No users fetched from API. Exiting.".
Definition LATE_MESSAGE : string :=
  "LATE - No valid submissions before cutoff datetime".

(** ** Data *)

(** One dict of [student_data]. *)
Record Student := {
  first_name : string;
  last_name : string;
  email : string
}.

Definition fieldnames : list string :=
  ["first_name"; "last_name"; "preferred_name"; "email"].

(** [row[key]] on the dict of a row; the value is [None] for Python's
    [None]. *)
Definition row_get (row : gmap string (option string)) (key : string)
  : res (option string) :=
  match row !! key with
  | Some v => Ok v
  | None => Raise KeyError
  end.

(** [v.strip()]: [None] has no such method. *)
Definition strip_method (v : option string) : res string :=
  match v with
  | Some s => Ok (Text.strip s)
  | None => Raise AttributeError
  end.

(** The dict the loop body of [read_student_data] appends for one row. *)
Definition student_of_row (row : gmap string (option string)) : res Student :=
  fn ← row_get row "first_name" ≫= strip_method;
  ln ← row_get row "last_name" ≫= strip_method;
  em ← row_get row "email" ≫= strip_method;
  Ok {| first_name := fn; last_name := ln; email := Text.lower em |}.

(** [for row in reader: student_data.append(...)]: the rows in order,
    then the error that ended the reader's iteration, if any. *)
Fixpoint read_rows (rows : list (list string)) (err : option exn)
    (student_data : list Student) : res (list Student) :=
  match rows with
  | [] =>
      match err with
      | None => Ok student_data
      | Some e => Raise e
      end
  | row :: rest =>
      student ← student_of_row (Csv.dict_row fieldnames row);
      read_rows rest err (student_data ++ [student])
  end.

(** [open(file_path, mode='r', newline='', encoding='utf-8')] and the
    text read from it. *)
Definition open (w : World) (file_path : string) : res string :=
  match filesystem w file_path with
  | NoSuchFile => Raise FileNotFoundError
  | Unreadable => Raise OSError
  | FileText content => Ok content
  end.

(** [requests.get(url, headers=AUTH_HEADER)] *)
Definition requests_get (w : World) (url : string) : M Response :=
  emit (HttpGet url);;
  lift (match http_get w url with
        | Some response => Ok response
        | None => Raise ConnectionError
        end).

(** [response.json()] *)
Definition response_json (response : Response) : res json :=
  match body response with
  | Some j => Ok j
  | None => Raise JSONDecodeError
  end.

(** [for x in l: body(x)] *)
Fixpoint for_each {A} (body : A -> M unit) (l : list A) : M unit :=
  match l with
  | [] => mret tt
  | x :: rest => body x;; for_each body rest
  end.

(** [max(items, key=key)] without a default: the first item is the
    candidate; a later one replaces it only when its key is greater. *)
Fixpoint max_loop (key : json -> res datetime) (items : list json)
    (maxitem : json) (maxval : datetime) : res json :=
  match items with
  | [] => Ok maxitem
  | item :: rest =>
      val ← key item;
      if datetime_gt val maxval then max_loop key rest item val
      else max_loop key rest maxitem maxval
  end.

Definition py_max (key : json -> res datetime) (items : list json) : res json :=
  match items with
  | [] => Raise (ValueError EmptySequence)
  | item :: rest => val ← key item; max_loop key rest item val
  end.

(** [{user["email"]: user["id"] for user in users}], entry by entry. *)
Fixpoint user_dict_from (users : list json) (acc : gmap pykey json)
  : res (gmap pykey json) :=
  match users with
  | [] => Ok acc
  | user :: rest =>
      k ← getitem user "email";
      v ← getitem user "id";
      hk ← py_key k;
      user_dict_from rest (<[hk := v]> acc)
  end.

Definition user_dict_of (users : json) : res (gmap pykey json) :=
  l ← py_iter users; user_dict_from l ∅.

Section Script.
Context `{Python}.

(** ** [read_student_data] *)
Definition read_student_data (w : World) (file_path : string)
  : M (list Student) :=
  try_except
    (lift (text ← open w file_path;
           let '(rows, err) := Csv.reader (Csv.readlines text) in
           read_rows (List.filter Csv.not_blank rows) err []))
    FileNotFoundError
    (print ("Error: The file " +:+ file_path +:+ " was not found.");;
     mret []).

(** ** [fetch_users] *)
Definition fetch_users (w : World) : M json :=
  response ← requests_get w USERS_API_URL;
  if status_code response =? 200
  then lift (j ← response_json response; get_default j "users" (JList []))
  else
    print_stderr ("Failed to fetch users. Status code: "
                  +:+ pretty (status_code response));;
    mret (JList []).

(** ** [fetch_submissions] *)
Definition fetch_submissions (w : World) (student_id : json) : M json :=
  let url := SUBMISSIONS_API_URL_TEMPLATE (py_str student_id) in
  response ← requests_get w url;
  if status_code response =? 200
  then lift (j ← response_json response;
             get_default j "submissions" (JList []))
  else
    print_stderr ("Failed to fetch submissions for student ID "
                  +:+ py_str student_id +:+ ". Status code: "
                  +:+ pretty (status_code response));;
    mret (JList []).

(** ** [parse_iso_datetime] *)
Definition parse_iso_datetime (iso_string : json) : res datetime :=
  match iso_string with
  | JStr s =>
      match fromisoformat (Text.rstrip_char "Z" s) with
      | Some dt => Ok (replace_tzinfo dt utc)
      | None => Raise (ValueError InvalidIsoformat)
      end
  | _ => Raise AttributeError   (* no [rstrip] on anything but a str *)
  end.

(** The key of [find_accepted_submission]:
    [lambda s: parse_iso_datetime(s["created_at"])] *)
Definition created_at_key (s : json) : res datetime :=
  getitem s "created_at" ≫= parse_iso_datetime.

(** ** [find_accepted_submission] *)
Definition find_accepted_submission (submissions : json) : res json :=
  items ← py_iter submissions; py_max created_at_key items.

(** ** [main] *)

(** The body of [for student in students:]. *)
Definition main_loop_body (w : World) (current_datetime : civil)
    (user_dict : gmap pykey json) (student : Student) : M unit :=
  let email := email student in
  let first_name := first_name student in
  let last_name := last_name student in
  match user_dict !! KStr email with
  | Some student_id =>
      submissions ← fetch_submissions w student_id;
      emit Sleep;;
      if negb (truthy submissions)
      then print ("No submissions found, as of "
                  +:+ str_civil current_datetime)
      else
        latest_submission ← lift (find_accepted_submission submissions);
        if truthy latest_submission
        then
          submission_id ← lift (getitem latest_submission "id");
          print (SUBMISSION_URL_TEMPLATE (py_str student_id)
                                         (py_str submission_id))
        else print LATE_MESSAGE
  | None =>
      (* Student with staff email not found *)
      let query := first_name +:+ "%20" +:+ last_name in
      print (MISSING_EMAIL_URL_TEMPLATE query)
  end.

Definition main (w : World) : M unit :=
  let current_datetime := clock w in
  students ← read_student_data w STUDENTS_FILE;
  if match students with [] => true | _ => false end
  then print NO_STUDENTS_MESSAGE
  else
    users ← fetch_users w;
    if negb (truthy users)
    then print NO_USERS_MESSAGE
    else
      user_dict ← lift (user_dict_of users);
      for_each (main_loop_body w current_datetime user_dict) students.

End Script.

(* ================================================================== *)
(** * The words of the specification *)
(* ================================================================== *)

(** ** The roster file: well-formed lines of four tab-separated columns *)
Module Roster.

(** One line: first name, last name, a placeholder column, email. *)
Record Line := {
  first : string;
  last : string;
  placeholder : string;
  address : string
}.

(** A character of a column: not the delimiter, not a line end, not
    NUL. *)
Definition plain_char (c : ascii) : bool :=
  negb (Ascii.eqb c Csv.delimiter || Csv.is_newline c
        || Ascii.eqb c Text.NUL).

Fixpoint plain_chars (s : string) : bool :=
  match s with
  | EmptyString => true
  | String c s' => plain_char c && plain_chars s'
  end.

Definition starts_with (ch : ascii) (s : string) : bool :=
  match s with
  | String c _ => Ascii.eqb c ch
  | EmptyString => false
  end.

(** A column: plain characters, no opening quote, within the reader's
    field size limit. *)
Definition plain (f : string) : bool :=
  plain_chars f && negb (starts_with Csv.quotechar f)
  && (N.of_nat (String.length f) <=? Csv.field_limit)%N.

Definition columns (l : Line) : list string :=
  [first l; last l; placeholder l; address l].

Definition well_formed (l : Line) : bool := forallb plain (columns l).

Definition tab : string := String Csv.delimiter "".

(** The text of the line, without its line end. *)
Definition text (l : Line) : string :=
  first l +:+ tab +:+ last l +:+ tab +:+ placeholder l +:+ tab +:+ address l.

Definition LF : string := String Text.LF "".
Definition CR : string := String Text.CR "".
Definition CRLF : string := String Text.CR (String Text.LF "").

Definition line_end (t : string) : bool :=
  bool_decide (t = LF) || bool_decide (t = CRLF) || bool_decide (t = CR).

(** A file: the lines, each with the line end that follows it. *)
Fixpoint file_text (ls : list (Line * string)) : string :=
  match ls with
  | [] => ""
  | (l, t) :: rest => text l +:+ t +:+ file_text rest
  end.

(** Every line is ended by LF, CR LF or CR; the last one may also end
    with the file. *)
Fixpoint line_ends_ok (ls : list (Line * string)) : bool :=
  match ls with
  | [] => true
  | [(_, t)] => line_end t || Text.is_empty t
  | (_, t) :: rest => line_end t && line_ends_ok rest
  end.

(** The text of a line followed by its line end. *)
Definition line_with_end (lt : Line * string) : string :=
  text (fst lt) +:+ snd lt.

Fixpoint no_newline (s : string) : bool :=
  match s with
  | EmptyString => true
  | String c s' => negb (Csv.is_newline c) && no_newline s'
  end.

(** The record the specification asks for: names and email trimmed,
    the email lower-cased. *)
Definition record (l : Line) : Student :=
  {| first_name := Text.strip (first l);
     last_name := Text.strip (last l);
     email := Text.lower (Text.strip (address l)) |}.

End Roster.

(** ** "URL-encoded" *)

(** The percent-encoding of RFC 3986: letters, digits and [-._~] stay,
    every other character becomes [%XX] for each byte of its UTF-8
    encoding. *)
Module UrlEncoding.

Definition unreserved (c : ascii) : bool :=
  Text.in_range 65 90 c || Text.in_range 97 122 c || Text.in_range 48 57 c
  || Ascii.eqb c "-" || Ascii.eqb c "." || Ascii.eqb c "_" || Ascii.eqb c "~".

Definition utf8 (c : ascii) : list N :=
  let n := Text.code c in
  if (n <? 128)%N then [n] else [192 + n / 64; 128 + n mod 64]%N.

Definition encode_char (c : ascii) : string :=
  if unreserved c then String c ""
  else Text.join "" (map (fun b => "%" +:+ Text.hex2 true b) (utf8 c)).

Fixpoint url_encode (s : string) : string :=
  match s with
  | EmptyString => EmptyString
  | String c s' => encode_char c +:+ url_encode s'
  end.


End UrlEncoding.

(** ** "ISO-8601 timestamp" *)

(** The instant an ISO 8601 date and time with a UTC offset denotes. *)
Module Iso8601.

(** Days from 1970-01-01 to the date, in the proleptic Gregorian
    calendar (the year counted from March, in eras of 400 years). *)
Definition days_from_civil (y m d : Z) : Z :=
  let y' := if m <=? 2 then y - 1 else y in
  let era := y' / 400 in
  let yoe := y' - era * 400 in
  let mp := (m + 9) mod 12 in
  let doy := (153 * mp + 2) / 5 + d - 1 in
  let doe := yoe * 365 + yoe / 4 - yoe / 100 + doy in
  era * 146097 + doe - 719468.

(** The same in two parts: the days before the 1st of March of the
    year the date is in when years start in March, and the day within
    that year. *)
Definition march_year (y m : Z) : Z := if m <=? 2 then y - 1 else y.

Definition year_days (y : Z) : Z :=
  let era := y / 400 in
  let yoe := y - era * 400 in
  era * 146097 + yoe * 365 + yoe / 4 - yoe / 100.

Definition march_day (m d : Z) : Z :=
  (153 * ((m + 9) mod 12) + 2) / 5 + d - 1.

Definition leap_day (y : Z) : Z := if is_leap y then 1 else 0.

Definition valid_date (y m d : Z) : Prop :=
  1 <= m <= 12 /\ 1 <= d <= days_in_month y m.

(** Microseconds from 1970-01-01T00:00:00 to the date and time, both on
    the same clock. *)
Definition microseconds (c : civil) : Z :=
  let days := days_from_civil (Z.of_N (year c)) (Z.of_N (month c))
                              (Z.of_N (day c)) in
  (((days * 24 + Z.of_N (hour c)) * 60 + Z.of_N (minute c)) * 60
   + Z.of_N (second c)) * 1000000 + Z.of_N (microsecond c).

(** The instant of a datetime, in microseconds of UTC since 1970: the
    local date and time less the offset; without an offset the date and
    time are UTC already (so is a trailing Z read). *)
Definition instant (dt : datetime) : Z :=
  microseconds (base dt) - default 0 (tzinfo dt).

End Iso8601.

(** HTTP's success statuses, 200 to 299. *)
Definition success_status (code : Z) : bool := (200 <=? code) && (code <? 300).

(* ================================================================== *)
(** * A concrete run time and concrete worlds, for the examples *)
(* ================================================================== *)

Module Example.

Definition digit (c : ascii) : option N :=
  if Text.in_range 48 57 c then Some (Text.code c - 48)%N else None.

(** A run of exactly [n] decimal digits and what follows it. *)
Fixpoint digits (n : nat) (acc : N) (s : string) : option (N * string) :=
  match n with
  | O => Some (acc, s)
  | S n' =>
      match s with
      | String c s' =>
          match digit c with
          | Some d => digits n' (10 * acc + d)%N s'
          | None => None
          end
      | EmptyString => None
      end
  end.

Definition expect (ch : ascii) (s : string) : option string :=
  match s with
  | String c s' => if Ascii.eqb c ch then Some s' else None
  | EmptyString => None
  end.

(** The fraction [.fff] or [.ffffff], or nothing, and what follows it. *)
Definition fraction (s : string) : option (N * string) :=
  match s with
  | String c s' =>
      if Ascii.eqb c "."%char then
        match digits 6 0 s' with
        | Some (us, rest) => Some (us, rest)
        | None =>
            match digits 3 0 s' with
            | Some (ms, rest) => Some (ms * 1000, rest)%N
            | None => None
            end
        end
      else Some (0%N, s)
  | EmptyString => Some (0%N, s)
  end.

(** The UTC offset [+HH:MM] or [-HH:MM] in microseconds, or nothing. *)
Definition offset (s : string) : option (option Z) :=
  match s with
  | EmptyString => Some None
  | String c s' =>
      sign ← (if Ascii.eqb c "+"%char then Some 1
              else if Ascii.eqb c "-"%char then Some (-1) else None);
      '(h, s') ← digits 2 0 s';
      s' ← expect ":" s';
      '(m, s') ← digits 2 0 s';
      if Text.is_empty s' && (h <=? 23)%N && (m <=? 59)%N
      then Some (Some (sign * (Z.of_N h * 3600 + Z.of_N m * 60) * 1000000))
      else None
  end.

(** A reader of [YYYY-MM-DDTHH:MM:SS[.fff[fff]][+HH:MM]] (the separator
    a [T] or a space; the offset with either sign), the format
    [datetime.isoformat] writes.  Every release of
    [datetime.fromisoformat] reads these strings this way: the fields as
    written, the offset as the [tzinfo].  What it does on other strings
    is not modelled and is rejected here. *)
Definition isoformat_reader (s : string) : option datetime :=
  '(y, s) ← digits 4 0 s;
  s ← expect "-" s;
  '(mo, s) ← digits 2 0 s;
  s ← expect "-" s;
  '(d, s) ← digits 2 0 s;
  s ← match expect "T" s with Some s' => Some s' | None => expect " " s end;
  '(h, s) ← digits 2 0 s;
  s ← expect ":" s;
  '(mi, s) ← digits 2 0 s;
  s ← expect ":" s;
  '(sec, s) ← digits 2 0 s;
  '(us, s) ← fraction s;
  tz ← offset s;
  let c := {| year := y; month := mo; day := d; hour := h;
              minute := mi; second := sec; microsecond := us |} in
  if valid_civil c then Some {| base := c; tzinfo := tz |} else None.

Definition python : Python :=
  {| fromisoformat := isoformat_reader; csv_rejects_nul := true |}.

(** *** A roster, a directory and submissions *)

Definition jane : Roster.Line :=
  {| Roster.first := "Jane"; Roster.last := "Doe";
     Roster.placeholder := "-"; Roster.address := " JANE@UNI.EDU " |}.

(** The second and the fifth line of the sample roster in the source. *)
Definition kashyap : Roster.Line :=
  {| Roster.first := "KASHYAP KOUTILYA"; Roster.last := "ADIPUDI";
     Roster.placeholder := "-";
     Roster.address := "KADI0215@UNI.SYDNEY.EDU.AU" |}.

Definition mohammed : Roster.Line :=
  {| Roster.first := "MOHAMMED"; Roster.last := "ALHUSSAIN";
     Roster.placeholder := "-";
     Roster.address := "MALH0057@UNI.SYDNEY.EDU.AU" |}.

Definition roster : list (Roster.Line * string) :=
  [(jane, Roster.LF); (kashyap, Roster.CRLF); (mohammed, "")].

Definition user (address : string) (id : Z) : json :=
  JDict [("email", JStr address); ("id", JInt id)].

Definition submission (id : Z) (created_at : string) : json :=
  JDict [("id", JInt id); ("created_at", JStr created_at)].

(** The directory spells one address in capitals, as the roster file
    does. *)
Definition directory : list json :=
  [user "jane@uni.edu" 7; user "malh0057@uni.sydney.edu.au" 8;
   user "KADI0215@UNI.SYDNEY.EDU.AU" 9].

Definition submissions_of_jane : list json :=
  [submission 98 "2024-03-01T10:00:00Z";
   submission 99 "2024-03-02T09:00:00Z";
   submission 97 "2024-02-29T23:59:59.500Z"].

(** The timestamps of those, as the script reads them. *)
Definition timestamps_of_jane : list datetime :=
  Eval vm_compute in
    omap (fun s => match @created_at_key python s with
                   | Ok k => Some k
                   | Raise _ => None
                   end) submissions_of_jane.

(** The same as [fromisoformat] reads them, their trailing Z stripped. *)
Definition timestamps_read_of_jane : list datetime :=
  Eval vm_compute in
    omap (fun text => isoformat_reader (Text.rstrip_char "Z" text))
      ["2024-03-01T10:00:00Z"; "2024-03-02T09:00:00Z";
       "2024-02-29T23:59:59.500Z"].

(** The dict [main] builds from the directory. *)
Definition user_dict : gmap pykey json :=
  <[KStr "KADI0215@UNI.SYDNEY.EDU.AU" := JInt 9]>
    (<[KStr "malh0057@uni.sydney.edu.au" := JInt 8]>
       (<[KStr "jane@uni.edu" := JInt 7]> ∅)).

Definition ok (key : string) (items : list json) : Response :=
  {| status_code := 200; body := Some (JDict [(key, JList items)]) |}.

Definition failure (code : Z) : Response :=
  {| status_code := code; body := None |}.

Definition noon : civil :=
  {| year := 2024; month := 3; day := 5; hour := 12; minute := 0;
     second := 0; microsecond := 0 |}.

Definition files (content : string) (path : string) : file :=
  if decide (path = STUDENTS_FILE) then FileText content else NoSuchFile.

(** Jane has three submissions; the submissions of id 8 cannot be
    fetched. *)
Definition server (url : string) : option Response :=
  if decide (url = USERS_API_URL) then Some (ok "users" directory)
  else if decide (url = SUBMISSIONS_API_URL_TEMPLATE "7")
  then Some (ok "submissions" submissions_of_jane)
  else if decide (url = SUBMISSIONS_API_URL_TEMPLATE "8")
  then Some (failure 503)
  else Some (failure 404).

Definition world : World :=
  {| filesystem := files (Roster.file_text roster);
     clock := noon; http_get := server |}.

(** Two submissions of the night Sydney's clocks went back from
    UTC+11 to UTC+10: the second was made forty minutes after the first. *)
Definition before_clocks_went_back : string := "2024-04-07T02:30:00+11:00".
Definition after_clocks_went_back : string := "2024-04-07T02:10:00+10:00".

Definition submissions_of_that_night : list json :=
  [submission 1 before_clocks_went_back; submission 2 after_clocks_went_back].

Definition server_that_night (url : string) : option Response :=
  if decide (url = SUBMISSIONS_API_URL_TEMPLATE "7")
  then Some (ok "submissions" submissions_of_that_night)
  else server url.

Definition world_that_night : World :=
  {| filesystem := files (Roster.file_text roster);
     clock := noon; http_get := server_that_night |}.

(** The same, without the roster file. *)
Definition no_roster : World :=
  {| filesystem := fun _ => NoSuchFile; clock := noon; http_get := server |}.

(** The same, the directory answering 503. *)
Definition directory_down : World :=
  {| filesystem := files (Roster.file_text roster); clock := noon;
     http_get := fun _ => Some (failure 503) |}.

(** A roster whose only line has two columns. *)
Definition short_line : string := "Jane" +:+ Roster.tab +:+ "Doe" +:+ Roster.LF.

Definition short_roster : World :=
  {| filesystem := files short_line; clock := noon; http_get := server |}.

End Example.

(* ================================================================== *)
(** * Vocabulary of the statements *)
(* ================================================================== *)

Section Vocabulary.
Context `{Python}.

(** The submission has a timestamp the script can read. *)
Definition readable (s : json) : Prop :=
  exists k, created_at_key s = Ok k.

(** The submission's timestamp is before [k]. *)
Definition earlier_than (k : datetime) (s : json) : Prop :=
  exists k', created_at_key s = Ok k' /\ datetime_gt k k' = true.


(** [fromisoformat] reads the submission's timestamp, its trailing Z
    stripped, as [dt]. *)
Definition reads_as (s : json) (dt : datetime) : Prop :=
  exists text,
    getitem s "created_at" = Ok (JStr text)
    /\ fromisoformat (Text.rstrip_char "Z" text) = Some dt.

End Vocabulary.

(** The reader at the start of a field: nothing read of it yet. *)
Definition at_field_start (r : Csv.ReaderObj) : Prop :=
  (Csv.state r = Csv.START_RECORD \/ Csv.state r = Csv.START_FIELD)
  /\ Csv.field r = "".

(** The reader after the characters of the column [f]. *)
Definition after_column (r : Csv.ReaderObj) (f : string) : Csv.ReaderObj :=
  match f with
  | EmptyString => r
  | String _ _ =>
      {| Csv.state := Csv.IN_FIELD; Csv.fields := Csv.fields r;
         Csv.field := f |}
  end.

(** The outcome is not the [ValueError] of [max] on an empty sequence. *)
Definition no_empty_max {A} (r : res A) : Prop :=
  r <> Raise (ValueError EmptySequence).

(** Every exception the outcome can be satisfies [Q]. *)
Definition raises {A} (Q : exn -> Prop) (r : res A) : Prop :=
  forall e, r = Raise e -> Q e.

(** Every event of the computation satisfies [P] and every exception it
    can end in satisfies [Q]. *)
Definition within {A} (P : event -> Prop) (Q : exn -> Prop) (m : M A) : Prop :=
  Forall P (events m) /\ raises Q (outcome m).

(** The event is not the print of the "late" message. *)
Definition not_late (e : event) : Prop := e <> Stdout LATE_MESSAGE.

(** The exception is not the [ValueError] of [max] on an empty sequence. *)
Definition not_empty_max (e : exn) : Prop := e <> ValueError EmptySequence.

(* ================================================================== *)
(** * Vocabulary of the further properties *)
(* ================================================================== *)

(** The line is a missing-email search URL. *)
Definition is_search_link (line : string) : Prop :=
  exists query, line = MISSING_EMAIL_URL_TEMPLATE query.

Definition is_request (e : event) : bool :=
  match e with HttpGet _ => true | _ => false end.

Definition is_pause (e : event) : bool :=
  match e with Sleep => true | _ => false end.

(** The student's email is a key of the mapping. *)
Definition in_directory (user_dict : gmap pykey json) (student : Student) : bool :=
  match user_dict !! KStr (email student) with
  | Some _ => true
  | None => false
  end.

(** How often [p] holds in the list. *)
Definition count {A} (p : A -> bool) (l : list A) : nat :=
  length (List.filter p l).

(** The key and the value the dict comprehension of [main] computes for
    one user of the directory: [user["email"]], [user["id"]], the key
    hashed. *)
Definition entry_of (user : json) : res (pykey * json) :=
  k ← getitem user "email";
  v ← getitem user "id";
  hk ← py_key k;
  Ok (hk, v).

(** The text of [n] letters Z. *)
Definition zs (n : nat) : string := Nat.iter n (String "Z") "".

(** ** Roster files with any number of columns *)

Module Table.

(** The text of a line with the given columns, without its line end;
    a blank line has no column. *)
Definition line_text (cols : list string) : string :=
  Text.join Roster.tab cols.

(** A file: the columns of each line and the line end that follows
    it. *)
Fixpoint file_text (ls : list (list string * string)) : string :=
  match ls with
  | [] => ""
  | (cols, t) :: rest => line_text cols +:+ t +:+ file_text rest
  end.

(** Columns as in [Roster.plain]; the one empty column, which is the
    text of a blank line, is written as no column. *)
Definition columns_ok (cols : list string) : bool :=
  forallb Roster.plain cols && negb (bool_decide (cols = [""])).

(** Every line is ended by LF, CR LF or CR; the last one may also end
    with the file. *)
Fixpoint line_ends_ok (ls : list (list string * string)) : bool :=
  match ls with
  | [] => true
  | [(_, t)] => Roster.line_end t || Text.is_empty t
  | (_, t) :: rest => Roster.line_end t && line_ends_ok rest
  end.

(** The record of a line with four columns or more: the first, the
    second and the fourth column trimmed, the fourth lower-cased. *)
Definition record (cols : list string) : option Student :=
  match cols with
  | f1 :: f2 :: _ :: f4 :: _ =>
      Some {| first_name := Text.strip f1;
              last_name := Text.strip f2;
              email := Text.lower (Text.strip f4) |}
  | _ => None
  end.

End Table.

(** ** More examples *)

Module Sample.

(** The records of the example roster. *)
Definition students : list Student :=
  map (fun lt => Roster.record (fst lt)) Example.roster.

(** The loop of [main] over students, at noon, with the dict of the
    example directory. *)
Definition loop (w : World) (students : list Student) : M unit :=
  for_each (@main_loop_body Example.python w Example.noon Example.user_dict)
           students.

(** A submission without a timestamp. *)
Definition undated : json := JDict [("id", JInt 5)].

(** Jane's second submission has no timestamp. *)
Definition server_undated (url : string) : option Response :=
  if decide (url = SUBMISSIONS_API_URL_TEMPLATE "7")
  then Some (Example.ok "submissions"
               [Example.submission 98 "2024-03-01T10:00:00Z"; undated;
                Example.submission 99 "2024-03-02T09:00:00Z"])
  else Example.server url.

Definition world_undated : World :=
  {| filesystem := Example.files (Roster.file_text Example.roster);
     clock := Example.noon; http_get := server_undated |}.

(** The directory answers with an object that has no [users] entry. *)
Definition world_no_users_entry : World :=
  {| filesystem := Example.files (Roster.file_text Example.roster);
     clock := Example.noon;
     http_get := fun _ => Some {| status_code := 200;
                                  body := Some (JDict []) |} |}.

(** No answer to any request. *)
Definition world_offline : World :=
  {| filesystem := Example.files (Roster.file_text Example.roster);
     clock := Example.noon; http_get := fun _ => None |}.

(** The answer to the request for Jane's submissions is not JSON. *)
Definition server_not_json (url : string) : option Response :=
  if decide (url = SUBMISSIONS_API_URL_TEMPLATE "7")
  then Some {| status_code := 200; body := None |}
  else Example.server url.

Definition world_not_json : World :=
  {| filesystem := Example.files (Roster.file_text Example.roster);
     clock := Example.noon; http_get := server_not_json |}.

(** A directory that lists one email twice. *)
Definition directory_twice : list json :=
  [Example.user "a@uni.edu" 1; Example.user "b@uni.edu" 2;
   Example.user "a@uni.edu" 3].

Definition user_dict_twice : gmap pykey json :=
  <[KStr "a@uni.edu" := JInt 3]>
    (<[KStr "b@uni.edu" := JInt 2]>
       (<[KStr "a@uni.edu" := JInt 1]> ∅)).

(** A directory whose second entry has no email. *)
Definition directory_no_email : list json :=
  [Example.user "jane@uni.edu" 7; JDict [("id", JInt 8)];
   Example.user "malh0057@uni.sydney.edu.au" 9].

Definition world_no_email : World :=
  {| filesystem := Example.files (Roster.file_text Example.roster);
     clock := Example.noon;
     http_get := fun _ => Some (Example.ok "users" directory_no_email) |}.

(** A roster with a fifth column on its first line, which a lone CR
    ends, two blank lines, and a last line that the file ends. *)
Definition table : list (list string * string) :=
  [(["Jane"; "Doe"; "-"; " JANE@UNI.EDU "; "2024"], Roster.CR);
   ([], Roster.LF);
   ([], Roster.CRLF);
   (["MOHAMMED"; "ALHUSSAIN"; "-"; "MALH0057@UNI.SYDNEY.EDU.AU"], "")].

Definition world_table : World :=
  {| filesystem := Example.files (Table.file_text table);
     clock := Example.noon; http_get := Example.server |}.

(** A roster whose second line has two columns. *)
Definition table_short : string :=
  Table.file_text [(["Jane"; "Doe"; "-"; "jane@uni.edu"], Roster.LF)]
  +:+ Table.line_text ["MOHAMMED"; "ALHUSSAIN"] +:+ Roster.CRLF
  +:+ "KASHYAP KOUTILYA".

Definition world_table_short : World :=
  {| filesystem := Example.files table_short;
     clock := Example.noon; http_get := Example.server |}.

End Sample.

(* ================================================================== *)
(** * Proofs *)
(* ================================================================== *)

(** ** The two monads *)

Lemma res_bind_ok {A B} (f : A -> res B) (a : A) : (Ok a ≫= f) = f a.
Proof. reflexivity. Qed.

Lemma res_bind_raise {A B} (f : A -> res B) (e : exn) :
  (Raise e ≫= f) = Raise e.
Proof. reflexivity. Qed.

Lemma res_bind_inv {A B} (f : A -> res B) (m : res A) (b : B) :
  (m ≫= f) = Ok b -> exists a, m = Ok a /\ f a = Ok b.
Proof. destruct m as [a|e]; simpl; [eauto | discriminate]. Qed.

Lemma M_bind_ok {A B} (f : A -> M B) (t : list event) (a : A) :
  ((t, Ok a) : M A) ≫= f = (t ++ events (f a), outcome (f a)).
Proof. unfold mbind, M_bind. destruct (f a); reflexivity. Qed.

Lemma M_bind_raise {A B} (f : A -> M B) (t : list event) (e : exn) :
  ((t, Raise e) : M A) ≫= f = (t, Raise e).
Proof. reflexivity. Qed.

Lemma M_eta {A} (m : M A) : m = (events m, outcome m).
Proof. destruct m; reflexivity. Qed.

(** ** The order of the timestamps *)

Lemma lex_gt_irrefl (a : list N) : lex_gt a a = false.
Proof.
  induction a as [|x a IH]; simpl; [reflexivity|].
  rewrite IH, N.ltb_irrefl, andb_false_r. reflexivity.
Qed.

Lemma lex_gt_cons (x y : N) (a b : list N) :
  lex_gt (x :: a) (y :: b) = true <-> (y < x)%N \/ (x = y /\ lex_gt a b = true).
Proof.
  simpl. rewrite orb_true_iff, andb_true_iff, N.ltb_lt, N.eqb_eq. reflexivity.
Qed.

Lemma lex_gt_cons_false (x y : N) (a b : list N) :
  lex_gt (x :: a) (y :: b) = false <->
  (x <= y)%N /\ (x = y -> lex_gt a b = false).
Proof.
  rewrite <- not_true_iff_false, lex_gt_cons. split.
  - intros Hn. split; [lia|]. intros ->.
    destruct (lex_gt a b); [exfalso; apply Hn; auto | reflexivity].
  - intros [Hle Himp] [Hlt | [-> Hgt]]; [lia|].
    rewrite Himp in Hgt; [discriminate | reflexivity].
Qed.

Lemma lex_gt_trans (a b c : list N) :
  lex_gt a b = true -> lex_gt b c = true -> lex_gt a c = true.
Proof.
  revert b c. induction a as [|x a IH]; intros [|y b] [|z c];
    try (simpl; congruence).
  rewrite !lex_gt_cons. intros [H1 | [-> H1]] [H2 | [-> H2]].
  - left; lia.
  - left; lia.
  - left; lia.
  - right. split; [reflexivity | eauto].
Qed.

Lemma lex_gt_total (a b : list N) :
  lex_gt a b = false -> lex_gt b a = false -> a = b.
Proof.
  revert b. induction a as [|x a IH]; intros [|y b];
    try (simpl; congruence).
  rewrite !lex_gt_cons_false. intros [H1 H1'] [H2 H2'].
  assert (x = y) as -> by lia. f_equal. apply IH; auto.
Qed.

Lemma lex_gt_asym (a b : list N) : lex_gt a b = true -> lex_gt b a = false.
Proof.
  intros Hab. destruct (lex_gt b a) eqn:Hba; [|reflexivity].
  pose proof (lex_gt_trans _ _ _ Hab Hba) as Haa.
  rewrite lex_gt_irrefl in Haa. discriminate.
Qed.

(** [c <= b < a] gives [c < a]. *)
Lemma lex_gt_chain (a b c : list N) :
  lex_gt a b = true -> lex_gt c b = false -> lex_gt a c = true.
Proof.
  intros Hab Hcb. destruct (lex_gt a c) eqn:Hac; [reflexivity|].
  destruct (lex_gt c a) eqn:Hca.
  - rewrite (lex_gt_trans _ _ _ Hca Hab) in Hcb. discriminate.
  - rewrite (lex_gt_total _ _ Hac Hca) in Hab. congruence.
Qed.

Lemma datetime_gt_asym (a b : datetime) :
  datetime_gt a b = true -> datetime_gt b a = false.
Proof. apply lex_gt_asym. Qed.

Lemma datetime_gt_trans (a b c : datetime) :
  datetime_gt a b = true -> datetime_gt b c = true -> datetime_gt a c = true.
Proof. apply lex_gt_trans. Qed.

Lemma datetime_gt_chain (a b c : datetime) :
  datetime_gt a b = true -> datetime_gt c b = false -> datetime_gt a c = true.
Proof. apply lex_gt_chain. Qed.

(** ** [max] with a key *)

Section Max.
Variable key : json -> res datetime.

Let before_key (k : datetime) (x : json) : Prop :=
  exists k', key x = Ok k' /\ datetime_gt k k' = true.
Let upto_key (k : datetime) (x : json) : Prop :=
  exists k', key x = Ok k' /\ datetime_gt k' k = false.

(** The loop keeps the first item of greatest key: what is before it
    has a smaller key, what is after it has no greater key. *)
Lemma max_loop_first_max (items : list json) :
  Forall (fun x => exists k, key x = Ok k) items ->
  forall before m after v,
    key m = Ok v ->
    Forall (before_key v) before ->
    Forall (upto_key v) after ->
    exists before' s after' ks,
      before ++ m :: after ++ items = before' ++ s :: after'
      /\ key s = Ok ks
      /\ Forall (before_key ks) before'
      /\ Forall (upto_key ks) after'
      /\ max_loop key items m v = Ok s.
Proof.
  induction 1 as [|x items [kx Hkx] _ IH]; intros before m after v Hm Hb Ha.
  - exists before, m, after, v. rewrite app_nil_r. auto.
  - simpl. rewrite Hkx. simpl.
    destruct (datetime_gt kx v) eqn:Hgt.
    + destruct (IH (before ++ m :: after) x [] kx) as
        (b' & s & a' & ks & Heq & Hs & Hb' & Ha' & Hloop); auto.
      * apply Forall_app. split; [|apply Forall_cons; split].
        -- eapply Forall_impl; [exact Hb|]. intros y (k & Hy & Hvk).
           exists k. split; [exact Hy|]. eapply datetime_gt_trans; eauto.
        -- exists v. auto.
        -- eapply Forall_impl; [exact Ha|]. intros y (k & Hy & Hkv).
           exists k. split; [exact Hy|]. eapply datetime_gt_chain; eauto.
      * exists b', s, a', ks. repeat split; auto.
        rewrite <- Heq. simpl. rewrite <- app_assoc. reflexivity.
    + destruct (IH before m (after ++ [x]) v) as
        (b' & s & a' & ks & Heq & Hs & Hb' & Ha' & Hloop); auto.
      * apply Forall_app. split; [exact Ha|].
        apply Forall_cons. split; [|constructor]. exists kx. auto.
      * exists b', s, a', ks. repeat split; auto.
        rewrite <- Heq. rewrite <- app_assoc. reflexivity.
Qed.

Lemma py_max_first_max (items : list json) :
  items <> [] ->
  Forall (fun x => exists k, key x = Ok k) items ->
  exists before s after ks,
    items = before ++ s :: after
    /\ key s = Ok ks
    /\ Forall (before_key ks) before
    /\ Forall (upto_key ks) after
    /\ py_max key items = Ok s.
Proof.
  intros Hne Hall. destruct items as [|m items]; [congruence|].
  apply Forall_cons in Hall as [[v Hv] Hall].
  destruct (max_loop_first_max items Hall [] m [] v Hv)
    as (b & s & a & ks & Heq & Hs & Hb & Ha & Hloop); auto.
  exists b, s, a, ks. simpl in *. rewrite Hv. simpl. auto.
Qed.

(** Whatever the loop returns is the candidate or an item whose key was
    computed. *)
Lemma max_loop_elem (items : list json) (m : json) (v : datetime) (s : json) :
  max_loop key items m v = Ok s ->
  s = m \/ (s ∈ items /\ exists k, key s = Ok k).
Proof.
  revert m v. induction items as [|x items IH]; intros m v; simpl.
  - intros [= ->]. auto.
  - destruct (key x) as [kx|e] eqn:Hkx; simpl; [|discriminate].
    destruct (datetime_gt kx v); intros Hloop;
      destruct (IH _ _ Hloop) as [-> | [Hin Hk]].
    + right. split; [left | eauto].
    + right. split; [right; exact Hin | exact Hk].
    + auto.
    + right. split; [right; exact Hin | exact Hk].
Qed.

Lemma py_max_elem (items : list json) (s : json) :
  py_max key items = Ok s -> s ∈ items /\ exists k, key s = Ok k.
Proof.
  destruct items as [|m items]; simpl; [discriminate|].
  destruct (key m) as [v|e] eqn:Hv; simpl; [|discriminate].
  intros Hloop. destruct (max_loop_elem _ _ _ _ Hloop) as [-> | [Hin Hk]].
  - split; [left | eauto].
  - split; [right; exact Hin | exact Hk].
Qed.

(** The loop raises what the key raises, nothing else. *)
Lemma max_loop_raise (items : list json) (m : json) (v : datetime) (e : exn) :
  max_loop key items m v = Raise e -> exists x, x ∈ items /\ key x = Raise e.
Proof.
  revert m v. induction items as [|x items IH]; intros m v; simpl;
    [discriminate|].
  destruct (key x) as [kx|e'] eqn:Hkx; simpl.
  - destruct (datetime_gt kx v); intros Hloop;
      destruct (IH _ _ Hloop) as (y & Hin & Hy);
      exists y; (split; [right; exact Hin | exact Hy]).
  - intros [= ->]. exists x. split; [left | exact Hkx].
Qed.

End Max.

(** ** Selecting the latest submission *)

Section Selection.
Context `{Python}.

Lemma created_at_key_truthy (s : json) (k : datetime) :
  created_at_key s = Ok k -> truthy s = true.
Proof.
  unfold created_at_key. intros Hk.
  apply res_bind_inv in Hk as (v & Hget & _).
  destruct s as [| | | | |items]; simpl in Hget; try discriminate.
  destruct items; [discriminate | reflexivity].
Qed.

(** Every key carries [timezone.utc]. *)
Lemma created_at_key_utc (s : json) (k : datetime) :
  created_at_key s = Ok k -> tzinfo k = Some utc.
Proof.
  unfold created_at_key. intros Hk.
  apply res_bind_inv in Hk as (v & _ & Hparse).
  unfold parse_iso_datetime in Hparse.
  destruct v; try discriminate.
  destruct (fromisoformat _); [|discriminate].
  injection Hparse as <-. reflexivity.
Qed.

Lemma data_inj (a b : datetime) :
  tzinfo a = tzinfo b -> data a = data b -> a = b.
Proof.
  destruct a as [[] ?], b as [[] ?]. unfold data. simpl.
  intros -> [= -> -> -> -> -> -> ->]. reflexivity.
Qed.

(** Two keys that are not equal are ordered one way or the other. *)
Lemma created_at_key_total (s s' : json) (k k' : datetime) :
  created_at_key s = Ok k -> created_at_key s' = Ok k' ->
  k <> k' -> datetime_gt k' k = false -> datetime_gt k k' = true.
Proof.
  intros Hk Hk' Hne Hle.
  destruct (datetime_gt k k') eqn:Hgt; [reflexivity|].
  exfalso. apply Hne. apply data_inj.
  - rewrite (created_at_key_utc _ _ Hk), (created_at_key_utc _ _ Hk').
    reflexivity.
  - apply lex_gt_total; assumption.
Qed.

Lemma py_iter_truthy (j : json) (items : list json) :
  truthy j = true -> py_iter j = Ok items -> items <> [].
Proof.
  destruct j as [| | |s|l|l]; simpl; try discriminate.
  - destruct s; [discriminate|]. intros _ [= <-]. discriminate.
  - destruct l; [discriminate|]. intros _ [= <-]. discriminate.
  - destruct l; [discriminate|]. intros _ [= <-]. discriminate.
Qed.

Lemma find_accepted_submission_list (subs : list json) :
  find_accepted_submission (JList subs) = py_max created_at_key subs.
Proof. reflexivity. Qed.

(** What the selection returns is a submission of the list, and a
    non-empty dict. *)
Lemma find_accepted_submission_elem (submissions s : json) :
  find_accepted_submission submissions = Ok s ->
  truthy s = true
  /\ forall subs, submissions = JList subs -> s ∈ subs.
Proof.
  unfold find_accepted_submission. intros Hfind.
  apply res_bind_inv in Hfind as (items & Hiter & Hmax).
  apply py_max_elem in Hmax as [Hin [k Hk]].
  split; [eapply created_at_key_truthy; eauto|].
  intros subs ->. injection Hiter as ->. exact Hin.
Qed.

End Selection.

Section Claims_selection.
Context `{Python}.


End Claims_selection.

(** Two submissions with the same timestamp, written with and without
    the Z: the one that comes first in the list is returned. *)
Example find_accepted_submission_tie :
  @find_accepted_submission Example.python
    (JList [Example.submission 98 "2024-03-01T10:00:00Z";
            Example.submission 99 "2024-03-02T09:00:00Z";
            Example.submission 100 "2024-03-02T09:00:00"])
  = Ok (Example.submission 99 "2024-03-02T09:00:00Z").
Proof. vm_compute. reflexivity. Qed.


(** ** The loop body of [main] *)

Section Loop_body.
Context `{Python}.

Lemma main_loop_body_matched (w : World) (now : civil)
    (user_dict : gmap pykey json) (student : Student) (student_id : json) :
  user_dict !! KStr (email student) = Some student_id ->
  main_loop_body w now user_dict student =
    (submissions ← fetch_submissions w student_id;
     emit Sleep;;
     if negb (truthy submissions)
     then print ("No submissions found, as of " +:+ str_civil now)
     else
       latest_submission ← lift (find_accepted_submission submissions);
       if truthy latest_submission
       then
         submission_id ← lift (getitem latest_submission "id");
         print (SUBMISSION_URL_TEMPLATE (py_str student_id)
                                        (py_str submission_id))
       else print LATE_MESSAGE).
Proof. intros Hlookup. unfold main_loop_body. rewrite Hlookup. reflexivity. Qed.

Lemma main_loop_body_unmatched (w : World) (now : civil)
    (user_dict : gmap pykey json) (student : Student) :
  user_dict !! KStr (email student) = None ->
  main_loop_body w now user_dict student =
    print (MISSING_EMAIL_URL_TEMPLATE
             (first_name student +:+ "%20" +:+ last_name student)).
Proof. intros Hlookup. unfold main_loop_body. rewrite Hlookup. reflexivity. Qed.

(** A matched student whose fetched submissions are falsy (the empty
    list above all) gets the notice. *)
Lemma main_loop_body_no_submissions (w : World) (now : civil)
    (user_dict : gmap pykey json) (student : Student)
    (student_id submissions : json) :
  user_dict !! KStr (email student) = Some student_id ->
  outcome (fetch_submissions w student_id) = Ok submissions ->
  truthy submissions = false ->
  main_loop_body w now user_dict student =
    (events (fetch_submissions w student_id)
       ++ [Sleep; Stdout ("No submissions found, as of " +:+ str_civil now)],
     Ok tt).
Proof.
  intros Hlookup Hout Hfalsy.
  rewrite (main_loop_body_matched _ _ _ _ _ Hlookup).
  destruct (fetch_submissions w student_id) as [t r]. simpl in Hout. subst r.
  rewrite M_bind_ok. rewrite Hfalsy. reflexivity.
Qed.

(** A matched student with a selected submission that has an id gets
    the link. *)
Lemma main_loop_body_link (w : World) (now : civil)
    (user_dict : gmap pykey json) (student : Student)
    (student_id submissions latest id : json) :
  user_dict !! KStr (email student) = Some student_id ->
  outcome (fetch_submissions w student_id) = Ok submissions ->
  truthy submissions = true ->
  find_accepted_submission submissions = Ok latest ->
  getitem latest "id" = Ok id ->
  main_loop_body w now user_dict student =
    (events (fetch_submissions w student_id)
       ++ [Sleep;
           Stdout (SUBMISSION_URL_TEMPLATE (py_str student_id) (py_str id))],
     Ok tt).
Proof.
  intros Hlookup Hout Htruthy Hfind Hid.
  rewrite (main_loop_body_matched _ _ _ _ _ Hlookup).
  destruct (fetch_submissions w student_id) as [t r]. simpl in Hout. subst r.
  rewrite M_bind_ok, Htruthy, Hfind.
  destruct (find_accepted_submission_elem _ _ Hfind) as [Hlatest _].
  simpl. rewrite Hlatest, Hid. reflexivity.
Qed.

End Loop_body.

Section Claim_latest_link.
Context `{Python}.

(** What the loop body prints for a matched student whose fetched
    submission list is not empty, with readable and pairwise distinct
    keys and an id on every submission: the submission link with the
    student's id and the id of the one submission whose key is greater
    than that of every other submission of the list.  The key is what
    [parse_iso_datetime] returns: the date and time fields of the text,
    labelled UTC whatever offset the text carries. *)
Theorem latest_submission_link (w : World) (now : civil)
    (user_dict : gmap pykey json) (student : Student) (student_id : json)
    (subs : list json) (keys : list datetime) :
  user_dict !! KStr (email student) = Some student_id ->
  outcome (fetch_submissions w student_id) = Ok (JList subs) ->
  subs <> [] ->
  Forall2 (fun s k => created_at_key s = Ok k) subs keys ->
  NoDup keys ->
  Forall (fun s => exists id, getitem s "id" = Ok id) subs ->
  exists before latest after k id,
    subs = before ++ latest :: after
    /\ created_at_key latest = Ok k
    /\ Forall (earlier_than k) (before ++ after)
    /\ getitem latest "id" = Ok id
    /\ main_loop_body w now user_dict student =
         (events (fetch_submissions w student_id)
            ++ [Sleep;
                Stdout (SUBMISSION_URL_TEMPLATE (py_str student_id)
                                                (py_str id))],
          Ok tt).
Proof.
  intros Hlookup Hout Hne Hkeys Hdistinct Hids.
  assert (Hall : Forall readable subs).
  { clear -Hkeys. induction Hkeys; constructor; [eexists; eauto | auto]. }
  destruct (py_max_first_max created_at_key subs Hne Hall)
    as (b & s & a & ks & Heq & Hs & Hb & Ha & Hmax).
  subst subs.
  apply Forall2_app_inv_l in Hkeys as (kb & krest & _ & Hrest & ->).
  apply Forall2_cons_inv_l in Hrest as (ks' & ka & Hs' & Hka & ->).
  assert (ks' = ks) as -> by congruence.
  apply NoDup_app in Hdistinct as (_ & _ & Hnd).
  apply NoDup_cons in Hnd as [Hnotin _].
  apply Forall_app in Hids as [_ Hids].
  apply Forall_cons in Hids as [[id Hid] _].
  exists b, s, a, ks, id. repeat split; auto.
  - apply Forall_app. split; [exact Hb|].
    clear -Ha Hka Hnotin Hs. induction Hka as [|x kx a ka Hx Hka IH].
    + constructor.
    + apply Forall_cons in Ha as [(kx' & Hx' & Hle) Ha].
      assert (kx' = kx) as -> by congruence.
      apply not_elem_of_cons in Hnotin as [Hne Hnotin].
      constructor; [|auto].
      exists kx. split; [exact Hx|].
      eapply created_at_key_total; eauto.
  - eapply main_loop_body_link; eauto.
    destruct b; reflexivity.
Qed.

End Claim_latest_link.

(** ** What a computation can print and raise *)

Section Within.
Variable P : event -> Prop.
Variable Q : exn -> Prop.

Lemma raises_ok {A} (a : A) : raises Q (Ok a).
Proof. intros e. discriminate. Qed.

Lemma raises_raise {A} (e : exn) : Q e -> raises Q (Raise e : res A).
Proof. intros He e' [= <-]. exact He. Qed.

Lemma raises_bind {A B} (m : res A) (f : A -> res B) :
  raises Q m -> (forall a, m = Ok a -> raises Q (f a)) -> raises Q (m ≫= f).
Proof.
  intros Hm Hf. destruct m as [a|e]; simpl.
  - apply Hf. reflexivity.
  - intros e' [= <-]. apply Hm. reflexivity.
Qed.

Lemma within_ret {A} (a : A) : within P Q (mret a : M A).
Proof. split; [constructor | apply raises_ok]. Qed.

Lemma within_lift {A} (r : res A) : raises Q r -> within P Q (lift r).
Proof. intros Hr. split; [constructor | exact Hr]. Qed.

Lemma within_emit (e : event) : P e -> within P Q (emit e).
Proof. intros He. split; [repeat constructor; exact He | apply raises_ok]. Qed.

Lemma within_bind {A B} (m : M A) (f : A -> M B) :
  within P Q m ->
  (forall a, outcome m = Ok a -> within P Q (f a)) ->
  within P Q (m ≫= f).
Proof.
  intros [Hev Hout] Hf. destruct m as [t [a|e]].
  - rewrite M_bind_ok. destruct (Hf a eq_refl) as [Hev' Hout'].
    split; simpl; [apply Forall_app; auto | exact Hout'].
  - rewrite M_bind_raise. split; [exact Hev|].
    intros e' [= <-]. apply Hout. reflexivity.
Qed.

Lemma within_try_except {A} (body handler : M A) (caught : exn) :
  within P Q body -> within P Q handler ->
  within P Q (try_except body caught handler).
Proof.
  intros [Hev Hout] [Hev' Hout']. unfold try_except.
  destruct body as [t [a|e]]; simpl in *; [split; assumption|].
  destruct (decide (e = caught)).
  - destruct handler as [t' r']. split; simpl in *;
      [apply Forall_app; auto | exact Hout'].
  - split; assumption.
Qed.

Lemma within_for_each {A} (body : A -> M unit) (l : list A) :
  (forall x, x ∈ l -> within P Q (body x)) -> within P Q (for_each body l).
Proof.
  induction l as [|x l IH]; intros Hbody; simpl.
  - apply within_ret.
  - apply within_bind.
    + apply Hbody. left.
    + intros _ _. apply IH. intros y Hy. apply Hbody. right. exact Hy.
Qed.

End Within.

(** ** The exceptions of the parts *)

(** Split on every [match] and [if] of a hypothesis that says a
    computation raised. *)
Ltac raise_cases H :=
  repeat match type of H with
         | context [match ?x with _ => _ end] => destruct x eqn:?; simpl in H
         | context [if ?b then _ else _] => destruct b eqn:?; simpl in H
         end;
  try discriminate H.

Section Csv_errors.
Context `{Python}.

Lemma parse_add_char_raises (r : Csv.ReaderObj) (c : ascii) :
  raises (eq CsvError) (Csv.parse_add_char r c).
Proof.
  intros e He. unfold Csv.parse_add_char in He. raise_cases He. congruence.
Qed.

Lemma parse_process_char_raises (r : Csv.ReaderObj) (c : option ascii) :
  raises (eq CsvError) (Csv.parse_process_char r c).
Proof.
  intros e He.
  unfold Csv.parse_process_char, Csv.start_field, Csv.parse_add_char in He.
  simpl in He. raise_cases He; congruence.
Qed.

Lemma feed_chars_raises (line : string) (r : Csv.ReaderObj) :
  raises (eq CsvError) (Csv.feed_chars r line).
Proof.
  revert r. induction line as [|c line IH]; intros r e; simpl.
  - discriminate.
  - destruct (csv_rejects_nul && Ascii.eqb c Text.NUL); [congruence|].
    apply raises_bind; [apply parse_process_char_raises|].
    intros r' _. apply IH.
Qed.

Lemma feed_line_raises (line : string) (r : Csv.ReaderObj) :
  raises (eq CsvError) (Csv.feed_line r line).
Proof.
  apply raises_bind; [apply feed_chars_raises|].
  intros r' _. apply parse_process_char_raises.
Qed.

Lemma reader_rows_error (lines : list string) (r : Csv.ReaderObj)
    (rows : list (list string)) (e : exn) :
  Csv.reader_rows r lines = (rows, Some e) -> e = CsvError.
Proof.
  revert r rows. induction lines as [|line lines IH]; intros r rows; simpl.
  - destruct (_ || _); discriminate.
  - destruct (Csv.feed_line r line) as [r'|e'] eqn:Hfeed.
    + destruct (decide (Csv.state r' = Csv.START_RECORD)).
      * destruct (Csv.reader_rows Csv.parse_reset lines) as [rows' err] eqn:Hrest.
        intros [= _ ->]. eapply IH. exact Hrest.
      * apply IH.
    + intros [= _ <-]. symmetry. eapply feed_line_raises. exact Hfeed.
Qed.

End Csv_errors.

Lemma student_of_row_raises (row : gmap string (option string)) :
  raises (fun e => e = KeyError \/ e = AttributeError) (student_of_row row).
Proof.
  intros e He. unfold student_of_row, row_get, strip_method in He.
  raise_cases He; injection He as <-; auto.
Qed.

Lemma read_rows_raises (Q : exn -> Prop) (rows : list (list string))
    (err : option exn) (student_data : list Student) :
  Q KeyError -> Q AttributeError -> (forall e, err = Some e -> Q e) ->
  raises Q (read_rows rows err student_data).
Proof.
  intros Hk Ha Herr. revert student_data.
  induction rows as [|row rows IH]; intros student_data; simpl.
  - destruct err as [e|]; [apply raises_raise; auto | apply raises_ok].
  - apply raises_bind.
    + intros e He. apply student_of_row_raises in He as [-> | ->]; assumption.
    + intros s _. apply IH.
Qed.

Lemma getitem_raises (obj : json) (key : string) :
  raises (fun e => e = KeyError \/ e = TypeError) (getitem obj key).
Proof. intros e He. unfold getitem in He. raise_cases He; injection He as <-; auto. Qed.

Lemma get_default_raises (obj : json) (key : string) (dflt : json) :
  raises (eq AttributeError) (get_default obj key dflt).
Proof. intros e He. unfold get_default in He. raise_cases He; congruence. Qed.

Lemma py_iter_raises (obj : json) : raises (eq TypeError) (py_iter obj).
Proof. intros e He. unfold py_iter in He. raise_cases He; congruence. Qed.

Lemma py_key_raises (obj : json) : raises (eq TypeError) (py_key obj).
Proof. intros e He. unfold py_key in He. raise_cases He; congruence. Qed.

Lemma user_dict_from_raises (users : list json) (acc : gmap pykey json) :
  raises (fun e => e = KeyError \/ e = TypeError) (user_dict_from users acc).
Proof.
  revert acc. induction users as [|user users IH]; intros acc; simpl.
  - apply raises_ok.
  - apply raises_bind; [apply getitem_raises|]. intros k _.
    apply raises_bind; [apply getitem_raises|]. intros v _.
    apply raises_bind.
    + intros e He. apply py_key_raises in He as <-. auto.
    + intros hk _. apply IH.
Qed.

Lemma user_dict_of_raises (users : json) :
  raises (fun e => e = KeyError \/ e = TypeError) (user_dict_of users).
Proof.
  apply raises_bind.
  - intros e He. apply py_iter_raises in He as <-. auto.
  - intros l _. apply user_dict_from_raises.
Qed.

(** ** Neither the "late" message nor [max] on an empty sequence *)

Section Clean.
Context `{Python}.

Lemma find_accepted_submission_raises (submissions : json) :
  truthy submissions = true ->
  raises not_empty_max (find_accepted_submission submissions).
Proof.
  intros Htruthy e Hfind. unfold find_accepted_submission in Hfind.
  destruct (py_iter submissions) as [items|e'] eqn:Hiter; simpl in Hfind.
  - pose proof (py_iter_truthy _ _ Htruthy Hiter) as Hne.
    destruct items as [|m items]; [congruence|]. simpl in Hfind.
    assert (Hkey : forall x, raises not_empty_max (created_at_key x)).
    { intros x e0 He0. unfold created_at_key, parse_iso_datetime in He0.
      destruct (getitem x "created_at") as [v|e1] eqn:Hget; simpl in He0.
      - raise_cases He0; injection He0 as <-; discriminate.
      - injection He0 as <-.
        apply getitem_raises in Hget as [-> | ->]; discriminate. }
    destruct (created_at_key m) as [v|e1] eqn:Hm; simpl in Hfind.
    + apply max_loop_raise in Hfind as (x & _ & Hx). eapply Hkey; eauto.
    + injection Hfind as <-. eapply Hkey; eauto.
  - injection Hfind as <-. apply py_iter_raises in Hiter as <-. discriminate.
Qed.

Lemma read_student_data_clean (w : World) (file_path : string) :
  within not_late not_empty_max (read_student_data w file_path).
Proof.
  unfold read_student_data. apply within_try_except.
  - apply within_lift. apply raises_bind.
    + intros e He. unfold open in He. raise_cases He;
        injection He as <-; discriminate.
    + intros text _.
      destruct (Csv.reader (Csv.readlines text)) as [rows err] eqn:Hreader.
      apply read_rows_raises; try discriminate.
      intros e ->. apply reader_rows_error in Hreader as ->. discriminate.
  - apply within_bind.
    + apply within_emit. intros [=].
    + intros _ _. apply within_ret.
Qed.

Lemma fetch_clean (w : World) (url key : string) (message : Z -> string) :
  within not_late not_empty_max
    (response ← requests_get w url;
     if status_code response =? 200
     then lift (j ← response_json response; get_default j key (JList []))
     else print_stderr (message (status_code response));;
          mret (JList [])).
Proof.
  apply within_bind.
  - unfold requests_get. apply within_bind; [apply within_emit; discriminate|].
    intros _ _. apply within_lift. intros e He.
    destruct (http_get w url); [discriminate|]. injection He as <-. discriminate.
  - intros response _. destruct (status_code response =? 200).
    + apply within_lift. apply raises_bind.
      * intros e He. unfold response_json in He.
        destruct (body response); [discriminate|].
        injection He as <-. discriminate.
      * intros j _ e He. apply get_default_raises in He as <-. discriminate.
    + apply within_bind; [apply within_emit; discriminate|].
      intros _ _. apply within_ret.
Qed.

Lemma fetch_users_clean (w : World) :
  within not_late not_empty_max (fetch_users w).
Proof.
  apply (fetch_clean w _ "users"
           (fun code => "Failed to fetch users. Status code: " +:+ pretty code)).
Qed.

Lemma fetch_submissions_clean (w : World) (student_id : json) :
  within not_late not_empty_max (fetch_submissions w student_id).
Proof.
  unfold fetch_submissions.
  apply (fetch_clean w _ "submissions"
           (fun code => "Failed to fetch submissions for student ID "
                        +:+ py_str student_id +:+ ". Status code: "
                        +:+ pretty code)).
Qed.

Lemma main_loop_body_clean (w : World) (now : civil)
    (user_dict : gmap pykey json) (student : Student) :
  within not_late not_empty_max (main_loop_body w now user_dict student).
Proof.
  destruct (user_dict !! KStr (email student)) as [student_id|] eqn:Hlookup.
  - rewrite (main_loop_body_matched _ _ _ _ _ Hlookup).
    apply within_bind; [apply fetch_submissions_clean|].
    intros submissions _.
    apply within_bind; [apply within_emit; discriminate|]. intros _ _.
    destruct (truthy submissions) eqn:Htruthy; cbn [negb].
    + apply within_bind.
      * apply within_lift. apply find_accepted_submission_raises. exact Htruthy.
      * intros latest Hlatest. simpl in Hlatest.
        apply find_accepted_submission_elem in Hlatest as [-> _].
        apply within_bind.
        -- apply within_lift. intros e He.
           apply getitem_raises in He as [-> | ->]; discriminate.
        -- intros id _. apply within_emit. intros [=].
    + apply within_emit. intros [=].
  - rewrite (main_loop_body_unmatched _ _ _ _ Hlookup).
    apply within_emit. intros [=].
Qed.

Lemma main_clean (w : World) : within not_late not_empty_max (main w).
Proof.
  unfold main. apply within_bind; [apply read_student_data_clean|].
  intros students _. destruct students as [|student students].
  - apply within_emit. discriminate.
  - apply within_bind; [apply fetch_users_clean|]. intros users _.
    destruct (truthy users); cbn [negb].
    + apply within_bind.
      * apply within_lift. intros e He.
        apply user_dict_of_raises in He as [-> | ->]; discriminate.
      * intros user_dict _. apply within_for_each. intros s _.
        apply main_loop_body_clean.
    + apply within_emit. discriminate.
Qed.

End Clean.

(** ** Failed fetches *)

Section Fetch.
Context `{Python}.

Lemma requests_get_some (w : World) (url : string) (r : Response) :
  http_get w url = Some r -> requests_get w url = ([HttpGet url], Ok r).
Proof. intros Hget. unfold requests_get. rewrite Hget. reflexivity. Qed.

Lemma not_success_not_200 (code : Z) :
  success_status code = false -> (code =? 200) = false.
Proof. unfold success_status. lia. Qed.

Lemma fetch_users_failure (w : World) (r : Response) :
  http_get w USERS_API_URL = Some r ->
  (status_code r =? 200) = false ->
  fetch_users w =
    ([HttpGet USERS_API_URL;
      Stderr ("Failed to fetch users. Status code: "
              +:+ pretty (status_code r))],
     Ok (JList [])).
Proof.
  intros Hget Hcode. unfold fetch_users.
  rewrite (requests_get_some _ _ _ Hget), M_bind_ok, Hcode. reflexivity.
Qed.

Lemma fetch_submissions_failure (w : World) (student_id : json) (r : Response) :
  http_get w (SUBMISSIONS_API_URL_TEMPLATE (py_str student_id)) = Some r ->
  (status_code r =? 200) = false ->
  fetch_submissions w student_id =
    ([HttpGet (SUBMISSIONS_API_URL_TEMPLATE (py_str student_id));
      Stderr ("Failed to fetch submissions for student ID "
              +:+ py_str student_id +:+ ". Status code: "
              +:+ pretty (status_code r))],
     Ok (JList [])).
Proof.
  intros Hget Hcode. unfold fetch_submissions.
  rewrite (requests_get_some _ _ _ Hget), M_bind_ok, Hcode. reflexivity.
Qed.

(** With a non-empty roster and a falsy directory, [main] stops after
    the message. *)
Lemma main_no_users (w : World) (t t' : list event)
    (student : Student) (students : list Student) (users : json) :
  read_student_data w STUDENTS_FILE = (t, Ok (student :: students)) ->
  fetch_users w = (t', Ok users) ->
  truthy users = false ->
  main w = (t ++ t' ++ [Stdout NO_USERS_MESSAGE], Ok tt).
Proof.
  intros Hread Hfetch Hfalsy. unfold main.
  rewrite Hread, M_bind_ok, Hfetch, M_bind_ok, Hfalsy. reflexivity.
Qed.

Lemma for_each_cons_ok {A} (body : A -> M unit) (x : A) (l : list A)
    (t : list event) :
  body x = (t, Ok tt) ->
  for_each body (x :: l) =
    (t ++ events (for_each body l), outcome (for_each body l)).
Proof. intros Hx. simpl. rewrite Hx, M_bind_ok. reflexivity. Qed.

End Fetch.

Section Claims_fetch.
Context `{Python}.

(** C5.  For a matched student whose fetched submission list is empty,
    the loop body prints the notice "No submissions found, as of"
    followed by the time read at the start, and ends normally; and no
    run of [main] ends in the [ValueError] that [max] raises on an
    empty sequence. *)
Theorem no_submissions_notice (w : World) (now : civil)
    (user_dict : gmap pykey json) (student : Student) (student_id : json) :
  user_dict !! KStr (email student) = Some student_id ->
  outcome (fetch_submissions w student_id) = Ok (JList []) ->
  main_loop_body w now user_dict student =
    (events (fetch_submissions w student_id)
       ++ [Sleep; Stdout ("No submissions found, as of " +:+ str_civil now)],
     Ok tt)
  /\ no_empty_max (outcome (main w)).
Proof.
  intros Hlookup Hout. split.
  - eapply main_loop_body_no_submissions; eauto.
  - intros Hraise. destruct (main_clean w) as [_ Hq].
    apply Hq in Hraise. apply Hraise. reflexivity.
Qed.

(** C6.  On a non-empty list of submissions with readable timestamps
    the selection returns one of them; whatever it returns is a member
    of the list and a true value; and no run of [main] prints the
    "LATE" message. *)
Theorem late_branch_unreachable (w : World) :
  (forall subs, subs <> [] -> Forall readable subs ->
     exists s, find_accepted_submission (JList subs) = Ok s /\ s ∈ subs)
  /\ (forall submissions s,
        find_accepted_submission submissions = Ok s ->
        truthy s = true
        /\ forall subs, submissions = JList subs -> s ∈ subs)
  /\ Stdout LATE_MESSAGE ∉ events (main w).
Proof.
  split; [|split].
  - intros subs Hne Hall.
    destruct (py_max_first_max created_at_key subs Hne Hall)
      as (b & s & a & ks & -> & _ & _ & _ & Hmax).
    exists s. split; [exact Hmax|]. apply elem_of_app. right. left.
  - apply find_accepted_submission_elem.
  - destruct (main_clean w) as [Hev _]. intros Hin.
    rewrite Forall_forall in Hev. apply (Hev _ Hin). reflexivity.
Qed.

(** C7.  A directory answer whose status is not a success makes
    [fetch_users] report it on the error stream and return the empty
    list, and [main] stop after "No users fetched from API. Exiting.";
    a submissions answer whose status is not a success makes
    [fetch_submissions] report it and return the empty list, the loop
    body print the "no submissions" notice, and the loop go on with the
    remaining students. *)
Theorem fetch_failures (w : World) (now : civil) :
  (forall r,
     http_get w USERS_API_URL = Some r ->
     success_status (status_code r) = false ->
     fetch_users w =
       ([HttpGet USERS_API_URL;
         Stderr ("Failed to fetch users. Status code: "
                 +:+ pretty (status_code r))],
        Ok (JList []))
     /\ forall t student students,
          read_student_data w STUDENTS_FILE = (t, Ok (student :: students)) ->
          main w =
            (t ++ [HttpGet USERS_API_URL;
                   Stderr ("Failed to fetch users. Status code: "
                           +:+ pretty (status_code r));
                   Stdout NO_USERS_MESSAGE],
             Ok tt))
  /\ (forall user_dict student rest student_id r,
        user_dict !! KStr (email student) = Some student_id ->
        http_get w (SUBMISSIONS_API_URL_TEMPLATE (py_str student_id)) = Some r ->
        success_status (status_code r) = false ->
        let failure :=
          [HttpGet (SUBMISSIONS_API_URL_TEMPLATE (py_str student_id));
           Stderr ("Failed to fetch submissions for student ID "
                   +:+ py_str student_id +:+ ". Status code: "
                   +:+ pretty (status_code r))] in
        let remaining := for_each (main_loop_body w now user_dict) rest in
        fetch_submissions w student_id = (failure, Ok (JList []))
        /\ for_each (main_loop_body w now user_dict) (student :: rest) =
             (failure
                ++ [Sleep;
                    Stdout ("No submissions found, as of " +:+ str_civil now)]
                ++ events remaining,
              outcome remaining)).
Proof.
  split.
  - intros r Hget Hcode. apply not_success_not_200 in Hcode.
    pose proof (fetch_users_failure _ _ Hget Hcode) as Hfetch.
    split; [exact Hfetch|].
    intros t student students Hread.
    rewrite (main_no_users _ _ _ _ _ _ Hread Hfetch); reflexivity.
  - intros user_dict student rest student_id r Hlookup Hget Hcode.
    apply not_success_not_200 in Hcode.
    pose proof (fetch_submissions_failure _ _ _ Hget Hcode) as Hfetch.
    split; [exact Hfetch|].
    assert (Hbody : main_loop_body w now user_dict student =
              (events (fetch_submissions w student_id)
                 ++ [Sleep;
                     Stdout ("No submissions found, as of "
                             +:+ str_civil now)],
               Ok tt)).
    { apply (main_loop_body_no_submissions _ _ _ _ _ (JList []) Hlookup);
        [rewrite Hfetch|]; reflexivity. }
    rewrite Hfetch in Hbody. simpl in Hbody.
    rewrite (for_each_cons_ok _ _ _ _ Hbody). reflexivity.
Qed.

End Claims_fetch.

(** ** The example run *)

(** The whole run on the example world: Jane's link carries the id of
    her latest submission, the address in capitals in the directory is
    not matched, and the failed fetch for id 8 gives the notice. *)
Example main_example :
  @main Example.python Example.world =
    ([HttpGet "https://edstem.org/api/challenges/134120/users";
      HttpGet "https://edstem.org/api/users/7/challenges/134120/submissions";
      Sleep;
      Stdout "https://edstem.org/au/courses/18651/lessons/61238/slides/414786/submissions?u=7&s=99";
      Stdout "https://edstem.org/au/courses/18651/lessons/61238/slides/414786/submissions?q=KASHYAP KOUTILYA%20ADIPUDI";
      HttpGet "https://edstem.org/api/users/8/challenges/134120/submissions";
      Stderr "Failed to fetch submissions for student ID 8. Status code: 503";
      Sleep;
      Stdout "No submissions found, as of 2024-03-05 12:00:00"],
     Ok tt).
Proof. vm_compute. reflexivity. Qed.

(** The dict of the example is the one [main] builds. *)
Example user_dict_example :
  user_dict_of (JList Example.directory) = Ok Example.user_dict.
Proof. reflexivity. Qed.

Lemma latest_submission_link_witness :
  exists before latest after k id,
    Example.submissions_of_jane = before ++ latest :: after
    /\ @created_at_key Example.python latest = Ok k
    /\ Forall (@earlier_than Example.python k) (before ++ after)
    /\ getitem latest "id" = Ok id
    /\ @main_loop_body Example.python Example.world Example.noon
         Example.user_dict (Roster.record Example.jane) =
         (events (fetch_submissions Example.world (JInt 7))
            ++ [Sleep;
                Stdout (SUBMISSION_URL_TEMPLATE (py_str (JInt 7)) (py_str id))],
          Ok tt).
Proof.
  apply (@latest_submission_link Example.python Example.world Example.noon
           Example.user_dict (Roster.record Example.jane) (JInt 7)
           Example.submissions_of_jane Example.timestamps_of_jane).
  - vm_compute. reflexivity.
  - vm_compute. reflexivity.
  - discriminate.
  - repeat constructor.
  - apply (bool_decide_unpack (NoDup Example.timestamps_of_jane)).
    vm_compute. exact I.
  - repeat constructor; eexists; vm_compute; reflexivity.
Defined.

(** C1 on two submissions made in the night Sydney's clocks went back.
    Read as ISO 8601 timestamps, the second (id 2, 02:10 at UTC+10) is
    forty minutes later than the first (id 1, 02:30 at UTC+11).
    [parse_iso_datetime] keeps the date and time fields of each and
    overwrites the offset with UTC instead of applying it, so the first
    has the greater key: [find_accepted_submission] returns it and the
    link printed for the student carries id 1, not the id of the latest
    submission. *)
Theorem latest_submission_link_drops_offset :
  let first := Example.submission 1 Example.before_clocks_went_back in
  let second := Example.submission 2 Example.after_clocks_went_back in
  (exists t1 t2,
     @fromisoformat Example.python Example.before_clocks_went_back = Some t1
     /\ @fromisoformat Example.python Example.after_clocks_went_back = Some t2
     /\ Iso8601.instant t2 = Iso8601.instant t1 + 40 * 60 * 1000000)
  /\ (exists k1 k2,
        @created_at_key Example.python first = Ok k1
        /\ @created_at_key Example.python second = Ok k2
        /\ datetime_gt k1 k2 = true)
  /\ @find_accepted_submission Example.python (JList [first; second])
     = Ok first
  /\ @main_loop_body Example.python Example.world_that_night Example.noon
       Example.user_dict (Roster.record Example.jane)
     = ([HttpGet (SUBMISSIONS_API_URL_TEMPLATE "7"); Sleep;
         Stdout (SUBMISSION_URL_TEMPLATE "7" "1")],
        Ok tt).
Proof.
  cbv zeta. split; [|split; [|split]].
  - eexists _, _. split; [vm_compute; reflexivity|].
    split; [vm_compute; reflexivity|]. vm_compute. reflexivity.
  - eexists _, _. split; [vm_compute; reflexivity|].
    split; [vm_compute; reflexivity|]. vm_compute. reflexivity.
  - vm_compute. reflexivity.
  - vm_compute. reflexivity.
Qed.

Lemma no_submissions_notice_witness :
  @main_loop_body Example.python Example.world Example.noon
    Example.user_dict (Roster.record Example.mohammed) =
    (events (fetch_submissions Example.world (JInt 8))
       ++ [Sleep;
           Stdout ("No submissions found, as of " +:+ str_civil Example.noon)],
     Ok tt)
  /\ no_empty_max (outcome (@main Example.python Example.world)).
Proof.
  apply (@no_submissions_notice Example.python Example.world Example.noon
           Example.user_dict (Roster.record Example.mohammed) (JInt 8)).
  - vm_compute. reflexivity.
  - vm_compute. reflexivity.
Defined.

Lemma late_branch_unreachable_witness :
  exists s,
    @find_accepted_submission Example.python (JList Example.submissions_of_jane)
      = Ok s
    /\ s ∈ Example.submissions_of_jane.
Proof.
  apply (proj1 (@late_branch_unreachable Example.python Example.world)).
  - discriminate.
  - repeat constructor; eexists; vm_compute; reflexivity.
Defined.

Lemma fetch_failures_witness :
  (fetch_users Example.directory_down =
     ([HttpGet USERS_API_URL;
       Stderr ("Failed to fetch users. Status code: " +:+ pretty 503)],
      Ok (JList []))
   /\ @main Example.python Example.directory_down =
        ([HttpGet USERS_API_URL;
          Stderr ("Failed to fetch users. Status code: " +:+ pretty 503);
          Stdout NO_USERS_MESSAGE],
         Ok tt))
  /\ (fetch_submissions Example.world (JInt 8) =
        ([HttpGet (SUBMISSIONS_API_URL_TEMPLATE "8");
          Stderr ("Failed to fetch submissions for student ID 8. Status code: "
                  +:+ pretty 503)],
         Ok (JList []))
      /\ for_each (@main_loop_body Example.python Example.world Example.noon
                     Example.user_dict)
           [Roster.record Example.mohammed; Roster.record Example.kashyap] =
           ([HttpGet (SUBMISSIONS_API_URL_TEMPLATE "8");
             Stderr ("Failed to fetch submissions for student ID 8. Status code: "
                     +:+ pretty 503);
             Sleep;
             Stdout ("No submissions found, as of " +:+ str_civil Example.noon);
             Stdout (MISSING_EMAIL_URL_TEMPLATE "KASHYAP KOUTILYA%20ADIPUDI")],
            Ok tt)).
Proof.
  split.
  - destruct (proj1 (@fetch_failures Example.python Example.directory_down
                       Example.noon) (Example.failure 503))
      as [Hfetch Hmain]; [reflexivity | reflexivity |].
    split; [exact Hfetch|].
    apply (Hmain [] (Roster.record Example.jane)
             [Roster.record Example.kashyap; Roster.record Example.mohammed]).
    vm_compute. reflexivity.
  - destruct (proj2 (@fetch_failures Example.python Example.world Example.noon)
                Example.user_dict (Roster.record Example.mohammed)
                [Roster.record Example.kashyap] (JInt 8) (Example.failure 503))
      as [Hfetch Hloop]; [vm_compute; reflexivity | reflexivity | reflexivity |].
    split; [exact Hfetch | exact Hloop].
Defined.

(** ** A missing roster file *)

Section Claim_missing_roster.
Context `{Python}.

(** C3, as amended.  If the roster file does not exist,
    [read_student_data] prints "Error: The file students.txt was not
    found." and returns the empty list, and [main] prints "No student
    data found. Exiting." and ends: two lines on standard output, no
    request to the server, no line for any student. *)
Theorem missing_roster (w : World) :
  filesystem w STUDENTS_FILE = NoSuchFile ->
  read_student_data w STUDENTS_FILE =
    ([Stdout "Error: The file students.txt was not found."], Ok [])
  /\ main w =
       ([Stdout "Error: The file students.txt was not found.";
         Stdout NO_STUDENTS_MESSAGE],
        Ok tt).
Proof.
  intros Hmissing.
  assert (Hread : read_student_data w STUDENTS_FILE =
                    ([Stdout "Error: The file students.txt was not found."],
                     Ok [])).
  { unfold read_student_data, open. rewrite Hmissing. reflexivity. }
  split; [exact Hread|].
  unfold main. rewrite Hread. reflexivity.
Qed.

End Claim_missing_roster.

Lemma missing_roster_witness :
  @read_student_data Example.python Example.no_roster STUDENTS_FILE =
    ([Stdout "Error: The file students.txt was not found."], Ok [])
  /\ @main Example.python Example.no_roster =
       ([Stdout "Error: The file students.txt was not found.";
         Stdout NO_STUDENTS_MESSAGE],
        Ok tt).
Proof.
  apply (@missing_roster Example.python Example.no_roster). reflexivity.
Defined.

(** C3, as stated, fails: without the roster file the run does write to
    standard output. *)
Lemma missing_roster_prints :
  ~ (filesystem Example.no_roster STUDENTS_FILE = NoSuchFile ->
     outcome (@read_student_data Example.python Example.no_roster STUDENTS_FILE)
       = Ok []
     /\ stdout_of (events (@main Example.python Example.no_roster)) = []).
Proof.
  intros Hclaim. destruct (Hclaim eq_refl) as [_ Hsilent].
  vm_compute in Hsilent. discriminate Hsilent.
Qed.

(** ** A student the directory does not know *)

Lemma string_app_cons (c : ascii) (s t : string) :
  String c s +:+ t = String c (s +:+ t).
Proof. reflexivity. Qed.

Lemma string_app_nil_l (t : string) : "" +:+ t = t.
Proof. reflexivity. Qed.

Lemma string_app_nil_r (s : string) : s +:+ "" = s.
Proof. induction s as [|c s IH]; [reflexivity|]. rewrite string_app_cons, IH. reflexivity. Qed.

Lemma string_app_assoc (s t u : string) : (s +:+ t) +:+ u = s +:+ t +:+ u.
Proof.
  induction s as [|c s IH]; [reflexivity|]. rewrite !string_app_cons, IH. reflexivity.
Qed.


Section Unmatched.
Context `{Python}.

(** What the loop body prints for a student whose email is not a key
    of the mapping: first name, the text [%20], last name, put into
    the search URL as they are. *)
Lemma missing_email_link (w : World) (now : civil)
    (user_dict : gmap pykey json) (student : Student) :
  user_dict !! KStr (email student) = None ->
  main_loop_body w now user_dict student =
    ([Stdout (MISSING_EMAIL_URL_TEMPLATE
                (first_name student +:+ "%20" +:+ last_name student))],
     Ok tt).
Proof. intros Hlookup. rewrite main_loop_body_unmatched; auto. Qed.


End Unmatched.

(** C4 at the second line of the sample roster of the source: the first
    name has a space, the printed query keeps it, and so the line is not
    the search URL of the URL-encoded name. *)
Theorem missing_email_link_not_url_encoded :
  let student := Roster.record Example.kashyap in
  Example.user_dict !! KStr (email student) = None
  /\ @main_loop_body Example.python Example.world Example.noon
       Example.user_dict student =
       ([Stdout (MISSING_EMAIL_URL_TEMPLATE "KASHYAP KOUTILYA%20ADIPUDI")],
        Ok tt)
  /\ UrlEncoding.url_encode (first_name student +:+ " " +:+ last_name student)
     = "KASHYAP%20KOUTILYA%20ADIPUDI"
  /\ MISSING_EMAIL_URL_TEMPLATE "KASHYAP KOUTILYA%20ADIPUDI"
     <> MISSING_EMAIL_URL_TEMPLATE
          (UrlEncoding.url_encode
             (first_name student +:+ " " +:+ last_name student)).
Proof.
  repeat split; try (vm_compute; reflexivity).
  vm_compute. discriminate.
Qed.

(** ** Lower-cased roster emails against the directory's emails *)





Lemma py_key_str (k : json) (a : string) : py_key k = Ok (KStr a) -> k = JStr a.
Proof. destruct k as [|[]| | | |]; simpl; congruence. Qed.


Section Claim_case.
Context `{Python}.



End Claim_case.


(** ** The reader on well-formed lines *)

Lemma string_length_app (s t : string) :
  String.length (s +:+ t) = (String.length s + String.length t)%nat.
Proof.
  induction s as [|c s IH]; [reflexivity|]. rewrite string_app_cons. simpl.
  rewrite IH. reflexivity.
Qed.

Lemma plain_char_inv (c : ascii) :
  Roster.plain_char c = true ->
  Csv.is_newline c = false /\ Ascii.eqb c Csv.delimiter = false
  /\ Ascii.eqb c Text.NUL = false.
Proof.
  unfold Roster.plain_char. rewrite negb_true_iff, !orb_false_iff. tauto.
Qed.

Lemma is_newline_inv (c : ascii) :
  Csv.is_newline c = false ->
  Ascii.eqb c Text.LF = false /\ Ascii.eqb c Text.CR = false.
Proof. unfold Csv.is_newline. rewrite orb_false_iff. tauto. Qed.

Section Reader_proofs.
Context `{Python}.

Lemma feed_chars_app (s t : string) (r : Csv.ReaderObj) :
  Csv.feed_chars r (s +:+ t) = (r' ← Csv.feed_chars r s; Csv.feed_chars r' t).
Proof.
  revert r. induction s as [|c s IH]; intros r; [reflexivity|].
  rewrite string_app_cons. simpl.
  destruct (csv_rejects_nul && Ascii.eqb c Text.NUL); [reflexivity|].
  destruct (Csv.parse_process_char r (Some c)) as [r'|e]; simpl;
    [apply IH | reflexivity].
Qed.

(** One character that is not NUL. *)
Lemma feed_chars_cons (c : ascii) (s : string) (r : Csv.ReaderObj) :
  Ascii.eqb c Text.NUL = false ->
  Csv.feed_chars r (String c s) =
    (r' ← Csv.parse_process_char r (Some c); Csv.feed_chars r' s).
Proof. intros Hc. simpl. rewrite Hc, andb_false_r. reflexivity. Qed.

(** Inside an unquoted field, plain characters are appended to it. *)
Lemma feed_chars_in_field (g : string) (fs : list string) (p : string) :
  Roster.plain_chars g = true ->
  (N.of_nat (String.length p + String.length g) <= Csv.field_limit)%N ->
  Csv.feed_chars
    {| Csv.state := Csv.IN_FIELD; Csv.fields := fs; Csv.field := p |} g
  = Ok {| Csv.state := Csv.IN_FIELD; Csv.fields := fs;
          Csv.field := p +:+ g |}.
Proof.
  revert p. induction g as [|c g IH]; intros p Hplain Hlen.
  - simpl. rewrite string_app_nil_r. reflexivity.
  - simpl in Hplain. apply andb_true_iff in Hplain as [Hc Hg].
    apply plain_char_inv in Hc as (Hnl & Hdelim & Hnul).
    rewrite (feed_chars_cons _ _ _ Hnul).
    unfold Csv.parse_process_char, Csv.parse_add_char. simpl in *.
    rewrite Hnl, Hdelim.
    assert (Hroom : (Csv.field_limit <=? N.of_nat (String.length p))%N = false).
    { apply N.leb_gt. lia. }
    rewrite Hroom. simpl. rewrite IH; auto.
    + rewrite string_app_assoc. reflexivity.
    + rewrite string_length_app. simpl. lia.
Qed.

Lemma feed_chars_column (f : string) (r : Csv.ReaderObj) :
  at_field_start r -> Roster.plain f = true ->
  Csv.feed_chars r f = Ok (after_column r f).
Proof.
  intros [Hstate Hfield] Hplain. unfold Roster.plain in Hplain.
  apply andb_true_iff in Hplain as [Hplain Hlen].
  apply andb_true_iff in Hplain as [Hchars Hquote].
  apply N.leb_le in Hlen.
  destruct f as [|c g]; [reflexivity|].
  simpl in Hchars, Hquote, Hlen.
  apply andb_true_iff in Hchars as [Hc Hg].
  apply plain_char_inv in Hc as (Hnl & Hdelim & Hnul).
  apply negb_true_iff in Hquote.
  rewrite (feed_chars_cons _ _ _ Hnul).
  destruct r as [st fs fd]. simpl in Hstate, Hfield. subst fd.
  assert (Hfirst :
    Csv.parse_process_char
      {| Csv.state := st; Csv.fields := fs; Csv.field := "" |} (Some c)
    = Ok {| Csv.state := Csv.IN_FIELD; Csv.fields := fs;
            Csv.field := String c "" |}).
  { destruct Hstate as [-> | ->];
      unfold Csv.parse_process_char, Csv.start_field, Csv.parse_add_char;
      simpl; rewrite Hnl, Hquote, Hdelim; reflexivity. }
  rewrite Hfirst. rewrite res_bind_ok; cbv beta.
  rewrite feed_chars_in_field; [reflexivity | exact Hg | simpl; lia].
Qed.

(** The delimiter after a column saves the column. *)
Lemma parse_delimiter (f : string) (r : Csv.ReaderObj) :
  at_field_start r ->
  Csv.parse_process_char (after_column r f) (Some Csv.delimiter)
  = Ok {| Csv.state := Csv.START_FIELD; Csv.fields := Csv.fields r ++ [f];
          Csv.field := "" |}.
Proof.
  intros [Hstate Hfield]. destruct r as [st fs fd].
  simpl in Hstate, Hfield. subst fd.
  destruct f as [|c g]; simpl.
  - destruct Hstate as [-> | ->]; reflexivity.
  - reflexivity.
Qed.

(** A column and the delimiter after it. *)
Lemma feed_chars_column_tab (f rest : string) (r : Csv.ReaderObj) :
  at_field_start r -> Roster.plain f = true ->
  Csv.feed_chars r (f +:+ Roster.tab +:+ rest)
  = Csv.feed_chars {| Csv.state := Csv.START_FIELD;
                      Csv.fields := Csv.fields r ++ [f];
                      Csv.field := "" |} rest.
Proof.
  intros Hstart Hplain.
  rewrite feed_chars_app, (feed_chars_column _ _ Hstart Hplain).
  change (Roster.tab +:+ rest) with (String Csv.delimiter rest).
  rewrite res_bind_ok; cbv beta.
  rewrite feed_chars_cons by reflexivity.
  rewrite (parse_delimiter _ _ Hstart). reflexivity.
Qed.

(** The line end after the last column, then the end-of-line mark. *)
Lemma feed_line_end (f t : string) (r : Csv.ReaderObj) :
  Csv.state r = Csv.START_FIELD -> Csv.field r = "" ->
  Roster.line_end t = true \/ t = "" ->
  (r' ← Csv.feed_chars (after_column r f) t; Csv.parse_process_char r' None)
  = Ok {| Csv.state := Csv.START_RECORD; Csv.fields := Csv.fields r ++ [f];
          Csv.field := "" |}.
Proof.
  intros Hstate Hfield Ht. destruct r as [st fs fd].
  simpl in Hstate, Hfield. subst st fd.
  assert (Hcases : t = Roster.LF \/ t = Roster.CRLF \/ t = Roster.CR \/ t = "").
  { destruct Ht as [Ht | ->]; [|auto]. unfold Roster.line_end in Ht.
    apply orb_true_iff in Ht as [Ht | Ht];
      [apply orb_true_iff in Ht as [Ht | Ht]|];
      apply bool_decide_eq_true in Ht; auto. }
  clear Ht. destruct H as [reader [|]];
    destruct Hcases as [-> | [-> | [-> | ->]]];
    destruct f as [|c g]; reflexivity.
Qed.

(** A well-formed line, with its line end, is one record of four
    fields. *)
Lemma feed_line_well_formed (l : Roster.Line) (t : string) :
  Roster.well_formed l = true ->
  Roster.line_end t = true \/ t = "" ->
  Csv.feed_line Csv.parse_reset (Roster.text l +:+ t)
  = Ok {| Csv.state := Csv.START_RECORD; Csv.fields := Roster.columns l;
          Csv.field := "" |}.
Proof.
  intros Hwf Ht. unfold Roster.well_formed, Roster.columns in Hwf.
  simpl in Hwf. rewrite andb_true_r in Hwf.
  apply andb_true_iff in Hwf as [H1 Hwf].
  apply andb_true_iff in Hwf as [H2 Hwf].
  apply andb_true_iff in Hwf as [H3 H4].
  unfold Csv.feed_line, Roster.text. rewrite !string_app_assoc.
  rewrite feed_chars_column_tab; [|split; [left|]; reflexivity | exact H1].
  rewrite feed_chars_column_tab; [|split; [right|]; reflexivity | exact H2].
  rewrite feed_chars_column_tab; [|split; [right|]; reflexivity | exact H3].
  rewrite feed_chars_app.
  rewrite feed_chars_column; [|split; [right|]; reflexivity | exact H4].
  rewrite res_bind_ok; cbv beta.
  rewrite feed_line_end; auto.
Qed.

End Reader_proofs.

(** ** The lines of a well-formed file *)

Lemma no_newline_app (s t : string) :
  Roster.no_newline (s +:+ t) = Roster.no_newline s && Roster.no_newline t.
Proof.
  induction s as [|c s IH]; [reflexivity|]. rewrite string_app_cons. simpl.
  rewrite IH, andb_assoc. reflexivity.
Qed.

Lemma plain_no_newline (f : string) :
  Roster.plain f = true -> Roster.no_newline f = true.
Proof.
  unfold Roster.plain. intros Hplain.
  apply andb_true_iff in Hplain as [Hplain _].
  apply andb_true_iff in Hplain as [Hchars _].
  induction f as [|c f IH]; [reflexivity|]. simpl in *.
  apply andb_true_iff in Hchars as [Hc Hf].
  apply plain_char_inv in Hc as (Hnl & _ & _). rewrite Hnl, IH; auto.
Qed.

Lemma well_formed_columns (l : Roster.Line) :
  Roster.well_formed l = true ->
  Roster.plain (Roster.first l) = true /\ Roster.plain (Roster.last l) = true
  /\ Roster.plain (Roster.placeholder l) = true
  /\ Roster.plain (Roster.address l) = true.
Proof.
  unfold Roster.well_formed, Roster.columns. simpl.
  rewrite andb_true_r, !andb_true_iff. tauto.
Qed.

Lemma text_no_newline (l : Roster.Line) :
  Roster.well_formed l = true -> Roster.no_newline (Roster.text l) = true.
Proof.
  intros (H1 & H2 & H3 & H4)%well_formed_columns. unfold Roster.text.
  rewrite !no_newline_app, (plain_no_newline _ H1), (plain_no_newline _ H2),
    (plain_no_newline _ H3), (plain_no_newline _ H4). reflexivity.
Qed.

(** A line starts with a character of its first column or with the
    delimiter, never with a line feed. *)
Lemma text_starts (l : Roster.Line) (rest : string) :
  Roster.well_formed l = true ->
  exists c s, Roster.text l +:+ rest = String c s /\ Csv.is_newline c = false.
Proof.
  intros (H1 & _)%well_formed_columns. unfold Roster.text.
  destruct (Roster.first l) as [|c g] eqn:Hfirst.
  - eexists _, _. split; reflexivity.
  - apply plain_no_newline in H1. simpl in H1.
    apply andb_true_iff in H1 as [Hc _]. apply negb_true_iff in Hc.
    eexists _, _. split; [rewrite !string_app_cons; reflexivity | exact Hc].
Qed.

Lemma readlines_from_no_newline (g rest cur : string) :
  Roster.no_newline g = true ->
  Csv.readlines_from cur (g +:+ rest) = Csv.readlines_from (cur +:+ g) rest.
Proof.
  revert cur. induction g as [|c g IH]; intros cur Hg.
  - rewrite string_app_nil_l, string_app_nil_r. reflexivity.
  - simpl in Hg. apply andb_true_iff in Hg as [Hc Hg].
    apply negb_true_iff, is_newline_inv in Hc as [Hlf Hcr].
    rewrite string_app_cons. simpl. rewrite Hlf, Hcr, IH by exact Hg.
    rewrite string_app_assoc. reflexivity.
Qed.

(** The file of well-formed lines, cut into its lines. *)
Lemma readlines_file_text (ls : list (Roster.Line * string)) :
  forallb Roster.well_formed (map fst ls) = true ->
  Roster.line_ends_ok ls = true ->
  Csv.readlines (Roster.file_text ls) = map Roster.line_with_end ls.
Proof.
  unfold Csv.readlines.
  induction ls as [|[l t] rest IH]; intros Hwf Hends; [reflexivity|].
  simpl in Hwf. apply andb_true_iff in Hwf as [Hl Hwf].
  assert (Hstart : Roster.file_text rest = ""
                   \/ exists c s, Roster.file_text rest = String c s
                                  /\ Csv.is_newline c = false).
  { destruct rest as [|[l' t'] rest']; [left; reflexivity|]. right.
    simpl in Hwf. apply andb_true_iff in Hwf as [Hl' _]. simpl.
    apply text_starts. exact Hl'. }
  assert (Htail : Roster.line_end t = true /\
                  Csv.readlines_from "" (Roster.file_text rest)
                  = map Roster.line_with_end rest
                  \/ t = "" /\ rest = []).
  { destruct rest as [|p rest'].
    - simpl in Hends. apply orb_true_iff in Hends as [Ht | Ht].
      + left. split; [exact Ht | reflexivity].
      + right. destruct t; [auto | discriminate].
    - left. change (Roster.line_end t && Roster.line_ends_ok (p :: rest') = true)
        in Hends.
      apply andb_true_iff in Hends as [Ht Hends]. split; [exact Ht | auto]. }
  simpl. rewrite (readlines_from_no_newline _ _ _ (text_no_newline _ Hl)).
  rewrite string_app_nil_l. unfold Roster.line_with_end at 1. simpl.
  destruct Htail as [[Ht Hrest] | [-> ->]].
  - unfold Roster.line_end in Ht.
    apply orb_true_iff in Ht as [Ht | Ht];
      [apply orb_true_iff in Ht as [Ht | Ht]|];
      apply bool_decide_eq_true in Ht; subst t.
    + unfold Roster.LF. rewrite string_app_cons, string_app_nil_l. simpl.
      rewrite Hrest. reflexivity.
    + unfold Roster.CRLF. rewrite !string_app_cons, string_app_nil_l. simpl.
      rewrite Hrest. reflexivity.
    + unfold Roster.CR. rewrite string_app_cons, string_app_nil_l. simpl.
      destruct Hstart as [Hnil | (c & s & Hcs & Hc)].
      * rewrite Hnil in *. simpl in Hrest. rewrite <- Hrest. reflexivity.
      * rewrite Hcs in *. apply is_newline_inv in Hc as [Hlf _].
        rewrite Hlf, Hrest. reflexivity.
  - simpl. rewrite string_app_nil_r.
    destruct (text_starts l "" Hl) as (c & s & Hcs & _).
    rewrite string_app_nil_r in Hcs. rewrite Hcs. reflexivity.
Qed.

Lemma line_ends_each (ls : list (Roster.Line * string)) :
  Roster.line_ends_ok ls = true ->
  Forall (fun lt => Roster.line_end (snd lt) = true \/ snd lt = "") ls.
Proof.
  induction ls as [|[l t] rest IH]; intros Hends; [constructor|].
  destruct rest as [|p rest'].
  - simpl in Hends. apply orb_true_iff in Hends as [Ht | Ht].
    + repeat constructor. exact Ht.
    + constructor; [|constructor]. right. destruct t; [reflexivity | discriminate].
  - change (Roster.line_end t && Roster.line_ends_ok (p :: rest') = true)
      in Hends.
    apply andb_true_iff in Hends as [Ht Hends].
    constructor; [left; exact Ht | auto].
Qed.

(** The dict of a row of four fields gives the record the specification
    asks for. *)
Lemma student_of_row_columns (l : Roster.Line) :
  student_of_row (Csv.dict_row fieldnames (Roster.columns l))
  = Ok (Roster.record l).
Proof. destruct l as [f1 f2 f3 f4]. reflexivity. Qed.

(** A row of one, two or three fields has no email: stripping it
    fails. *)
Lemma student_of_row_short (row : list string) :
  (0 < length row < 4)%nat ->
  student_of_row (Csv.dict_row fieldnames row) = Raise AttributeError.
Proof.
  intros Hlen.
  destruct row as [|f1 [|f2 [|f3 [|f4 row]]]]; simpl in Hlen; try lia;
    reflexivity.
Qed.

Lemma read_rows_columns (ls : list (Roster.Line * string))
    (student_data : list Student) :
  read_rows (map (fun lt => Roster.columns (fst lt)) ls) None student_data
  = Ok (student_data ++ map (fun lt => Roster.record (fst lt)) ls).
Proof.
  revert student_data. induction ls as [|[l t] rest IH]; intros acc; simpl.
  - rewrite app_nil_r. reflexivity.
  - rewrite student_of_row_columns. rewrite res_bind_ok. rewrite IH.
    rewrite <- app_assoc. reflexivity.
Qed.

Section Claims_reader.
Context `{Python}.

Lemma reader_file_text (ls : list (Roster.Line * string)) :
  forallb Roster.well_formed (map fst ls) = true ->
  Forall (fun lt => Roster.line_end (snd lt) = true \/ snd lt = "") ls ->
  Csv.reader (map Roster.line_with_end ls)
  = (map (fun lt => Roster.columns (fst lt)) ls, None).
Proof.
  unfold Csv.reader.
  induction ls as [|[l t] rest IH]; intros Hwf Hends; [reflexivity|].
  simpl in Hwf. apply andb_true_iff in Hwf as [Hl Hwf].
  apply Forall_cons in Hends as [Ht Hends]. simpl in Ht.
  simpl. unfold Roster.line_with_end at 1. simpl.
  rewrite (feed_line_well_formed _ _ Hl Ht). simpl.
  rewrite (IH Hwf Hends). reflexivity.
Qed.

(** C2.  For a roster file made of N well-formed lines (four columns
    separated by tabs: first name, last name, a placeholder, email;
    each line ended by LF, CR LF or CR, the last one possibly by the
    end of the file), [read_student_data] prints nothing and returns
    exactly N records, the i-th with the first name, the last name and
    the email of the i-th line trimmed, and the email lower-cased. *)
Theorem read_student_data_well_formed (w : World) (path : string)
    (lines : list (Roster.Line * string)) :
  filesystem w path = FileText (Roster.file_text lines) ->
  forallb Roster.well_formed (map fst lines) = true ->
  Roster.line_ends_ok lines = true ->
  read_student_data w path
    = ([], Ok (map (fun lt => Roster.record (fst lt)) lines))
  /\ length (map (fun lt => Roster.record (fst lt)) lines) = length lines.
Proof.
  intros Hfile Hwf Hends. split; [|apply length_map].
  unfold read_student_data, open. rewrite Hfile. rewrite res_bind_ok.
  rewrite (readlines_file_text _ Hwf Hends).
  rewrite (reader_file_text _ Hwf (line_ends_each _ Hends)).
  assert (Hfilter :
    List.filter Csv.not_blank (map (fun lt => Roster.columns (fst lt)) lines)
    = map (fun lt => Roster.columns (fst lt)) lines).
  { clear. induction lines as [|[l t] rest IH]; [reflexivity|].
    simpl. rewrite IH. reflexivity. }
  rewrite Hfilter, read_rows_columns. reflexivity.
Qed.

(** C8.  The line of the example has two tab-separated fields; the
    reader yields them as one row, and [read_student_data] ends in the
    [AttributeError] of stripping the missing email (the value [None]),
    which its [except] clause does not catch: so does [main]. *)
Theorem read_student_data_short_line :
  Csv.reader (Csv.readlines Example.short_line) = ([["Jane"; "Doe"]], None)
  /\ row_get (Csv.dict_row fieldnames ["Jane"; "Doe"]) "email" = Ok None
  /\ read_student_data Example.short_roster STUDENTS_FILE
     = ([], Raise AttributeError)
  /\ main Example.short_roster = ([], Raise AttributeError).
Proof.
  destruct H as [reader [|]]; repeat split; vm_compute; reflexivity.
Qed.

End Claims_reader.

Lemma read_student_data_well_formed_witness :
  @read_student_data Example.python Example.world STUDENTS_FILE
    = ([], Ok (map (fun lt => Roster.record (fst lt)) Example.roster))
  /\ length (map (fun lt => Roster.record (fst lt)) Example.roster)
     = length Example.roster.
Proof.
  apply (@read_student_data_well_formed Example.python Example.world
           STUDENTS_FILE Example.roster); reflexivity.
Defined.

(** ** Date and time fields against instants *)

(** The order of the fields, which the script compares, is the order of
    the instants when every timestamp carries the same offset. *)

Lemma year_days_step (y : Z) :
  Iso8601.year_days (y + 1)
  = Iso8601.year_days y + 365 + Iso8601.leap_day (y + 1).
Proof.
  unfold Iso8601.year_days, Iso8601.leap_day, is_leap.
  destruct (Z.eqb_spec ((y + 1) mod 4) 0), (Z.eqb_spec ((y + 1) mod 100) 0),
    (Z.eqb_spec ((y + 1) mod 400) 0);
    cbn [andb orb negb]; Z.to_euclidean_division_equations; lia.
Qed.

Lemma leap_day_range (y : Z) : 0 <= Iso8601.leap_day y <= 1.
Proof. unfold Iso8601.leap_day. destruct (is_leap y); lia. Qed.

Lemma year_days_mono (y n : Z) :
  0 <= n -> Iso8601.year_days y + 365 * n <= Iso8601.year_days (y + n).
Proof.
  intros Hn. revert n Hn. apply natlike_ind.
  - replace (y + 0) with y by lia. lia.
  - intros n Hn IH. replace (y + Z.succ n) with ((y + n) + 1) by lia.
    rewrite year_days_step. pose proof (leap_day_range (y + n + 1)). lia.
Qed.

Lemma days_from_civil_split (y m d : Z) :
  Iso8601.days_from_civil y m d
  = Iso8601.year_days (Iso8601.march_year y m) + Iso8601.march_day m d - 719468.
Proof.
  unfold Iso8601.days_from_civil, Iso8601.year_days, Iso8601.march_day,
    Iso8601.march_year. lia.
Qed.

Lemma month_cases (m : Z) :
  1 <= m <= 12 ->
  m = 1 \/ m = 2 \/ m = 3 \/ m = 4 \/ m = 5 \/ m = 6 \/ m = 7 \/ m = 8
  \/ m = 9 \/ m = 10 \/ m = 11 \/ m = 12.
Proof. lia. Qed.

Ltac each_month Hm :=
  destruct (month_cases _ Hm)
    as [->|[->|[->|[->|[->|[->|[->|[->|[->|[->|[->| ->]]]]]]]]]]].

Ltac month_arith :=
  cbn [Z.eqb Z.leb Z.compare Pos.eqb Pos.compare Pos.compare_cont orb] in *.

Lemma march_day_bound (y m d : Z) :
  Iso8601.valid_date y m d ->
  0 <= Iso8601.march_day m d
    <= 364 + (if m <=? 2 then Iso8601.leap_day y else 0).
Proof.
  intros [Hm Hd].
  unfold days_in_month, Iso8601.leap_day, Iso8601.march_day in *.
  each_month Hm; month_arith;
    try (destruct (is_leap y)); Z.to_euclidean_division_equations; lia.
Qed.

(** Within January and February, or within March to December, a later
    month or day is a later day of the year that starts in March. *)
Lemma march_day_mono (y m d m' d' : Z) :
  Iso8601.valid_date y m d -> Iso8601.valid_date y m' d' ->
  (m <=? 2) = (m' <=? 2) ->
  m < m' \/ (m = m' /\ d < d') ->
  Iso8601.march_day m d < Iso8601.march_day m' d'.
Proof.
  intros [Hm Hd] [Hm' Hd'] Hside Hlt.
  unfold days_in_month, Iso8601.march_day in *.
  each_month Hm; each_month Hm'; month_arith;
    try discriminate; try lia;
    try (destruct (is_leap y)); Z.to_euclidean_division_equations; lia.
Qed.

(** A later date is a greater number of days. *)
Lemma days_from_civil_mono (y m d y' m' d' : Z) :
  Iso8601.valid_date y m d -> Iso8601.valid_date y' m' d' ->
  y < y' \/ (y = y' /\ (m < m' \/ (m = m' /\ d < d'))) ->
  Iso8601.days_from_civil y m d < Iso8601.days_from_civil y' m' d'.
Proof.
  intros Hv Hv' Hlt. rewrite !days_from_civil_split.
  pose proof (march_day_bound _ _ _ Hv) as Hb.
  pose proof (march_day_bound _ _ _ Hv') as Hb'.
  destruct Hv as [Hm Hd], Hv' as [Hm' Hd'].
  unfold Iso8601.march_year.
  destruct (Z.leb_spec m 2) as [Hjf | Hmd], (Z.leb_spec m' 2) as [Hjf' | Hmd'].
  - (* both in January or February *)
    destruct Hlt as [Hy | [-> Hlex]].
    + pose proof (year_days_mono y (y' - 1 - y) ltac:(lia)) as Hmono.
      replace (y + (y' - 1 - y)) with (y' - 1) in Hmono by lia.
      pose proof (year_days_step (y - 1)) as Hstep.
      replace (y - 1 + 1) with y in Hstep by lia.
      pose proof (leap_day_range y). lia.
    + assert (Iso8601.march_day m d < Iso8601.march_day m' d'); [|lia].
      apply (march_day_mono y'); [split; auto | split; auto | | exact Hlex].
      destruct (Z.leb_spec m 2), (Z.leb_spec m' 2); try reflexivity; lia.
  - (* January or February against March to December *)
    destruct Hlt as [Hy | [-> Hlex]].
    + pose proof (year_days_mono y (y' - y) ltac:(lia)) as Hmono.
      replace (y + (y' - y)) with y' in Hmono by lia.
      pose proof (year_days_step (y - 1)) as Hstep.
      replace (y - 1 + 1) with y in Hstep by lia.
      pose proof (leap_day_range y). lia.
    + pose proof (year_days_step (y' - 1)) as Hstep.
      replace (y' - 1 + 1) with y' in Hstep by lia. lia.
  - (* March to December against January or February: a later year *)
    destruct Hlt as [Hy | [-> Hlex]]; [|lia].
    pose proof (year_days_mono y (y' - 1 - y) ltac:(lia)) as Hmono.
    replace (y + (y' - 1 - y)) with (y' - 1) in Hmono by lia.
    assert (Iso8601.march_day m d < Iso8601.march_day m' d'); [|lia].
    clear - Hm Hd Hm' Hd' Hjf' Hmd.
    unfold days_in_month, Iso8601.march_day in *.
    each_month Hm; each_month Hm'; month_arith; try lia;
      try (destruct (is_leap y)); try (destruct (is_leap y'));
      Z.to_euclidean_division_equations; lia.
  - (* both in March to December *)
    destruct Hlt as [Hy | [-> Hlex]].
    + pose proof (year_days_mono y (y' - y) ltac:(lia)) as Hmono.
      replace (y + (y' - y)) with y' in Hmono by lia. lia.
    + assert (Iso8601.march_day m d < Iso8601.march_day m' d'); [|lia].
      apply (march_day_mono y'); [split; auto | split; auto | | exact Hlex].
      destruct (Z.leb_spec m 2), (Z.leb_spec m' 2); try reflexivity; lia.
Qed.

Lemma valid_civil_inv (c : civil) :
  valid_civil c = true ->
  Iso8601.valid_date (Z.of_N (year c)) (Z.of_N (month c)) (Z.of_N (day c))
  /\ (hour c <= 23)%N /\ (minute c <= 59)%N /\ (second c <= 59)%N
  /\ (microsecond c <= 999999)%N.
Proof.
  unfold valid_civil, Iso8601.valid_date.
  rewrite !andb_true_iff, !N.leb_le, Z.leb_le. lia.
Qed.

(** Greater fields, in the order the script compares them, are a later
    time on the same clock. *)
Lemma microseconds_mono (a b : datetime) :
  valid_civil (base a) = true -> valid_civil (base b) = true ->
  datetime_gt a b = true ->
  Iso8601.microseconds (base b) < Iso8601.microseconds (base a).
Proof.
  intros (Hda & Hha & Hma & Hsa & Hua)%valid_civil_inv
         (Hdb & Hhb & Hmb & Hsb & Hub)%valid_civil_inv.
  unfold datetime_gt, data, Iso8601.microseconds.
  destruct a as [[ya ma da ha mia sa ua] tza],
           b as [[yb mb db hb mib sb ub] tzb].
  cbn [base year month day hour minute second microsecond] in *.
  rewrite !lex_gt_cons. intros Hgt.
  assert (Hlex : lex_gt [] [] = true -> False) by (simpl; discriminate).
  assert (Hdays :
    Iso8601.days_from_civil (Z.of_N yb) (Z.of_N mb) (Z.of_N db)
    < Iso8601.days_from_civil (Z.of_N ya) (Z.of_N ma) (Z.of_N da)
    \/ (Iso8601.days_from_civil (Z.of_N yb) (Z.of_N mb) (Z.of_N db)
        = Iso8601.days_from_civil (Z.of_N ya) (Z.of_N ma) (Z.of_N da)
        /\ ((hb < ha)%N \/ (ha = hb /\ ((mib < mia)%N \/ (mia = mib /\
            ((sb < sa)%N \/ (sa = sb /\ (ub < ua)%N)))))))).
  { destruct Hgt as [Hy | [-> [Hm | [-> [Hd | [-> Hrest]]]]]].
    - left. apply days_from_civil_mono; auto. lia.
    - left. apply days_from_civil_mono; auto. lia.
    - left. apply days_from_civil_mono; auto. lia.
    - right. split; [reflexivity|].
      destruct Hrest as [? | [-> [? | [-> [? | [-> [? | [_ ?]]]]]]]]; tauto. }
  destruct Hdays as [Hlt | [-> Htime]]; lia.
Qed.

Lemma civil_data_inj (a b : datetime) : data a = data b -> base a = base b.
Proof.
  unfold data. destruct (base a), (base b). simpl.
  intros [= -> -> -> -> -> -> ->]. reflexivity.
Qed.

(** With the same offset, fields that are not greater are an instant
    that is not later. *)
Lemma instant_le (a b : datetime) :
  valid_civil (base a) = true -> valid_civil (base b) = true ->
  tzinfo a = tzinfo b ->
  datetime_gt a b = false ->
  Iso8601.instant a <= Iso8601.instant b.
Proof.
  intros Ha Hb Htz Hle. unfold Iso8601.instant. rewrite Htz.
  destruct (datetime_gt b a) eqn:Hgt.
  - pose proof (microseconds_mono _ _ Hb Ha Hgt). lia.
  - rewrite (civil_data_inj a b); [lia|]. apply lex_gt_total; assumption.
Qed.

Lemma Forall2_elem_l {A B} (P : A -> B -> Prop) (l : list A) (k : list B) (x : A) :
  Forall2 P l k -> x ∈ l -> exists y, y ∈ k /\ P x y.
Proof.
  induction 1 as [|a b l k Hab _ IH]; intros Hin.
  - inversion Hin.
  - apply elem_of_cons in Hin as [-> | Hin].
    + exists b. split; [left | exact Hab].
    + destruct (IH Hin) as (y & Hy & Hxy). exists y. split; [right|]; auto.
Qed.

Lemma Forall2_elem_r {A B} (P : A -> B -> Prop) (l : list A) (k : list B) (y : B) :
  Forall2 P l k -> y ∈ k -> exists x, x ∈ l /\ P x y.
Proof.
  induction 1 as [|a b l k Hab _ IH]; intros Hin.
  - inversion Hin.
  - apply elem_of_cons in Hin as [-> | Hin].
    + exists a. split; [left | exact Hab].
    + destruct (IH Hin) as (x & Hx & Hxy). exists x. split; [right|]; auto.
Qed.

Section Same_offset.
Context `{Python}.

Lemma reads_as_key (s : json) (dt : datetime) :
  reads_as s dt -> created_at_key s = Ok (replace_tzinfo dt utc).
Proof.
  intros (text & Hget & Hread). unfold created_at_key.
  rewrite Hget. simpl. rewrite Hread. reflexivity.
Qed.

(** When [fromisoformat] reads every timestamp of the list with one and
    the same offset (or all without one), the submission
    [find_accepted_submission] returns has the latest instant of the
    list. *)
Theorem find_accepted_submission_latest_instant (subs : list json)
    (dts : list datetime) (tz : option Z) (latest : json) :
  Forall2 reads_as subs dts ->
  Forall (fun dt => valid_civil (base dt) = true /\ tzinfo dt = tz) dts ->
  find_accepted_submission (JList subs) = Ok latest ->
  exists dt,
    reads_as latest dt /\ dt ∈ dts
    /\ Forall (fun dt' => Iso8601.instant dt' <= Iso8601.instant dt) dts.
Proof.
  intros Hreads Hvalid Hfind. rewrite Forall_forall in Hvalid.
  rewrite find_accepted_submission_list in Hfind.
  assert (Hne : subs <> []) by (intros ->; discriminate Hfind).
  assert (Hall : Forall readable subs).
  { clear -Hreads. induction Hreads as [|s dt subs dts Hs _ IH];
      constructor; [|exact IH].
    eexists. apply reads_as_key. exact Hs. }
  destruct (py_max_first_max created_at_key subs Hne Hall)
    as (b & s & a & ks & Heq & Hs & Hb & Ha & Hmax).
  assert (s = latest) as -> by congruence.
  assert (Hin : latest ∈ subs).
  { rewrite Heq. apply elem_of_app. right. left. }
  destruct (Forall2_elem_l _ _ _ _ Hreads Hin) as (dt & Hdt & Hlatest).
  exists dt. split; [exact Hlatest|]. split; [exact Hdt|].
  pose proof (reads_as_key _ _ Hlatest) as Hkey.
  assert (ks = replace_tzinfo dt utc) as -> by congruence.
  apply Forall_forall. intros dt' Hdt'.
  destruct (Forall2_elem_r _ _ _ _ Hreads Hdt') as (x & Hx & Hxdt).
  pose proof (reads_as_key _ _ Hxdt) as Hxkey.
  destruct (Hvalid _ Hdt) as [Hv Htz], (Hvalid _ Hdt') as [Hv' Htz'].
  apply instant_le; [exact Hv' | exact Hv | congruence |].
  change (datetime_gt (replace_tzinfo dt' utc) (replace_tzinfo dt utc) = false).
  rewrite Heq in Hx. apply elem_of_app in Hx as [Hx | Hx].
  - rewrite Forall_forall in Hb. destruct (Hb _ Hx) as (k' & Hk' & Hgt).
    assert (k' = replace_tzinfo dt' utc) as -> by congruence.
    apply datetime_gt_asym. exact Hgt.
  - apply elem_of_cons in Hx as [-> | Hx].
    + assert (replace_tzinfo dt' utc = replace_tzinfo dt utc) as -> by congruence.
      apply lex_gt_irrefl.
    + rewrite Forall_forall in Ha. destruct (Ha _ Hx) as (k' & Hk' & Hle).
      assert (k' = replace_tzinfo dt' utc) as -> by congruence. exact Hle.
Qed.

End Same_offset.

Lemma find_accepted_submission_latest_instant_witness :
  exists dt,
    @reads_as Example.python (Example.submission 99 "2024-03-02T09:00:00Z") dt
    /\ dt ∈ Example.timestamps_read_of_jane
    /\ Forall (fun dt' => Iso8601.instant dt' <= Iso8601.instant dt)
         Example.timestamps_read_of_jane.
Proof.
  apply (@find_accepted_submission_latest_instant Example.python
           Example.submissions_of_jane Example.timestamps_read_of_jane None).
  - repeat constructor; eexists; (split; [reflexivity | vm_compute; reflexivity]).
  - repeat constructor.
  - vm_compute. reflexivity.
Defined.

(* ================================================================== *)
(** * Further properties of the script *)
(* ================================================================== *)

(** ** One line for each student *)

Lemma notice_not_search_link (now : civil) :
  ~ is_search_link ("No submissions found, as of " +:+ str_civil now).
Proof. intros [query Hq]. discriminate Hq. Qed.

Lemma submission_link_not_search_link (student_id submission_id : string) :
  ~ is_search_link (SUBMISSION_URL_TEMPLATE student_id submission_id).
Proof.
  intros [query Hq]. unfold SUBMISSION_URL_TEMPLATE, MISSING_EMAIL_URL_TEMPLATE in Hq.
  vm_compute in Hq. discriminate Hq.
Qed.

Lemma M_bind_ok_inv {A B} (m : M A) (f : A -> M B) (t : list event) (b : B) :
  m ≫= f = (t, Ok b) ->
  exists t1 a t2, m = (t1, Ok a) /\ f a = (t2, Ok b) /\ t = t1 ++ t2.
Proof.
  destruct m as [t1 [a|e]].
  - rewrite M_bind_ok. intros [= <- Hout].
    exists t1, a, (events (f a)). repeat split.
    rewrite <- Hout. apply M_eta.
  - rewrite M_bind_raise. discriminate.
Qed.

Lemma for_each_cons_inv {A} (body : A -> M unit) (x : A) (l : list A)
    (t : list event) :
  for_each body (x :: l) = (t, Ok tt) ->
  exists t1 t2,
    body x = (t1, Ok tt) /\ for_each body l = (t2, Ok tt) /\ t = t1 ++ t2.
Proof.
  simpl. intros Hrun. apply M_bind_ok_inv in Hrun as (t1 & [] & t2 & Hx & Hl & ->).
  eauto.
Qed.

Section One_line.
Context `{Python}.

(** A fetch that returns has sent one request and printed nothing. *)
Lemma fetch_submissions_events (w : World) (student_id j : json) (t : list event) :
  fetch_submissions w student_id = (t, Ok j) ->
  stdout_of t = [] /\ count is_request t = 1%nat /\ count is_pause t = 0%nat.
Proof.
  intros Hfetch. unfold fetch_submissions in Hfetch.
  destruct (http_get w (SUBMISSIONS_API_URL_TEMPLATE (py_str student_id)))
    as [r|] eqn:Hget.
  - rewrite (requests_get_some _ _ _ Hget), M_bind_ok in Hfetch.
    destruct (status_code r =? 200); simpl in Hfetch;
      injection Hfetch as <- _; auto.
  - unfold requests_get in Hfetch. rewrite Hget in Hfetch. discriminate.
Qed.

(** A loop body that ends normally, taken apart. *)
Lemma main_loop_body_ok_inv (w : World) (now : civil)
    (user_dict : gmap pykey json) (student : Student) (t : list event) :
  main_loop_body w now user_dict student = (t, Ok tt) ->
  match user_dict !! KStr (email student) with
  | None =>
      t = [Stdout (MISSING_EMAIL_URL_TEMPLATE
                     (first_name student +:+ "%20" +:+ last_name student))]
  | Some student_id =>
      exists line submissions,
        outcome (fetch_submissions w student_id) = Ok submissions
        /\ t = events (fetch_submissions w student_id) ++ [Sleep; Stdout line]
        /\ (line = "No submissions found, as of " +:+ str_civil now
            \/ exists id,
                 line = SUBMISSION_URL_TEMPLATE (py_str student_id) (py_str id))
        /\ ~ is_search_link line
  end.
Proof.
  intros Hrun.
  destruct (user_dict !! KStr (email student)) as [student_id|] eqn:Hlookup.
  - rewrite (main_loop_body_matched _ _ _ _ _ Hlookup) in Hrun.
    apply M_bind_ok_inv in Hrun as (t1 & submissions & t2 & Hfetch & Hrest & ->).
    rewrite Hfetch. cbn [events outcome fst snd].
    apply M_bind_ok_inv in Hrest as (ts & [] & t3 & Hsleep & Hrest & ->).
    injection Hsleep as <-.
    destruct (truthy submissions) eqn:Htruthy; cbn [negb] in Hrest.
    + apply M_bind_ok_inv in Hrest as (t4 & latest & t5 & Hfind & Hrest & ->).
      unfold lift in Hfind. injection Hfind as <- Hfind.
      apply find_accepted_submission_elem in Hfind as [Hlatest _].
      rewrite Hlatest in Hrest.
      apply M_bind_ok_inv in Hrest as (t6 & id & t7 & Hid & Hprint & ->).
      unfold lift in Hid. injection Hid as <- Hid.
      injection Hprint as <-.
      eexists _, submissions. split; [reflexivity|].
      split; [reflexivity|]. split.
      * right. eauto.
      * apply submission_link_not_search_link.
    + injection Hrest as <-.
      eexists _, submissions. split; [reflexivity|].
      split; [reflexivity|]. split.
      * left. reflexivity.
      * apply notice_not_search_link.
  - rewrite (main_loop_body_unmatched _ _ _ _ Hlookup) in Hrun.
    injection Hrun as <-. reflexivity.
Qed.

(** X1.  The events of a loop body that ends normally.  For a student
    whose email is not a key of the mapping: one printed line, the
    search URL, and nothing else.  For a student whose email is a key:
    the events of the fetch, the pause, then one printed line, which is
    the "no submissions" notice or a submission link with the student's
    id, and never a search URL. *)
Theorem main_loop_body_events (w : World) (now : civil)
    (user_dict : gmap pykey json) (student : Student) (t : list event) :
  main_loop_body w now user_dict student = (t, Ok tt) ->
  match user_dict !! KStr (email student) with
  | None =>
      t = [Stdout (MISSING_EMAIL_URL_TEMPLATE
                     (first_name student +:+ "%20" +:+ last_name student))]
  | Some student_id =>
      exists line submissions,
        outcome (fetch_submissions w student_id) = Ok submissions
        /\ t = events (fetch_submissions w student_id) ++ [Sleep; Stdout line]
        /\ (line = "No submissions found, as of " +:+ str_civil now
            \/ exists id,
                 line = SUBMISSION_URL_TEMPLATE (py_str student_id) (py_str id))
        /\ ~ is_search_link line
  end.
Proof. apply main_loop_body_ok_inv. Qed.

Lemma stdout_of_app (t1 t2 : list event) :
  stdout_of (t1 ++ t2) = stdout_of t1 ++ stdout_of t2.
Proof. unfold stdout_of. apply omap_app. Qed.

Lemma count_app {A} (p : A -> bool) (l1 l2 : list A) :
  count p (l1 ++ l2) = (count p l1 + count p l2)%nat.
Proof. unfold count. rewrite List.filter_app, length_app. reflexivity. Qed.

(** The printed lines, the requests and the pauses of one loop body
    that ends normally. *)
Lemma main_loop_body_counts (w : World) (now : civil)
    (user_dict : gmap pykey json) (student : Student) (t : list event) :
  main_loop_body w now user_dict student = (t, Ok tt) ->
  length (stdout_of t) = 1%nat
  /\ count is_request t = (if in_directory user_dict student then 1 else 0)%nat
  /\ count is_pause t = (if in_directory user_dict student then 1 else 0)%nat.
Proof.
  intros Hrun. apply main_loop_body_ok_inv in Hrun. unfold in_directory.
  destruct (user_dict !! KStr (email student)) as [student_id|].
  - destruct Hrun as (line & submissions & Hout & -> & _).
    destruct (fetch_submissions w student_id) as [tf r] eqn:Hfetch.
    simpl in Hout. subst r.
    destruct (fetch_submissions_events _ _ _ _ Hfetch) as (Hs & Hr & Hp).
    cbn [events fst].
    rewrite stdout_of_app, !count_app, Hs, Hr, Hp. auto.
  - subst t. auto.
Qed.

(** The printed lines, the requests and the pauses of a loop that ends
    normally. *)
Lemma loop_counts (w : World) (now : civil)
    (user_dict : gmap pykey json) (students : list Student) (t : list event) :
  for_each (main_loop_body w now user_dict) students = (t, Ok tt) ->
  length (stdout_of t) = length students
  /\ count is_request t = count (in_directory user_dict) students
  /\ count is_pause t = count (in_directory user_dict) students.
Proof.
  revert t. induction students as [|student students IH]; intros t Hrun.
  - injection Hrun as <-. auto.
  - apply for_each_cons_inv in Hrun as (t1 & t2 & Hbody & Hrest & ->).
    destruct (main_loop_body_counts _ _ _ _ _ Hbody) as (Hs & Hr & Hp).
    destruct (IH _ Hrest) as (Hs' & Hr' & Hp').
    rewrite stdout_of_app, length_app, !count_app, Hs, Hr, Hp, Hs', Hr', Hp'.
    unfold count. simpl.
    destruct (in_directory user_dict student); auto.
Qed.

(** X2.  When the loop over the students ends normally, it has printed
    exactly one line for each student of the roster, and has sent one
    request and made one pause for each student whose email is a key of
    the mapping. *)
Theorem one_line_per_student (w : World) (now : civil)
    (user_dict : gmap pykey json) (students : list Student) (t : list event) :
  for_each (main_loop_body w now user_dict) students = (t, Ok tt) ->
  length (stdout_of t) = length students
  /\ count is_request t = count (in_directory user_dict) students
  /\ count is_pause t = count (in_directory user_dict) students.
Proof. apply loop_counts. Qed.

(** X3.  When every student's email is a key of the mapping and the
    loop ends normally, no printed line is a missing-email search
    URL. *)
Theorem matched_students_no_search_link (w : World) (now : civil)
    (user_dict : gmap pykey json) (students : list Student) (t : list event) :
  Forall (fun s => in_directory user_dict s = true) students ->
  for_each (main_loop_body w now user_dict) students = (t, Ok tt) ->
  Forall (fun line => ~ is_search_link line) (stdout_of t).
Proof.
  intros Hall. revert t. induction Hall as [|student students Hin _ IH];
    intros t Hrun.
  - injection Hrun as <-. constructor.
  - apply for_each_cons_inv in Hrun as (t1 & t2 & Hbody & Hrest & ->).
    rewrite stdout_of_app. apply Forall_app. split; [|apply IH; exact Hrest].
    apply main_loop_body_ok_inv in Hbody. unfold in_directory in Hin.
    destruct (user_dict !! KStr (email student)) as [student_id|];
      [|discriminate].
    destruct Hbody as (line & submissions & Hout & -> & _ & Hline).
    destruct (fetch_submissions w student_id) as [tf r] eqn:Hfetch.
    simpl in Hout. subst r.
    destruct (fetch_submissions_events _ _ _ _ Hfetch) as (Hs & _).
    cbn [events fst]. rewrite stdout_of_app, Hs. simpl.
    constructor; [exact Hline | constructor].
Qed.

End One_line.

(** ** A failure while one student is handled *)

Section Max_raise.
Variable key : json -> res datetime.

(** Over items whose keys can be computed the loop goes on with some
    candidate. *)
Lemma max_loop_app_readable (good rest : list json) (m : json) (v : datetime) :
  Forall (fun x => exists k, key x = Ok k) good ->
  exists m' v', max_loop key (good ++ rest) m v = max_loop key rest m' v'.
Proof.
  intros Hgood. revert m v.
  induction Hgood as [|x good [k Hk] _ IH]; intros m v.
  - exists m, v. reflexivity.
  - simpl. rewrite Hk. simpl. destruct (datetime_gt k v); apply IH.
Qed.

(** [max] raises what the key raises on the first item it fails on,
    whatever comes after that item. *)
Lemma py_max_raise_first (good rest : list json) (bad : json) (e : exn) :
  Forall (fun x => exists k, key x = Ok k) good ->
  key bad = Raise e ->
  py_max key (good ++ bad :: rest) = Raise e.
Proof.
  intros Hgood Hbad. destruct good as [|m good].
  - simpl. rewrite Hbad. reflexivity.
  - apply Forall_cons in Hgood as [[v Hv] Hgood]. simpl. rewrite Hv. simpl.
    destruct (max_loop_app_readable good (bad :: rest) m v Hgood)
      as (m' & v' & ->).
    simpl. rewrite Hbad. reflexivity.
Qed.

End Max_raise.

Lemma for_each_app_raise {A} (body : A -> M unit) (before after : list A)
    (x : A) (t1 t : list event) (e : exn) :
  for_each body before = (t1, Ok tt) ->
  body x = (t, Raise e) ->
  for_each body (before ++ x :: after) = (t1 ++ t, Raise e).
Proof.
  revert t1. induction before as [|y before IH]; intros t1 Hbefore Hx.
  - injection Hbefore as <-. simpl. rewrite Hx. reflexivity.
  - apply for_each_cons_inv in Hbefore as (ty & tb & Hy & Hb & ->).
    simpl. rewrite Hy, M_bind_ok. rewrite (IH _ Hb Hx).
    simpl. rewrite <- app_assoc. reflexivity.
Qed.

Section Failures.
Context `{Python}.

(** X4.  If the timestamp of one submission of the list cannot be read
    (no [created_at], not a string, or a text [fromisoformat] rejects),
    while those before it can, [find_accepted_submission] raises that
    item's exception: a later submission is not selected instead. *)
Theorem find_accepted_submission_unreadable (good rest : list json)
    (bad : json) (e : exn) :
  Forall readable good ->
  created_at_key bad = Raise e ->
  find_accepted_submission (JList (good ++ bad :: rest)) = Raise e.
Proof.
  intros Hgood Hbad. rewrite find_accepted_submission_list.
  apply py_max_raise_first; assumption.
Qed.

(** The loop body when the selection, or the lookup of the id of the
    selected submission, raises: the request and the pause are done,
    nothing is printed. *)
Lemma main_loop_body_raise (w : World) (now : civil)
    (user_dict : gmap pykey json) (student : Student)
    (student_id submissions : json) (e : exn) :
  user_dict !! KStr (email student) = Some student_id ->
  outcome (fetch_submissions w student_id) = Ok submissions ->
  truthy submissions = true ->
  find_accepted_submission submissions = Raise e
  \/ (exists latest,
        find_accepted_submission submissions = Ok latest
        /\ getitem latest "id" = Raise e) ->
  main_loop_body w now user_dict student
  = (events (fetch_submissions w student_id) ++ [Sleep], Raise e).
Proof.
  intros Hlookup Hout Htruthy Hfail.
  rewrite (main_loop_body_matched _ _ _ _ _ Hlookup).
  destruct (fetch_submissions w student_id) as [t r]. simpl in Hout. subst r.
  rewrite M_bind_ok, Htruthy.
  destruct Hfail as [Hfind | (latest & Hfind & Hid)]; rewrite Hfind.
  - reflexivity.
  - destruct (find_accepted_submission_elem _ _ Hfind) as [Hlatest _].
    simpl. rewrite Hlatest, Hid. reflexivity.
Qed.

(** X5.  Nothing in the loop catches an exception.  When the selection
    raises for a student, or the selected submission has no [id], the
    loop body ends in that exception after the request and the pause,
    without a line for the student; the lines of the students before
    stay printed and the students after are not handled. *)
Theorem student_failure_stops_loop (w : World) (now : civil)
    (user_dict : gmap pykey json) (before after : list Student)
    (student : Student) (student_id submissions : json) (e : exn)
    (t1 : list event) :
  user_dict !! KStr (email student) = Some student_id ->
  outcome (fetch_submissions w student_id) = Ok submissions ->
  truthy submissions = true ->
  find_accepted_submission submissions = Raise e
  \/ (exists latest,
        find_accepted_submission submissions = Ok latest
        /\ getitem latest "id" = Raise e) ->
  for_each (main_loop_body w now user_dict) before = (t1, Ok tt) ->
  for_each (main_loop_body w now user_dict) (before ++ student :: after)
  = (t1 ++ events (fetch_submissions w student_id) ++ [Sleep], Raise e).
Proof.
  intros Hlookup Hout Htruthy Hfail Hbefore.
  apply for_each_app_raise; [exact Hbefore|].
  eapply main_loop_body_raise; eauto.
Qed.

End Failures.

(** ** Answers of the server with status 200, and no answer *)

Section Answers.
Context `{Python}.

(** [main] once the roster has been read and the directory fetched. *)
Lemma main_after_fetch (w : World) (t t' : list event)
    (student : Student) (students : list Student) (r : res json) :
  read_student_data w STUDENTS_FILE = (t, Ok (student :: students)) ->
  fetch_users w = (t', r) ->
  main w =
    match r with
    | Raise e => (t ++ t', Raise e)
    | Ok users =>
        if truthy users then
          match user_dict_of users with
          | Raise e => (t ++ t', Raise e)
          | Ok user_dict =>
              let loop :=
                for_each (main_loop_body w (clock w) user_dict)
                         (student :: students) in
              (t ++ t' ++ events loop, outcome loop)
          end
        else (t ++ t' ++ [Stdout NO_USERS_MESSAGE], Ok tt)
    end.
Proof.
  intros Hread Hfetch. unfold main. rewrite Hread, M_bind_ok, Hfetch.
  destruct r as [users|e].
  - rewrite M_bind_ok. destruct (truthy users); cbn [negb].
    + destruct (user_dict_of users) as [user_dict|e]; unfold lift.
      * rewrite M_bind_ok. cbn [events outcome fst snd].
        rewrite app_nil_l. reflexivity.
      * rewrite M_bind_raise. cbn [events outcome fst snd].
        rewrite app_nil_r. reflexivity.
    + reflexivity.
  - rewrite M_bind_raise. reflexivity.
Qed.

(** What a fetch does with the answer to its request. *)
Lemma fetch_users_answer (w : World) :
  fetch_users w =
    match http_get w USERS_API_URL with
    | None => ([HttpGet USERS_API_URL], Raise ConnectionError)
    | Some r =>
        if status_code r =? 200 then
          ([HttpGet USERS_API_URL],
           match body r with
           | None => Raise JSONDecodeError
           | Some j => get_default j "users" (JList [])
           end)
        else
          ([HttpGet USERS_API_URL;
            Stderr ("Failed to fetch users. Status code: "
                    +:+ pretty (status_code r))],
           Ok (JList []))
    end.
Proof.
  destruct (http_get w USERS_API_URL) as [r|] eqn:Hget.
  - unfold fetch_users. rewrite (requests_get_some _ _ _ Hget), M_bind_ok.
    destruct (status_code r =? 200); [|reflexivity].
    unfold response_json. destruct (body r); reflexivity.
  - unfold fetch_users, requests_get. rewrite Hget. reflexivity.
Qed.

Lemma fetch_submissions_answer (w : World) (student_id : json) :
  let url := SUBMISSIONS_API_URL_TEMPLATE (py_str student_id) in
  fetch_submissions w student_id =
    match http_get w url with
    | None => ([HttpGet url], Raise ConnectionError)
    | Some r =>
        if status_code r =? 200 then
          ([HttpGet url],
           match body r with
           | None => Raise JSONDecodeError
           | Some j => get_default j "submissions" (JList [])
           end)
        else
          ([HttpGet url;
            Stderr ("Failed to fetch submissions for student ID "
                    +:+ py_str student_id +:+ ". Status code: "
                    +:+ pretty (status_code r))],
           Ok (JList []))
    end.
Proof.
  cbv zeta.
  destruct (http_get w (SUBMISSIONS_API_URL_TEMPLATE (py_str student_id)))
    as [r|] eqn:Hget.
  - unfold fetch_submissions.
    rewrite (requests_get_some _ _ _ Hget), M_bind_ok.
    destruct (status_code r =? 200); [|reflexivity].
    unfold response_json. destruct (body r); reflexivity.
  - unfold fetch_submissions, requests_get. rewrite Hget. reflexivity.
Qed.

(** X6.  A directory answer with status 200 whose JSON object has no
    [users] entry, or a falsy one (an empty list, [null]), is neither an
    error nor reported on the error stream: [fetch_users] returns the
    empty list or that value, and [main], the roster read, prints "No
    users fetched from API. Exiting." and ends normally after the one
    request. *)
Theorem directory_without_users (w : World) (r : Response)
    (items : list (string * json)) (t : list event)
    (student : Student) (students : list Student) :
  http_get w USERS_API_URL = Some r ->
  status_code r = 200 ->
  body r = Some (JDict items) ->
  truthy (default (JList []) (dict_lookup "users" items)) = false ->
  read_student_data w STUDENTS_FILE = (t, Ok (student :: students)) ->
  fetch_users w
  = ([HttpGet USERS_API_URL],
     Ok (default (JList []) (dict_lookup "users" items)))
  /\ main w
     = (t ++ [HttpGet USERS_API_URL; Stdout NO_USERS_MESSAGE], Ok tt).
Proof.
  intros Hget Hcode Hbody Hfalsy Hread.
  assert (Hfetch : fetch_users w
                   = ([HttpGet USERS_API_URL],
                      Ok (default (JList []) (dict_lookup "users" items)))).
  { rewrite fetch_users_answer, Hget, Hcode, Hbody. reflexivity. }
  split; [exact Hfetch|].
  rewrite (main_after_fetch _ _ _ _ _ _ Hread Hfetch), Hfalsy. reflexivity.
Qed.

(** X7.  Only the status of an answer is checked.  When there is no
    answer, when an answer with status 200 is not JSON, or is JSON but
    not an object, [fetch_users] ends in [ConnectionError],
    [JSONDecodeError] or [AttributeError] after its request, and so
    does [main], the roster read: nothing is printed after the request,
    unlike for a status other than 200. *)
Theorem directory_answer_not_an_object (w : World) (t : list event)
    (student : Student) (students : list Student) (e : exn) :
  read_student_data w STUDENTS_FILE = (t, Ok (student :: students)) ->
  (http_get w USERS_API_URL = None /\ e = ConnectionError)
  \/ (exists r,
        http_get w USERS_API_URL = Some r /\ status_code r = 200
        /\ ((body r = None /\ e = JSONDecodeError)
            \/ (exists j, body r = Some j
                          /\ (forall items, j <> JDict items)
                          /\ e = AttributeError))) ->
  fetch_users w = ([HttpGet USERS_API_URL], Raise e)
  /\ main w = (t ++ [HttpGet USERS_API_URL], Raise e).
Proof.
  intros Hread Hanswer.
  assert (Hfetch : fetch_users w = ([HttpGet USERS_API_URL], Raise e)).
  { rewrite fetch_users_answer.
    destruct Hanswer as [[-> ->] | (r & -> & -> & Hbody)]; [reflexivity|].
    simpl. destruct Hbody as [[-> ->] | (j & -> & Hj & ->)]; [reflexivity|].
    destruct j; try reflexivity. exfalso. eapply Hj. reflexivity. }
  split; [exact Hfetch|].
  rewrite (main_after_fetch _ _ _ _ _ _ Hread Hfetch). reflexivity.
Qed.

(** X8.  The same for the submissions of one student: without an
    answer, or with an answer of status 200 that is not a JSON object,
    the loop body ends in the exception right after the request (no
    pause, no line), and the loop stops there: the students after this
    one are not handled. *)
Theorem submissions_answer_not_an_object (w : World) (now : civil)
    (user_dict : gmap pykey json) (before after : list Student)
    (student : Student) (student_id : json) (e : exn) (t1 : list event) :
  let url := SUBMISSIONS_API_URL_TEMPLATE (py_str student_id) in
  user_dict !! KStr (email student) = Some student_id ->
  (http_get w url = None /\ e = ConnectionError)
  \/ (exists r,
        http_get w url = Some r /\ status_code r = 200
        /\ ((body r = None /\ e = JSONDecodeError)
            \/ (exists j, body r = Some j
                          /\ (forall items, j <> JDict items)
                          /\ e = AttributeError))) ->
  for_each (main_loop_body w now user_dict) before = (t1, Ok tt) ->
  main_loop_body w now user_dict student = ([HttpGet url], Raise e)
  /\ for_each (main_loop_body w now user_dict) (before ++ student :: after)
     = (t1 ++ [HttpGet url], Raise e).
Proof.
  cbv zeta. intros Hlookup Hanswer Hbefore.
  assert (Hfetch : fetch_submissions w student_id
                   = ([HttpGet (SUBMISSIONS_API_URL_TEMPLATE (py_str student_id))],
                      Raise e)).
  { pose proof (fetch_submissions_answer w student_id) as Hans.
    cbv zeta in Hans. rewrite Hans.
    destruct Hanswer as [[-> ->] | (r & -> & -> & Hbody)]; [reflexivity|].
    simpl. destruct Hbody as [[-> ->] | (j & -> & Hj & ->)]; [reflexivity|].
    destruct j; try reflexivity. exfalso. eapply Hj. reflexivity. }
  assert (Hbody : main_loop_body w now user_dict student
                  = ([HttpGet (SUBMISSIONS_API_URL_TEMPLATE (py_str student_id))],
                     Raise e)).
  { rewrite (main_loop_body_matched _ _ _ _ _ Hlookup), Hfetch.
    rewrite M_bind_raise. reflexivity. }
  split; [exact Hbody|].
  apply for_each_app_raise; assumption.
Qed.

End Answers.

(** ** The mapping from email to id *)

Lemma user_dict_from_cons (user : json) (users : list json)
    (acc : gmap pykey json) :
  user_dict_from (user :: users) acc
  = (kv ← entry_of user; user_dict_from users (<[kv.1 := kv.2]> acc)).
Proof.
  simpl. unfold entry_of.
  destruct (getitem user "email") as [k|]; [|reflexivity]. simpl.
  destruct (getitem user "id") as [v|]; [|reflexivity]. simpl.
  destruct (py_key k) as [hk|]; reflexivity.
Qed.

Lemma user_dict_from_app (l1 l2 : list json) (acc : gmap pykey json) :
  user_dict_from (l1 ++ l2) acc
  = (acc' ← user_dict_from l1 acc; user_dict_from l2 acc').
Proof.
  revert acc. induction l1 as [|user l1 IH]; intros acc; [reflexivity|].
  rewrite <- app_comm_cons, !user_dict_from_cons.
  destruct (entry_of user) as [kv|]; [|reflexivity]. simpl. apply IH.
Qed.

Lemma entry_of_email (user : json) (hk : pykey) (v : json) (address : string) :
  entry_of user = Ok (hk, v) ->
  hk = KStr address <-> getitem user "email" = Ok (JStr address).
Proof.
  unfold entry_of. intros Hentry.
  apply res_bind_inv in Hentry as (k & Hk & Hentry).
  apply res_bind_inv in Hentry as (v' & Hv & Hentry).
  apply res_bind_inv in Hentry as (hk' & Hhk & Hentry).
  injection Hentry as -> ->. rewrite Hk. split.
  - intros ->. apply py_key_str in Hhk as ->. reflexivity.
  - intros [= ->]. simpl in Hhk. congruence.
Qed.

(** Users with another email leave the entry of [address] as it is. *)
Lemma user_dict_from_other (users : list json) (acc user_dict : gmap pykey json)
    (address : string) :
  Forall (fun u => getitem u "email" <> Ok (JStr address)) users ->
  user_dict_from users acc = Ok user_dict ->
  user_dict !! KStr address = acc !! KStr address.
Proof.
  intros Hother. revert acc.
  induction Hother as [|user users Huser _ IH]; intros acc.
  - intros [= <-]. reflexivity.
  - rewrite user_dict_from_cons. intros Hfrom.
    apply res_bind_inv in Hfrom as ([hk v] & Hentry & Hfrom).
    rewrite (IH _ Hfrom). simpl. apply lookup_insert_ne.
    intros ->. apply Huser. eapply entry_of_email; eauto.
Qed.

(** X9.  The mapping built from the directory has, under an email, the
    id of the last user of the directory with exactly that email, and
    no entry under a string that is the email of no user. *)
Theorem user_dict_last_entry_wins (users : list json)
    (user_dict : gmap pykey json) (address : string) :
  user_dict_of (JList users) = Ok user_dict ->
  (forall before user after id,
     users = before ++ user :: after ->
     getitem user "email" = Ok (JStr address) ->
     getitem user "id" = Ok id ->
     Forall (fun u => getitem u "email" <> Ok (JStr address)) after ->
     user_dict !! KStr address = Some id)
  /\ (Forall (fun u => getitem u "email" <> Ok (JStr address)) users ->
      user_dict !! KStr address = None).
Proof.
  intros Hdict. change (user_dict_from users ∅ = Ok user_dict) in Hdict.
  split.
  - intros before user after id -> Hemail Hid Hafter.
    rewrite user_dict_from_app in Hdict.
    apply res_bind_inv in Hdict as (acc & _ & Hdict).
    rewrite user_dict_from_cons in Hdict.
    apply res_bind_inv in Hdict as ([hk v] & Hentry & Hdict).
    rewrite (user_dict_from_other _ _ _ _ Hafter Hdict). simpl.
    assert (hk = KStr address) as -> by (eapply entry_of_email; eauto).
    rewrite lookup_insert_eq. f_equal.
    unfold entry_of in Hentry. rewrite Hemail, Hid in Hentry.
    simpl in Hentry. congruence.
  - intros Hnone. rewrite (user_dict_from_other _ _ _ _ Hnone Hdict).
    apply lookup_empty.
Qed.

Lemma user_dict_from_raise (good rest : list json) (bad : json) (e : exn)
    (acc : gmap pykey json) :
  Forall (fun u => exists kv, entry_of u = Ok kv) good ->
  entry_of bad = Raise e ->
  user_dict_from (good ++ bad :: rest) acc = Raise e.
Proof.
  intros Hgood Hbad. revert acc.
  induction Hgood as [|user good [kv Hkv] _ IH]; intros acc.
  - simpl app. rewrite user_dict_from_cons, Hbad. reflexivity.
  - rewrite <- app_comm_cons, user_dict_from_cons, Hkv. simpl. apply IH.
Qed.

Section Directory_entry.
Context `{Python}.

(** X10.  One entry of the directory without an [email], without an
    [id], or with an unhashable email makes the comprehension raise
    ([KeyError] or [TypeError]), whatever the other entries are; [main]
    then ends in that exception right after the directory request,
    before any student is handled. *)
Theorem directory_entry_failure (w : World) (t t' : list event)
    (student : Student) (students : list Student)
    (good rest : list json) (bad : json) (e : exn) :
  Forall (fun u => exists kv, entry_of u = Ok kv) good ->
  entry_of bad = Raise e ->
  read_student_data w STUDENTS_FILE = (t, Ok (student :: students)) ->
  fetch_users w = (t', Ok (JList (good ++ bad :: rest))) ->
  user_dict_of (JList (good ++ bad :: rest)) = Raise e
  /\ (e = KeyError \/ e = TypeError)
  /\ main w = (t ++ t', Raise e).
Proof.
  intros Hgood Hbad Hread Hfetch.
  assert (Hdict : user_dict_of (JList (good ++ bad :: rest)) = Raise e).
  { apply (user_dict_from_raise good rest bad e ∅); assumption. }
  split; [exact Hdict|]. split.
  - apply user_dict_of_raises in Hdict. exact Hdict.
  - rewrite (main_after_fetch _ _ _ _ _ _ Hread Hfetch), Hdict.
    destruct good; reflexivity.
Qed.

End Directory_entry.

(** ** Timestamps and the selection *)

Lemma rstrip_with_all (p : ascii -> bool) (z : string) :
  forallb p (Text.chars z) = true -> Text.rstrip_with p z = "".
Proof.
  induction z as [|c z IH]; [reflexivity|]. simpl.
  intros [Hc Hz]%andb_prop. rewrite (IH Hz), Hc. reflexivity.
Qed.

Lemma rstrip_with_app_all (p : ascii -> bool) (s z : string) :
  forallb p (Text.chars z) = true ->
  Text.rstrip_with p (s +:+ z) = Text.rstrip_with p s.
Proof.
  intros Hz. induction s as [|c s IH].
  - rewrite string_app_nil_l. apply rstrip_with_all. exact Hz.
  - rewrite string_app_cons. simpl. rewrite IH. reflexivity.
Qed.

Lemma zs_all (n : nat) : forallb (Ascii.eqb "Z") (Text.chars (zs n)) = true.
Proof. induction n as [|n IH]; [reflexivity|]. simpl. exact IH. Qed.

Section Timestamps.
Context `{Python}.

(** X11.  [rstrip('Z')] drops every trailing Z, not one: a timestamp
    followed by any number of further letters Z is read as the
    timestamp itself, whatever [fromisoformat] accepts. *)
Theorem parse_iso_datetime_trailing_Z (s : string) (n : nat) :
  parse_iso_datetime (JStr (s +:+ zs n)) = parse_iso_datetime (JStr s).
Proof.
  unfold parse_iso_datetime, Text.rstrip_char.
  rewrite (rstrip_with_app_all _ s (zs n) (zs_all n)). reflexivity.
Qed.

Lemma distinct_keys_inj (subs : list json) (keys : list datetime) :
  Forall2 (fun s k => created_at_key s = Ok k) subs keys ->
  NoDup keys ->
  forall s s', s ∈ subs -> s' ∈ subs ->
    created_at_key s = created_at_key s' -> s = s'.
Proof.
  induction 1 as [|x k subs keys Hx Hkeys IH]; intros Hnd s s' Hs Hs' Heq.
  - apply elem_of_nil in Hs as [].
  - apply NoDup_cons in Hnd as [Hnotin Hnd].
    apply elem_of_cons in Hs as [-> | Hs];
      apply elem_of_cons in Hs' as [-> | Hs']; [reflexivity| | |auto].
    + destruct (Forall2_elem_l _ _ _ _ Hkeys Hs') as (k' & Hk' & Hs'k).
      exfalso. apply Hnotin. congruence.
    + destruct (Forall2_elem_l _ _ _ _ Hkeys Hs) as (k' & Hk' & Hsk).
      exfalso. apply Hnotin. congruence.
Qed.

(** X12.  With pairwise distinct timestamps the order in which the
    server lists the submissions does not matter: on every permutation
    of the list [find_accepted_submission] returns the same
    submission. *)
Theorem find_accepted_submission_any_order (subs subs' : list json)
    (keys : list datetime) :
  Forall2 (fun s k => created_at_key s = Ok k) subs keys ->
  NoDup keys ->
  subs' ≡ₚ subs ->
  find_accepted_submission (JList subs') = find_accepted_submission (JList subs).
Proof.
  intros Hkeys Hnd Hperm. rewrite !find_accepted_submission_list.
  destruct subs as [|x subs].
  { apply Permutation_nil_r in Hperm as ->. reflexivity. }
  assert (Hall : Forall readable (x :: subs)).
  { clear -Hkeys. induction Hkeys; constructor; [eexists; eauto | auto]. }
  assert (Hall' : Forall readable subs') by (rewrite Hperm; exact Hall).
  assert (Hne' : subs' <> []).
  { intros ->. apply Permutation_nil_l in Hperm. discriminate. }
  destruct (py_max_first_max created_at_key (x :: subs) ltac:(discriminate) Hall)
    as (b & s & a & ks & Heq & Hs & Hb & Ha & Hmax).
  destruct (py_max_first_max created_at_key subs' Hne' Hall')
    as (b' & s' & a' & ks' & Heq' & Hs' & Hb' & Ha' & Hmax').
  rewrite Hmax, Hmax'. f_equal.
  assert (Hin : s ∈ x :: subs) by (rewrite Heq, elem_of_app; right; left).
  assert (Hin' : s' ∈ x :: subs).
  { rewrite <- Hperm, Heq', elem_of_app. right. left. }
  apply (distinct_keys_inj _ _ Hkeys Hnd); [exact Hin' | exact Hin |].
  rewrite Hs, Hs'. f_equal.
  destruct (decide (ks' = ks)) as [|Hneq]; [assumption|exfalso].
  assert (Hin2 : s ∈ subs') by (rewrite Hperm; exact Hin).
  rewrite Forall_forall in Hb, Ha, Hb', Ha'.
  rewrite Heq, elem_of_app, elem_of_cons in Hin'.
  rewrite Heq', elem_of_app, elem_of_cons in Hin2.
  assert (Hle : datetime_gt ks' ks = false).
  { destruct Hin' as [Hin' | [-> | Hin']].
    - destruct (Hb _ Hin') as (k & Hk & Hgt).
      assert (k = ks') as -> by congruence.
      apply datetime_gt_asym. exact Hgt.
    - congruence.
    - destruct (Ha _ Hin') as (k & Hk & Hgt). congruence. }
  assert (Hle' : datetime_gt ks ks' = false).
  { destruct Hin2 as [Hin2 | [-> | Hin2]].
    - destruct (Hb' _ Hin2) as (k & Hk & Hgt).
      assert (k = ks) as -> by congruence.
      apply datetime_gt_asym. exact Hgt.
    - congruence.
    - destruct (Ha' _ Hin2) as (k & Hk & Hgt). congruence. }
  pose proof (created_at_key_total _ _ _ _ Hs Hs' ltac:(congruence) Hle).
  congruence.
Qed.

End Timestamps.

(** ** Roster files with blank lines, with more and with fewer columns *)

Lemma line_text_cons (f g : string) (cols : list string) :
  Table.line_text (f :: g :: cols)
  = f +:+ Roster.tab +:+ Table.line_text (g :: cols).
Proof. reflexivity. Qed.

Lemma line_text_no_newline (cols : list string) :
  forallb Roster.plain cols = true ->
  Roster.no_newline (Table.line_text cols) = true.
Proof.
  induction cols as [|f cols IH]; [reflexivity|]. simpl forallb.
  intros [Hf Hcols]%andb_true_iff. destruct cols as [|g cols].
  - apply plain_no_newline. exact Hf.
  - rewrite line_text_cons, !no_newline_app, (plain_no_newline _ Hf), (IH Hcols).
    reflexivity.
Qed.

Lemma no_newline_starts (g rest : string) :
  Roster.no_newline g = true -> g <> "" ->
  exists c s, g +:+ rest = String c s /\ Csv.is_newline c = false.
Proof.
  destruct g as [|c g]; [congruence|]. simpl.
  intros [Hc _]%andb_true_iff _. apply negb_true_iff in Hc.
  eexists _, _. split; [apply string_app_cons | exact Hc].
Qed.

Lemma line_text_empty (cols : list string) :
  Table.columns_ok cols = true -> Table.line_text cols = "" -> cols = [].
Proof.
  unfold Table.columns_ok. intros [_ Hne]%andb_true_iff.
  apply negb_true_iff, bool_decide_eq_false in Hne.
  destruct cols as [|f [|g cols]]; [reflexivity| |].
  - change (Table.line_text [f]) with f. intros ->. congruence.
  - rewrite line_text_cons. destruct f as [|c f].
    + rewrite string_app_nil_l. discriminate.
    + rewrite string_app_cons. discriminate.
Qed.

Lemma line_end_cases (t : string) :
  Roster.line_end t = true ->
  t = Roster.LF \/ t = Roster.CRLF \/ t = Roster.CR.
Proof.
  unfold Roster.line_end. intros Ht.
  apply orb_true_iff in Ht as [Ht | Ht];
    [apply orb_true_iff in Ht as [Ht | Ht]|];
    apply bool_decide_eq_true in Ht; auto.
Qed.

(** The first line of a text: up to the first line end, a CR taking
    the LF that follows it. *)
Lemma readlines_line (g t rest : string) :
  Roster.no_newline g = true -> Roster.line_end t = true ->
  exists t' rest',
    Roster.line_end t' = true
    /\ Csv.readlines (g +:+ t +:+ rest) = (g +:+ t') :: Csv.readlines rest'
    /\ (t' = t /\ rest' = rest
        \/ t = Roster.CR /\ rest = String Text.LF rest').
Proof.
  intros Hg Ht. unfold Csv.readlines.
  rewrite (readlines_from_no_newline _ _ _ Hg), string_app_nil_l.
  destruct (line_end_cases _ Ht) as [-> | [-> | ->]].
  - exists Roster.LF, rest. repeat split; auto.
  - exists Roster.CRLF, rest. repeat split; auto.
  - unfold Roster.CR. rewrite string_app_cons, string_app_nil_l.
    destruct rest as [|c rest'].
    + exists Roster.CR, "". repeat split; auto.
    + assert (Hstep :
        Csv.readlines_from g (String Text.CR (String c rest'))
        = if Ascii.eqb c Text.LF
          then (g +:+ String Text.CR (String c "")) :: Csv.readlines_from "" rest'
          else (g +:+ String Text.CR "") :: Csv.readlines_from "" (String c rest'))
        by reflexivity.
      rewrite Hstep. destruct (Ascii.eqb c Text.LF) eqn:Hc.
      * apply Ascii.eqb_eq in Hc as ->.
        exists Roster.CRLF, rest'. repeat split; auto.
      * exists Roster.CR, (String c rest'). repeat split; auto.
Qed.

Lemma readlines_last_line (g : string) :
  Roster.no_newline g = true ->
  Csv.readlines g = if Text.is_empty g then [] else [g].
Proof.
  intros Hg. unfold Csv.readlines.
  rewrite <- (string_app_nil_r g) at 1.
  rewrite (readlines_from_no_newline _ _ _ Hg), string_app_nil_l.
  reflexivity.
Qed.

Lemma file_text_app (ls ls' : list (list string * string)) :
  Table.file_text (ls ++ ls') = Table.file_text ls +:+ Table.file_text ls'.
Proof.
  induction ls as [|[cols t] ls IH]; simpl.
  - rewrite string_app_nil_l. reflexivity.
  - rewrite IH, !string_app_assoc. reflexivity.
Qed.

Section Table_reader.
Context `{Python}.

Lemma feed_line_columns (cols : list string) (t : string) (r : Csv.ReaderObj) :
  Csv.state r = Csv.START_FIELD -> Csv.field r = "" -> cols <> [] ->
  forallb Roster.plain cols = true ->
  Roster.line_end t = true \/ t = "" ->
  Csv.feed_line r (Table.line_text cols +:+ t)
  = Ok {| Csv.state := Csv.START_RECORD; Csv.fields := Csv.fields r ++ cols;
          Csv.field := "" |}.
Proof.
  intros Hstate Hfield Hne Hplain Ht. revert r Hstate Hfield.
  induction cols as [|f cols IH]; [congruence|]. intros r Hstate Hfield.
  simpl forallb in Hplain. apply andb_true_iff in Hplain as [Hf Hcols].
  destruct cols as [|g cols].
  - unfold Csv.feed_line. change (Table.line_text [f]) with f.
    rewrite feed_chars_app, feed_chars_column;
      [|split; [right|]; assumption | exact Hf].
    rewrite res_bind_ok; cbv beta. apply feed_line_end; assumption.
  - rewrite line_text_cons, !string_app_assoc. unfold Csv.feed_line.
    rewrite feed_chars_column_tab; [|split; [right|]; assumption | exact Hf].
    pose proof (IH ltac:(discriminate) Hcols
             {| Csv.state := Csv.START_FIELD; Csv.fields := Csv.fields r ++ [f];
                Csv.field := "" |} eq_refl eq_refl) as IH'.
    unfold Csv.feed_line in IH'. rewrite IH'. simpl.
    rewrite <- app_assoc. reflexivity.
Qed.

(** One line of the file, with its line end, is one record: its
    columns. *)
Lemma feed_line_row (cols : list string) (t : string) :
  Table.columns_ok cols = true ->
  Roster.line_end t = true \/ t = "" ->
  Csv.feed_line Csv.parse_reset (Table.line_text cols +:+ t)
  = Ok {| Csv.state := Csv.START_RECORD; Csv.fields := cols;
          Csv.field := "" |}.
Proof.
  unfold Table.columns_ok. intros [Hplain Hne]%andb_true_iff Ht.
  apply negb_true_iff, bool_decide_eq_false in Hne.
  destruct cols as [|f [|g cols]].
  - change (Table.line_text []) with "". rewrite string_app_nil_l.
    assert (Hcases : t = Roster.LF \/ t = Roster.CRLF \/ t = Roster.CR \/ t = "").
    { destruct Ht as [Ht | ->]; [|auto].
      destruct (line_end_cases _ Ht) as [-> | [-> | ->]]; auto. }
    clear Ht. destruct H as [reader [|]];
      destruct Hcases as [-> | [-> | [-> | ->]]]; reflexivity.
  - change (Table.line_text [f]) with f.
    destruct f as [|c g]; [congruence|].
    simpl forallb in Hplain. apply andb_true_iff in Hplain as [Hf _].
    unfold Csv.feed_line.
    rewrite feed_chars_app, feed_chars_column;
      [|split; [left|]; reflexivity | exact Hf].
    rewrite res_bind_ok; cbv beta.
    change (after_column Csv.parse_reset (String c g))
      with (after_column {| Csv.state := Csv.START_FIELD; Csv.fields := [];
                            Csv.field := "" |} (String c g)).
    rewrite feed_line_end; auto.
  - simpl forallb in Hplain. apply andb_true_iff in Hplain as [Hf Hcols].
    rewrite line_text_cons, !string_app_assoc. unfold Csv.feed_line.
    rewrite feed_chars_column_tab; [|split; [left|]; reflexivity | exact Hf].
    pose proof (feed_line_columns (g :: cols) t
             {| Csv.state := Csv.START_FIELD;
                Csv.fields := Csv.fields Csv.parse_reset ++ [f];
                Csv.field := "" |} eq_refl eq_refl ltac:(discriminate)
             Hcols Ht) as Hrow.
    unfold Csv.feed_line in Hrow. rewrite Hrow. reflexivity.
Qed.


Lemma reader_cons_row (line : string) (lines : list string) (cols : list string) :
  Csv.feed_line Csv.parse_reset line
  = Ok {| Csv.state := Csv.START_RECORD; Csv.fields := cols; Csv.field := "" |} ->
  Csv.reader (line :: lines)
  = (cols :: (Csv.reader lines).1, (Csv.reader lines).2).
Proof.
  intros Hfeed. unfold Csv.reader. simpl. rewrite Hfeed. simpl.
  destruct (Csv.reader_rows Csv.parse_reset lines). reflexivity.
Qed.

(** The rows the reader yields for the lines of a file, followed by
    more text: the columns of each line, a blank line giving the empty
    row or, after a CR, ending that line together with it. *)
Lemma reader_table (n : nat) :
  forall (ls : list (list string * string)) (rest : string),
    (length ls < n)%nat ->
    Forall (fun lt => Table.columns_ok lt.1 = true
                      /\ Roster.line_end lt.2 = true) ls ->
    Roster.starts_with Text.LF rest = false ->
    exists rows,
      List.filter Csv.not_blank rows = List.filter Csv.not_blank (map fst ls)
      /\ Csv.reader (Csv.readlines (Table.file_text ls +:+ rest))
         = (rows ++ (Csv.reader (Csv.readlines rest)).1,
            (Csv.reader (Csv.readlines rest)).2).
Proof.
  induction n as [|n IH]; intros ls rest Hlen Hok Hrest; [lia|].
  destruct ls as [|[cols t] ls'].
  - exists []. split; [reflexivity|]. simpl. rewrite string_app_nil_l.
    destruct (Csv.reader _). reflexivity.
  - apply Forall_cons in Hok as [[Hcols Ht] Hok]. simpl in Hcols, Ht, Hlen.
    change (Table.file_text ((cols, t) :: ls'))
      with (Table.line_text cols +:+ t +:+ Table.file_text ls').
    rewrite !string_app_assoc.
    assert (Hplain : forallb Roster.plain cols = true).
    { unfold Table.columns_ok in Hcols.
      apply andb_true_iff in Hcols as [Hplain _]. exact Hplain. }
    destruct (readlines_line _ t (Table.file_text ls' +:+ rest)
                (line_text_no_newline _ Hplain) Ht)
      as (t' & rest' & Ht' & Hlines & Hcase).
    rewrite Hlines.
    rewrite (reader_cons_row _ _ cols (feed_line_row cols t' Hcols (or_introl Ht'))).
    destruct Hcase as [[-> ->] | [-> Hmerge]].
    + destruct (IH ls' rest ltac:(lia) Hok Hrest) as (rows & Hfilter & Hreader).
      exists (cols :: rows). split; [simpl; rewrite Hfilter; reflexivity|].
      rewrite Hreader. reflexivity.
    + destruct ls' as [|[cols' t''] ls''].
      * simpl in Hmerge. rewrite string_app_nil_l in Hmerge. subst rest.
        discriminate Hrest.
      * apply Forall_cons in Hok as [[Hcols' Ht''] Hok].
        simpl in Hcols', Ht'', Hlen.
        change (Table.file_text ((cols', t'') :: ls''))
          with (Table.line_text cols' +:+ t'' +:+ Table.file_text ls'')
          in Hmerge.
        rewrite !string_app_assoc in Hmerge.
        assert (Hplain' : forallb Roster.plain cols' = true).
        { unfold Table.columns_ok in Hcols'.
          apply andb_true_iff in Hcols' as [Hplain' _]. exact Hplain'. }
        assert (Hblank : cols' = []).
        { apply line_text_empty; [exact Hcols'|].
          pose proof (line_text_no_newline _ Hplain') as Hnn.
          destruct (Table.line_text cols') as [|c s]; [reflexivity|exfalso].
          rewrite string_app_cons in Hmerge. injection Hmerge as -> _.
          discriminate Hnn. }
        subst cols'. change (Table.line_text []) with "" in Hmerge.
        rewrite string_app_nil_l in Hmerge.
        assert (rest' = Table.file_text ls'' +:+ rest) as ->.
        { destruct (line_end_cases _ Ht'') as [-> | [-> | ->]];
            [injection Hmerge as <-; apply string_app_nil_l
            | discriminate Hmerge | discriminate Hmerge]. }
        destruct (IH ls'' rest ltac:(lia) Hok Hrest)
          as (rows & Hfilter & Hreader).
        exists (cols :: rows). split; [simpl; rewrite Hfilter; reflexivity|].
        rewrite Hreader. reflexivity.
Qed.

(** A last line that the end of the file ends. *)
Lemma reader_final_line (cols : list string) :
  Table.columns_ok cols = true ->
  exists rows,
    List.filter Csv.not_blank rows = List.filter Csv.not_blank [cols]
    /\ Csv.reader (Csv.readlines (Table.line_text cols)) = (rows, None).
Proof.
  intros Hcols.
  assert (Hplain : forallb Roster.plain cols = true).
  { unfold Table.columns_ok in Hcols.
    apply andb_true_iff in Hcols as [Hplain _]. exact Hplain. }
  rewrite (readlines_last_line _ (line_text_no_newline _ Hplain)).
  destruct (Table.line_text cols) as [|c s] eqn:Htext.
  - apply (line_text_empty _ Hcols) in Htext as ->. exists []. split; reflexivity.
  - exists [cols]. split; [reflexivity|]. simpl Text.is_empty. cbv iota.
    rewrite (reader_cons_row _ _ cols); [reflexivity|].
    rewrite <- Htext, <- (string_app_nil_r (Table.line_text cols)).
    apply feed_line_row; auto.
Qed.

End Table_reader.

Lemma read_rows_app (rows1 rows2 : list (list string)) (err : option exn)
    (student_data : list Student) :
  read_rows (rows1 ++ rows2) err student_data
  = (acc ← read_rows rows1 None student_data; read_rows rows2 err acc).
Proof.
  revert student_data. induction rows1 as [|row rows1 IH]; intros acc;
    [reflexivity|].
  simpl. destruct (student_of_row _) as [s|e]; simpl; [apply IH | reflexivity].
Qed.

(** A row of four fields or more: the fields after the fourth go under
    the key [None] and the third is not read. *)
Lemma student_of_row_long (cols : list string) :
  (4 <= length cols)%nat ->
  exists s, Table.record cols = Some s
            /\ student_of_row (Csv.dict_row fieldnames cols) = Ok s.
Proof.
  intros Hlen.
  destruct cols as [|f1 [|f2 [|f3 [|f4 more]]]]; simpl in Hlen; try lia.
  eexists. split; [reflexivity|].
  unfold Csv.dict_row.
  replace (drop (length (f1 :: f2 :: f3 :: f4 :: more)) fieldnames)
    with (@nil string) by (simpl; rewrite drop_nil; reflexivity).
  reflexivity.
Qed.

Lemma read_rows_table (rows : list (list string)) (student_data : list Student) :
  Forall (fun cols => cols = [] \/ (4 <= length cols)%nat) rows ->
  read_rows (List.filter Csv.not_blank rows) None student_data
  = Ok (student_data ++ omap Table.record rows).
Proof.
  intros Hrows. revert student_data.
  induction Hrows as [|cols rows [-> | Hlen] _ IH]; intros acc.
  - simpl. rewrite app_nil_r. reflexivity.
  - simpl. apply IH.
  - destruct (student_of_row_long _ Hlen) as (s & Hrecord & Hrow).
    assert (Hnb : Csv.not_blank cols = true).
    { destruct cols; [simpl in Hlen; lia | reflexivity]. }
    simpl. rewrite Hnb, Hrecord. simpl. rewrite Hrow, res_bind_ok, IH.
    rewrite <- app_assoc. reflexivity.
Qed.

Lemma line_ends_split (ls : list (list string * string)) :
  Table.line_ends_ok ls = true ->
  Forall (fun lt => Roster.line_end lt.2 = true) ls
  \/ exists init cols,
       ls = init ++ [(cols, "")]
       /\ Forall (fun lt => Roster.line_end lt.2 = true) init.
Proof.
  induction ls as [|[cols t] rest IH]; intros Hends; [left; constructor|].
  destruct rest as [|p rest'].
  - simpl in Hends. apply orb_true_iff in Hends as [Ht | Ht].
    + left. repeat constructor. exact Ht.
    + right. exists [], cols. destruct t; [|discriminate].
      split; [reflexivity | constructor].
  - change (Roster.line_end t && Table.line_ends_ok (p :: rest') = true)
      in Hends.
    apply andb_true_iff in Hends as [Ht Hends].
    destruct (IH Hends) as [Hall | (init & cols' & Heq & Hinit)].
    + left. constructor; assumption.
    + right. exists ((cols, t) :: init), cols'. rewrite Heq.
      split; [reflexivity | constructor; assumption].
Qed.

Lemma starts_no_newline (g : string) :
  Roster.no_newline g = true -> Roster.starts_with Text.LF g = false.
Proof.
  destruct g as [|c g]; [reflexivity|]. simpl.
  intros [Hc _]%andb_true_iff. apply negb_true_iff in Hc.
  apply is_newline_inv in Hc as [Hlf _]. exact Hlf.
Qed.

Section Table_roster.
Context `{Python}.

Lemma reader_table_file (ls : list (list string * string)) :
  Forall (fun lt => Table.columns_ok lt.1 = true) ls ->
  Table.line_ends_ok ls = true ->
  exists rows,
    List.filter Csv.not_blank rows = List.filter Csv.not_blank (map fst ls)
    /\ Csv.reader (Csv.readlines (Table.file_text ls)) = (rows, None).
Proof.
  intros Hok Hends.
  destruct (line_ends_split _ Hends) as [Hall | (init & cols & -> & Hinit)].
  - destruct (reader_table (S (length ls)) ls "" ltac:(lia)) as (rows & Hf & Hr).
    + apply Forall_forall. intros lt Hlt. rewrite Forall_forall in Hok, Hall.
      auto.
    + reflexivity.
    + rewrite string_app_nil_r in Hr. exists rows. split; [exact Hf|].
      rewrite Hr. change (Csv.reader (Csv.readlines "")) with
        (@nil (list string), @None exn). simpl. rewrite app_nil_r. reflexivity.
  - apply Forall_app in Hok as [Hok Hlast].
    apply Forall_cons in Hlast as [Hcols _]. simpl in Hcols.
    assert (Hplain : forallb Roster.plain cols = true).
    { unfold Table.columns_ok in Hcols.
      apply andb_true_iff in Hcols as [Hplain _]. exact Hplain. }
    destruct (reader_table (S (length init)) init (Table.line_text cols)
                ltac:(lia)) as (rows & Hf & Hr).
    + apply Forall_forall. intros lt Hlt. rewrite Forall_forall in Hok, Hinit.
      auto.
    + apply starts_no_newline, line_text_no_newline, Hplain.
    + destruct (reader_final_line _ Hcols) as (rows' & Hf' & Hr').
      rewrite Hr' in Hr. simpl in Hr.
      exists (rows ++ rows'). split.
      * rewrite map_app, !List.filter_app, Hf, Hf'. reflexivity.
      * rewrite file_text_app. simpl Table.file_text.
        rewrite !string_app_nil_r. exact Hr.
Qed.

(** X13.  In a roster file whose lines are blank or have four
    tab-separated columns or more, blank lines are passed over and the
    columns after the fourth, like the third, are not read:
    [read_student_data] prints nothing and returns one record for
    every line that is not blank, in order, made of its first, second
    and fourth column. *)
Theorem read_student_data_blank_and_long_lines (w : World) (path : string)
    (lines : list (list string * string)) :
  filesystem w path = FileText (Table.file_text lines) ->
  Forall (fun lt => Table.columns_ok lt.1 = true
                    /\ (lt.1 = [] \/ (4 <= length lt.1)%nat)) lines ->
  Table.line_ends_ok lines = true ->
  read_student_data w path = ([], Ok (omap Table.record (map fst lines))).
Proof.
  intros Hfile Hok Hends.
  destruct (reader_table_file lines) as (rows & Hfilter & Hreader);
    [eapply Forall_impl; [exact Hok | intros lt [Hc _]; exact Hc] | exact Hends|].
  unfold read_student_data, open. rewrite Hfile, res_bind_ok, Hreader, Hfilter.
  rewrite read_rows_table; [reflexivity|].
  apply Forall_fmap. eapply Forall_impl; [exact Hok|].
  intros lt [_ Hlen]. exact Hlen.
Qed.

(** X14.  The first line with one, two or three columns ends the
    reading of the roster: whatever lines come before it (blank, or of
    four columns or more) and whatever text comes after it,
    [read_student_data] raises [AttributeError] and returns no record
    at all, and so does [main], before any request. *)
Theorem read_student_data_short_row (w : World) (path : string)
    (lines : list (list string * string)) (short : list string)
    (t rest : string) :
  filesystem w path
  = FileText (Table.file_text lines +:+ Table.line_text short +:+ t +:+ rest) ->
  Forall (fun lt => Table.columns_ok lt.1 = true
                    /\ (lt.1 = [] \/ (4 <= length lt.1)%nat)
                    /\ Roster.line_end lt.2 = true) lines ->
  Table.columns_ok short = true ->
  (0 < length short < 4)%nat ->
  Roster.line_end t = true \/ t = "" /\ rest = "" ->
  read_student_data w path = ([], Raise AttributeError)
  /\ (path = STUDENTS_FILE -> main w = ([], Raise AttributeError)).
Proof.
  intros Hfile Hok Hshort Hlen Ht.
  assert (Hread : read_student_data w path = ([], Raise AttributeError)).
  { assert (Hplain : forallb Roster.plain short = true).
    { unfold Table.columns_ok in Hshort.
      apply andb_true_iff in Hshort as [Hplain _]. exact Hplain. }
    pose proof (line_text_no_newline _ Hplain) as Hnn.
    assert (Hne : Table.line_text short <> "").
    { intros Hempty. apply (line_text_empty _ Hshort) in Hempty as ->.
      simpl in Hlen. lia. }
    assert (Hline : exists rows' err',
      Csv.reader (Csv.readlines (Table.line_text short +:+ t +:+ rest))
      = (short :: rows', err')).
    { destruct Ht as [Ht | [-> ->]].
      - destruct (readlines_line _ t rest Hnn Ht)
          as (t' & rest' & Ht' & Hlines & _).
        rewrite Hlines.
        rewrite (reader_cons_row _ _ short
                   (feed_line_row short t' Hshort (or_introl Ht'))).
        eauto.
      - rewrite !string_app_nil_r, (readlines_last_line _ Hnn).
        destruct (Table.line_text short) as [|c s] eqn:Htext; [congruence|].
        simpl Text.is_empty. cbv iota.
        rewrite (reader_cons_row _ _ short); [eauto|].
        rewrite <- Htext, <- (string_app_nil_r (Table.line_text short)).
        apply feed_line_row; auto. }
    destruct Hline as (rows' & err' & Hline).
    destruct (reader_table (S (length lines)) lines
                (Table.line_text short +:+ t +:+ rest) ltac:(lia))
      as (rows & Hfilter & Hreader).
    - eapply Forall_impl; [exact Hok|]. intros lt (Hc & _ & He). auto.
    - destruct (no_newline_starts _ (t +:+ rest) Hnn Hne) as (c & s & -> & Hc).
      apply is_newline_inv in Hc as [Hlf _]. exact Hlf.
    - rewrite Hline in Hreader. simpl in Hreader.
      unfold read_student_data, open.
      rewrite Hfile, res_bind_ok, Hreader.
      rewrite List.filter_app, Hfilter, read_rows_app, read_rows_table.
      + rewrite res_bind_ok.
        assert (Hnb : Csv.not_blank short = true).
        { destruct short; [simpl in Hlen; lia | reflexivity]. }
        simpl. rewrite Hnb. simpl.
        rewrite (student_of_row_short _ Hlen). reflexivity.
      + apply Forall_fmap. eapply Forall_impl; [exact Hok|].
        intros lt (_ & Hl & _). exact Hl. }
  split; [exact Hread|]. intros ->. unfold main. rewrite Hread. reflexivity.
Qed.

End Table_roster.

(** The dict of a row has every field name as a key: a row gives a
    record or, when it is too short, the [AttributeError] of stripping
    [None]; never a [KeyError]. *)
Lemma student_of_row_dict_row (row : list string) :
  student_of_row (Csv.dict_row fieldnames row) = Raise AttributeError
  \/ exists s, student_of_row (Csv.dict_row fieldnames row) = Ok s.
Proof.
  destruct row as [|f1 [|f2 [|f3 [|f4 more]]]];
    [left; reflexivity ..|].
  right.
  destruct (student_of_row_long (f1 :: f2 :: f3 :: f4 :: more)) as (s & _ & Hs);
    [simpl; lia | eauto].
Qed.

Lemma read_rows_exceptions (rows : list (list string)) (err : option exn)
    (student_data : list Student) (e : exn) :
  read_rows rows err student_data = Raise e ->
  e = AttributeError \/ err = Some e.
Proof.
  revert student_data. induction rows as [|row rows IH]; intros acc; simpl.
  - destruct err; [intros [= ->]; auto | discriminate].
  - destruct (student_of_row_dict_row row) as [-> | [s ->]]; simpl.
    + intros [= <-]. auto.
    + apply IH.
Qed.

Section Exceptions.
Context `{Python}.

(** [read_student_data] by what the file system has under the path. *)
Lemma read_student_data_cases (w : World) (path : string) :
  match filesystem w path with
  | NoSuchFile =>
      read_student_data w path
      = ([Stdout ("Error: The file " +:+ path +:+ " was not found.")], Ok [])
  | Unreadable => read_student_data w path = ([], Raise OSError)
  | FileText _ =>
      exists r, read_student_data w path = ([], r)
                /\ forall e, r = Raise e -> e = AttributeError \/ e = CsvError
  end.
Proof.
  unfold read_student_data, open.
  destruct (filesystem w path) as [| |content]; [reflexivity | reflexivity|].
  rewrite res_bind_ok.
  destruct (Csv.reader (Csv.readlines content)) as [rows err] eqn:Hreader.
  destruct (read_rows (List.filter Csv.not_blank rows) err []) as [l|e]
    eqn:Hrows.
  - eexists. split; [reflexivity | discriminate].
  - assert (He : e = AttributeError \/ e = CsvError).
    { apply read_rows_exceptions in Hrows as [-> | ->]; [auto|].
      apply reader_rows_error in Hreader as ->. auto. }
    exists (Raise e). split; [destruct He as [-> | ->]; reflexivity|].
    intros e' [= <-]. exact He.
Qed.

(** X15.  What [read_student_data] can raise, for a roster that is
    missing, cannot be read, or is text: the [OSError] of a file that
    exists and cannot be opened or read, the [AttributeError] of a line
    with fewer than four columns, the [csv.Error] of the reader.  It
    never ends in [FileNotFoundError], which its [except] clause
    catches, nor in a [KeyError], and it prints nothing when it
    raises. *)
Theorem read_student_data_exceptions (w : World) (path : string) (e : exn) :
  outcome (read_student_data w path) = Raise e ->
  events (read_student_data w path) = []
  /\ (e = OSError /\ filesystem w path = Unreadable
      \/ (e = AttributeError \/ e = CsvError)
         /\ exists content, filesystem w path = FileText content).
Proof.
  intros Hout. pose proof (read_student_data_cases w path) as Hcases.
  destruct (filesystem w path) as [| |content].
  - rewrite Hcases in Hout. discriminate.
  - rewrite Hcases in *. injection Hout as <-. split; [reflexivity|]. auto.
  - destruct Hcases as (r & Hr & He). rewrite Hr in *. simpl in Hout.
    split; [reflexivity|]. right. split; [apply He; exact Hout | eauto].
Qed.

End Exceptions.

(** ** A whole run *)

Section Run.
Context `{Python}.

(** A roster that has a record was read without a word. *)
Lemma read_student_data_students (w : World) (path : string) (t : list event)
    (student : Student) (students : list Student) :
  read_student_data w path = (t, Ok (student :: students)) -> t = [].
Proof.
  intros Hread. pose proof (read_student_data_cases w path) as Hcases.
  destruct (filesystem w path); [congruence | congruence|].
  destruct Hcases as (r & Hr & _). congruence.
Qed.

(** A directory fetch that returns has sent one request and printed
    nothing to standard output. *)
Lemma fetch_users_events (w : World) (users : json) (t : list event) :
  fetch_users w = (t, Ok users) ->
  stdout_of t = [] /\ count is_request t = 1%nat /\ count is_pause t = 0%nat.
Proof.
  intros Hfetch. unfold fetch_users in Hfetch.
  destruct (http_get w USERS_API_URL) as [r|] eqn:Hget.
  - rewrite (requests_get_some _ _ _ Hget), M_bind_ok in Hfetch.
    destruct (status_code r =? 200); simpl in Hfetch;
      injection Hfetch as <- _; auto.
  - unfold requests_get in Hfetch. rewrite Hget in Hfetch. discriminate.
Qed.

(** X16.  A run of [main] that ends normally did one of three things.
    It found no student, sent no request, and the last line it printed
    is the "no student data" message.  Or it read students, sent one
    request, made no pause and printed the "no users" message only.
    Or it printed exactly one line for each student of the roster, and
    sent the directory request and, for each student whose email is a
    key of the mapping, one more request and made one pause. *)
Theorem main_normal_end (w : World) (t : list event) :
  main w = (t, Ok tt) ->
  exists students,
    outcome (read_student_data w STUDENTS_FILE) = Ok students
    /\ (students = []
        /\ last (stdout_of t) = Some NO_STUDENTS_MESSAGE
        /\ count is_request t = 0%nat /\ count is_pause t = 0%nat
        \/ students <> []
           /\ stdout_of t = [NO_USERS_MESSAGE]
           /\ count is_request t = 1%nat /\ count is_pause t = 0%nat
        \/ students <> []
           /\ length (stdout_of t) = length students
           /\ exists users user_dict,
                outcome (fetch_users w) = Ok users
                /\ user_dict_of users = Ok user_dict
                /\ count is_request t
                   = S (count (in_directory user_dict) students)
                /\ count is_pause t = count (in_directory user_dict) students).
Proof.
  intros Hmain.
  destruct (read_student_data w STUDENTS_FILE) as [t0 r0] eqn:Hread.
  destruct r0 as [students|e];
    [|unfold main in Hmain; rewrite Hread in Hmain; discriminate].
  exists students. split; [reflexivity|].
  destruct students as [|s l].
  - left. unfold main in Hmain. rewrite Hread, M_bind_ok in Hmain.
    injection Hmain as <-. split; [reflexivity|].
    rewrite stdout_of_app, !count_app. split; [apply last_snoc|].
    pose proof (read_student_data_cases w STUDENTS_FILE) as Hcases.
    destruct (filesystem w STUDENTS_FILE).
    + rewrite Hread in Hcases. injection Hcases as ->. auto.
    + congruence.
    + destruct Hcases as (r & Hr & _). rewrite Hread in Hr.
      injection Hr as -> _. auto.
  - right. apply read_student_data_students in Hread as Ht0. subst t0.
    destruct (fetch_users w) as [t1 r1] eqn:Hfetch.
    rewrite (main_after_fetch _ _ _ _ _ _ Hread Hfetch) in Hmain.
    destruct r1 as [users|e]; [|discriminate].
    destruct (fetch_users_events _ _ _ Hfetch) as (Hs & Hr & Hp).
    destruct (truthy users).
    + destruct (user_dict_of users) as [user_dict|e] eqn:Hdict; [|discriminate].
      right. split; [discriminate|].
      destruct (for_each (main_loop_body w (clock w) user_dict) (s :: l))
        as [t2 r2] eqn:Hloop.
      cbn [events outcome fst snd] in Hmain. injection Hmain as <- ->.
      destruct (loop_counts _ _ _ _ _ Hloop) as (Hs' & Hr' & Hp').
      cbn [app].
      rewrite stdout_of_app, length_app, !count_app, Hs, Hr, Hp, Hs', Hr', Hp'.
      split; [reflexivity|]. exists users, user_dict. auto.
    + left. injection Hmain as <-. split; [discriminate|].
      cbn [app]. rewrite stdout_of_app, !count_app, Hs, Hr, Hp. auto.
Qed.

End Run.

(** ** Records in normal form *)

Lemma rstrip_with_idem (p : ascii -> bool) (s : string) :
  Text.rstrip_with p (Text.rstrip_with p s) = Text.rstrip_with p s.
Proof.
  induction s as [|c s IH]; [reflexivity|]. simpl.
  destruct (Text.is_empty (Text.rstrip_with p s) && p c) eqn:Hdrop;
    [reflexivity|].
  simpl. rewrite IH, Hdrop. reflexivity.
Qed.

(** What is left of a text stripped on the left is empty or starts
    with a character that stays. *)
Lemma lstrip_with_starts (p : ascii -> bool) (s : string) :
  Text.lstrip_with p (Text.lstrip_with p s) = Text.lstrip_with p s
  /\ Text.lstrip_with p (Text.rstrip_with p (Text.lstrip_with p s))
     = Text.rstrip_with p (Text.lstrip_with p s).
Proof.
  induction s as [|c s IH]; [split; reflexivity|]. simpl.
  destruct (p c) eqn:Hc; [exact IH|]. split.
  - simpl. rewrite Hc. reflexivity.
  - simpl. rewrite Hc, andb_false_r. simpl. rewrite Hc. reflexivity.
Qed.

Lemma strip_idem (s : string) : Text.strip (Text.strip s) = Text.strip s.
Proof.
  unfold Text.strip.
  rewrite (proj2 (lstrip_with_starts Text.is_space s)).
  apply rstrip_with_idem.
Qed.

Lemma lower_char_idem (c : ascii) :
  Text.lower_char (Text.lower_char c) = Text.lower_char c.
Proof. destruct c as [[] [] [] [] [] [] [] []]; vm_compute; reflexivity. Qed.

Lemma is_space_lower_char (c : ascii) :
  Text.is_space (Text.lower_char c) = Text.is_space c.
Proof. destruct c as [[] [] [] [] [] [] [] []]; vm_compute; reflexivity. Qed.

Lemma lower_idem (s : string) : Text.lower (Text.lower s) = Text.lower s.
Proof.
  induction s as [|c s IH]; [reflexivity|]. simpl.
  rewrite lower_char_idem, IH. reflexivity.
Qed.

Lemma lstrip_lower (s : string) :
  Text.lstrip_with Text.is_space (Text.lower s)
  = Text.lower (Text.lstrip_with Text.is_space s).
Proof.
  induction s as [|c s IH]; [reflexivity|]. simpl.
  rewrite is_space_lower_char. destruct (Text.is_space c); [exact IH | reflexivity].
Qed.

Lemma rstrip_lower (s : string) :
  Text.rstrip_with Text.is_space (Text.lower s)
  = Text.lower (Text.rstrip_with Text.is_space s).
Proof.
  induction s as [|c s IH]; [reflexivity|]. simpl.
  rewrite IH, is_space_lower_char.
  destruct (Text.rstrip_with Text.is_space s); simpl;
    [destruct (Text.is_space c)|]; reflexivity.
Qed.

(** Lower-casing does not make or remove white space: it commutes with
    stripping. *)
Lemma strip_lower (s : string) :
  Text.strip (Text.lower s) = Text.lower (Text.strip s).
Proof. unfold Text.strip. rewrite lstrip_lower, rstrip_lower. reflexivity. Qed.

Lemma student_of_row_normal_form (row : gmap string (option string))
    (s : Student) :
  student_of_row row = Ok s ->
  Text.strip (first_name s) = first_name s
  /\ Text.strip (last_name s) = last_name s
  /\ Text.strip (email s) = email s
  /\ Text.lower (email s) = email s.
Proof.
  unfold student_of_row, strip_method. intros Hrow.
  apply res_bind_inv in Hrow as (fn & Hfn & Hrow).
  apply res_bind_inv in Hrow as (ln & Hln & Hrow).
  apply res_bind_inv in Hrow as (em & Hem & Hrow).
  injection Hrow as <-. simpl.
  apply res_bind_inv in Hfn as ([x|] & _ & Hfn); [|discriminate].
  apply res_bind_inv in Hln as ([y|] & _ & Hln); [|discriminate].
  apply res_bind_inv in Hem as ([z|] & _ & Hem); [|discriminate].
  injection Hfn as <-. injection Hln as <-. injection Hem as <-.
  rewrite !strip_idem, strip_lower, strip_idem, lower_idem. auto.
Qed.

Lemma read_rows_forall (P : Student -> Prop) (rows : list (list string))
    (err : option exn) (student_data students : list Student) :
  (forall row s, student_of_row (Csv.dict_row fieldnames row) = Ok s -> P s) ->
  Forall P student_data ->
  read_rows rows err student_data = Ok students ->
  Forall P students.
Proof.
  intros HP. revert student_data.
  induction rows as [|row rows IH]; intros acc Hacc; simpl.
  - destruct err; [discriminate|]. intros [= <-]. exact Hacc.
  - intros Hrows. apply res_bind_inv in Hrows as (s & Hs & Hrows).
    eapply IH; [|exact Hrows].
    apply Forall_app. split; [exact Hacc|].
    constructor; [|constructor]. eapply HP. exact Hs.
Qed.

Section Normal_form.
Context `{Python}.

(** X17.  Every record [read_student_data] returns is in normal form:
    stripping its names or its email again, or lower-casing its email
    again, changes nothing.  (The email is stripped first and
    lower-cased after; lower-casing makes no white space.) *)
Theorem read_student_data_normal_form (w : World) (path : string)
    (students : list Student) :
  outcome (read_student_data w path) = Ok students ->
  Forall (fun s => Text.strip (first_name s) = first_name s
                   /\ Text.strip (last_name s) = last_name s
                   /\ Text.strip (email s) = email s
                   /\ Text.lower (email s) = email s) students.
Proof.
  unfold read_student_data, open.
  destruct (filesystem w path) as [| |content].
  - intros [= <-]. constructor.
  - discriminate.
  - rewrite res_bind_ok.
    destruct (Csv.reader (Csv.readlines content)) as [rows err].
    destruct (read_rows (List.filter Csv.not_blank rows) err []) as [l|e]
      eqn:Hrows.
    + intros [= <-]. eapply read_rows_forall; [|constructor|exact Hrows].
      intros row s. apply student_of_row_normal_form.
    + unfold try_except, lift. destruct (decide (e = FileNotFoundError));
        [intros [= <-]; constructor | discriminate].
Qed.

End Normal_form.

(** ** The theorems above on the examples *)

Lemma main_loop_body_events_witness :
  exists line submissions,
    outcome (fetch_submissions Example.world (JInt 7)) = Ok submissions
    /\ events (@main_loop_body Example.python Example.world Example.noon
                 Example.user_dict (Roster.record Example.jane))
       = events (fetch_submissions Example.world (JInt 7))
           ++ [Sleep; Stdout line]
    /\ (line = "No submissions found, as of " +:+ str_civil Example.noon
        \/ exists id,
             line = SUBMISSION_URL_TEMPLATE (py_str (JInt 7)) (py_str id))
    /\ ~ is_search_link line.
Proof.
  apply (@main_loop_body_events Example.python Example.world Example.noon
           Example.user_dict (Roster.record Example.jane)).
  vm_compute. reflexivity.
Defined.

Lemma one_line_per_student_witness :
  length (stdout_of (events (Sample.loop Example.world Sample.students)))
  = length Sample.students
  /\ count is_request (events (Sample.loop Example.world Sample.students))
     = count (in_directory Example.user_dict) Sample.students
  /\ count is_pause (events (Sample.loop Example.world Sample.students))
     = count (in_directory Example.user_dict) Sample.students.
Proof.
  apply (@one_line_per_student Example.python Example.world Example.noon
           Example.user_dict Sample.students
           (events (Sample.loop Example.world Sample.students))).
  vm_compute. reflexivity.
Defined.

Lemma matched_students_no_search_link_witness :
  Forall (fun line => ~ is_search_link line)
    (stdout_of (events (Sample.loop Example.world
       [Roster.record Example.jane; Roster.record Example.mohammed]))).
Proof.
  apply (@matched_students_no_search_link Example.python Example.world
           Example.noon Example.user_dict
           [Roster.record Example.jane; Roster.record Example.mohammed]
           (events (Sample.loop Example.world
              [Roster.record Example.jane; Roster.record Example.mohammed]))).
  - repeat constructor.
  - vm_compute. reflexivity.
Defined.

Lemma find_accepted_submission_unreadable_witness :
  @find_accepted_submission Example.python
    (JList ([Example.submission 98 "2024-03-01T10:00:00Z"]
            ++ Sample.undated
            :: [Example.submission 99 "2024-03-02T09:00:00Z"]))
  = Raise KeyError.
Proof.
  apply (@find_accepted_submission_unreadable Example.python).
  - repeat constructor. eexists. vm_compute. reflexivity.
  - reflexivity.
Defined.

Lemma student_failure_stops_loop_witness :
  Sample.loop Sample.world_undated
    ([Roster.record Example.kashyap]
     ++ Roster.record Example.jane :: [Roster.record Example.mohammed])
  = ([Stdout (MISSING_EMAIL_URL_TEMPLATE "KASHYAP KOUTILYA%20ADIPUDI")]
       ++ events (fetch_submissions Sample.world_undated (JInt 7)) ++ [Sleep],
     Raise KeyError).
Proof.
  apply (@student_failure_stops_loop Example.python Sample.world_undated
           Example.noon Example.user_dict [Roster.record Example.kashyap]
           [Roster.record Example.mohammed] (Roster.record Example.jane)
           (JInt 7)
           (JList [Example.submission 98 "2024-03-01T10:00:00Z"; Sample.undated;
                   Example.submission 99 "2024-03-02T09:00:00Z"])).
  - vm_compute. reflexivity.
  - vm_compute. reflexivity.
  - reflexivity.
  - left. vm_compute. reflexivity.
  - vm_compute. reflexivity.
Defined.

Lemma directory_without_users_witness :
  fetch_users Sample.world_no_users_entry
  = ([HttpGet USERS_API_URL],
     Ok (default (JList []) (dict_lookup "users" [])))
  /\ @main Example.python Sample.world_no_users_entry
     = ([] ++ [HttpGet USERS_API_URL; Stdout NO_USERS_MESSAGE], Ok tt).
Proof.
  apply (@directory_without_users Example.python Sample.world_no_users_entry
           {| status_code := 200; body := Some (JDict []) |} [] []
           (Roster.record Example.jane)
           [Roster.record Example.kashyap; Roster.record Example.mohammed]);
    reflexivity.
Defined.

Lemma directory_answer_not_an_object_witness :
  fetch_users Sample.world_offline
  = ([HttpGet USERS_API_URL], Raise ConnectionError)
  /\ @main Example.python Sample.world_offline
     = ([] ++ [HttpGet USERS_API_URL], Raise ConnectionError).
Proof.
  apply (@directory_answer_not_an_object Example.python Sample.world_offline []
           (Roster.record Example.jane)
           [Roster.record Example.kashyap; Roster.record Example.mohammed]).
  - reflexivity.
  - left. split; reflexivity.
Defined.

Lemma submissions_answer_not_an_object_witness :
  @main_loop_body Example.python Sample.world_not_json Example.noon
    Example.user_dict (Roster.record Example.jane)
  = ([HttpGet (SUBMISSIONS_API_URL_TEMPLATE (py_str (JInt 7)))],
     Raise JSONDecodeError)
  /\ Sample.loop Sample.world_not_json
       ([] ++ Roster.record Example.jane :: [Roster.record Example.mohammed])
     = ([] ++ [HttpGet (SUBMISSIONS_API_URL_TEMPLATE (py_str (JInt 7)))],
        Raise JSONDecodeError).
Proof.
  apply (@submissions_answer_not_an_object Example.python
           Sample.world_not_json Example.noon Example.user_dict []
           [Roster.record Example.mohammed] (Roster.record Example.jane)
           (JInt 7) JSONDecodeError []).
  - vm_compute. reflexivity.
  - right. exists {| status_code := 200; body := None |}.
    split; [vm_compute; reflexivity|]. split; [reflexivity|].
    left. split; reflexivity.
  - reflexivity.
Defined.

Lemma user_dict_last_entry_wins_witness :
  Sample.user_dict_twice !! KStr "a@uni.edu" = Some (JInt 3)
  /\ Sample.user_dict_twice !! KStr "c@uni.edu" = None.
Proof.
  split.
  - apply (proj1 (user_dict_last_entry_wins Sample.directory_twice
                    Sample.user_dict_twice "a@uni.edu" eq_refl)
             [Example.user "a@uni.edu" 1; Example.user "b@uni.edu" 2]
             (Example.user "a@uni.edu" 3) []);
      [reflexivity | reflexivity | reflexivity | constructor].
  - apply (proj2 (user_dict_last_entry_wins Sample.directory_twice
                    Sample.user_dict_twice "c@uni.edu" eq_refl)).
    repeat constructor; discriminate.
Defined.

Lemma directory_entry_failure_witness :
  user_dict_of (JList ([Example.user "jane@uni.edu" 7]
                       ++ JDict [("id", JInt 8)]
                       :: [Example.user "malh0057@uni.sydney.edu.au" 9]))
  = Raise KeyError
  /\ (KeyError = KeyError \/ KeyError = TypeError)
  /\ @main Example.python Sample.world_no_email
     = ([] ++ [HttpGet USERS_API_URL], Raise KeyError).
Proof.
  apply (@directory_entry_failure Example.python Sample.world_no_email []
           [HttpGet USERS_API_URL] (Roster.record Example.jane)
           [Roster.record Example.kashyap; Roster.record Example.mohammed]).
  - repeat constructor. eexists. reflexivity.
  - reflexivity.
  - reflexivity.
  - reflexivity.
Defined.

Lemma find_accepted_submission_any_order_witness :
  @find_accepted_submission Example.python
    (JList [Example.submission 99 "2024-03-02T09:00:00Z";
            Example.submission 98 "2024-03-01T10:00:00Z";
            Example.submission 97 "2024-02-29T23:59:59.500Z"])
  = @find_accepted_submission Example.python (JList Example.submissions_of_jane).
Proof.
  apply (@find_accepted_submission_any_order Example.python
           Example.submissions_of_jane _ Example.timestamps_of_jane).
  - repeat constructor.
  - apply (bool_decide_unpack (NoDup Example.timestamps_of_jane)).
    vm_compute. exact I.
  - apply perm_swap.
Defined.

Lemma read_student_data_blank_and_long_lines_witness :
  @read_student_data Example.python Sample.world_table STUDENTS_FILE
  = ([], Ok (omap Table.record (map fst Sample.table))).
Proof.
  apply (@read_student_data_blank_and_long_lines Example.python
           Sample.world_table STUDENTS_FILE Sample.table).
  - reflexivity.
  - repeat (constructor;
            [split; [reflexivity
                    | first [left; reflexivity | right; simpl; lia]]|]).
    constructor.
  - reflexivity.
Defined.

Lemma read_student_data_short_row_witness :
  @read_student_data Example.python Sample.world_table_short STUDENTS_FILE
  = ([], Raise AttributeError)
  /\ @main Example.python Sample.world_table_short = ([], Raise AttributeError).
Proof.
  destruct (@read_student_data_short_row Example.python
              Sample.world_table_short STUDENTS_FILE
              [(["Jane"; "Doe"; "-"; "jane@uni.edu"], Roster.LF)]
              ["MOHAMMED"; "ALHUSSAIN"] Roster.CRLF "KASHYAP KOUTILYA")
    as [Hread Hmain].
  - reflexivity.
  - constructor; [|constructor].
    split; [reflexivity|]. split; [right; simpl; lia | reflexivity].
  - reflexivity.
  - simpl. lia.
  - left. reflexivity.
  - split; [exact Hread | exact (Hmain eq_refl)].
Defined.

Lemma read_student_data_exceptions_witness :
  events (@read_student_data Example.python Example.short_roster STUDENTS_FILE)
  = []
  /\ (AttributeError = OSError
      /\ filesystem Example.short_roster STUDENTS_FILE = Unreadable
      \/ (AttributeError = AttributeError \/ AttributeError = CsvError)
         /\ exists content,
              filesystem Example.short_roster STUDENTS_FILE = FileText content).
Proof.
  apply (@read_student_data_exceptions Example.python Example.short_roster
           STUDENTS_FILE AttributeError).
  vm_compute. reflexivity.
Defined.

Lemma main_normal_end_witness :
  exists students,
    outcome (@read_student_data Example.python Example.world STUDENTS_FILE)
    = Ok students
    /\ (students = []
        /\ last (stdout_of (events (@main Example.python Example.world)))
           = Some NO_STUDENTS_MESSAGE
        /\ count is_request (events (@main Example.python Example.world))
           = 0%nat
        /\ count is_pause (events (@main Example.python Example.world)) = 0%nat
        \/ students <> []
           /\ stdout_of (events (@main Example.python Example.world))
              = [NO_USERS_MESSAGE]
           /\ count is_request (events (@main Example.python Example.world))
              = 1%nat
           /\ count is_pause (events (@main Example.python Example.world))
              = 0%nat
        \/ students <> []
           /\ length (stdout_of (events (@main Example.python Example.world)))
              = length students
           /\ exists users user_dict,
                outcome (fetch_users Example.world) = Ok users
                /\ user_dict_of users = Ok user_dict
                /\ count is_request (events (@main Example.python Example.world))
                   = S (count (in_directory user_dict) students)
                /\ count is_pause (events (@main Example.python Example.world))
                   = count (in_directory user_dict) students).
Proof.
  apply (@main_normal_end Example.python Example.world).
  vm_compute. reflexivity.
Defined.

Lemma read_student_data_normal_form_witness :
  Forall (fun s => Text.strip (first_name s) = first_name s
                   /\ Text.strip (last_name s) = last_name s
                   /\ Text.strip (email s) = email s
                   /\ Text.lower (email s) = email s) Sample.students.
Proof.
  apply (@read_student_data_normal_form Example.python Example.world
           STUDENTS_FILE).
  reflexivity.
Defined.

